(** * otel-demo-lite: the checkout orchestrator and its services

    A shallow embedding of the Go and JavaScript services of the demo
    (checkout, cart, shipping, fraud detection, payment, frontend) and of
    the span recorder they drive, with the properties of the specification
    stated and settled over it. *)

From Stdlib Require Import ZArith List String Ascii Bool Lia QArith Qround.
From stdpp Require Import gmap strings list fin_maps pretty.

Local Open Scope string_scope.
Local Open Scope Z_scope.
Local Open Scope list_scope.

(** ** Text helpers *)

(** The double-quote character, for the JSON texts the handlers write. *)
Definition dq : string := String "034"%char EmptyString.

(** [jstr s] is [s] between double quotes, as it stands in a Go or JS
    literal such as [{"status":"ok"}]. *)
Definition jstr (s : string) : string := dq +:+ s +:+ dq.

(** [fmt.Sprintf("%.2f", x)] and [toFixed(2)] of an amount that is a whole
    number of hundredths; amounts are kept in hundredths throughout. *)
Definition two_digits (n : Z) : string :=
  if n <? 10 then "0" +:+ pretty n else pretty n.

Definition fmt_hundredths (c : Z) : string :=
  pretty (c / 100) +:+ "." +:+ two_digits (c mod 100).

(** ** The span recorder (OpenTelemetry API as the services use it) *)

Module Otel.

Inductive SpanKind :=
| SpanKindInternal | SpanKindServer | SpanKindClient
| SpanKindProducer | SpanKindConsumer.

(** Status codes. *)
Inductive Code := Unset | Error | Ok.

Inductive Value :=
| VString (s : string)
| VInt (n : Z)
| VBool (b : bool)
| VHundredths (c : Z)
| VStringSlice (l : list string).

Definition KeyValue : Type := string * Value.

Record Event := mkEvent { ev_name : string; ev_attrs : list KeyValue }.

(** A span's parent: none (a root), a span of this process, or a span of
    the caller, known by the identifier carried in the request headers. *)
Inductive Parent := NoParent | LocalParent (id : nat) | RemoteParent (span_id : string).

Record Span := mkSpan {
  name : string;
  kind : SpanKind;
  parent : Parent;
  attributes : list KeyValue;
  events : list Event;
  status : Code;
  ended : bool
}.

Definition newSpan (n : string) (k : SpanKind) (p : Parent) (attrs : list KeyValue) : Span :=
  mkSpan n k p attrs [] Unset false.

(** Every operation on an ended span is ignored. *)
Definition span_SetAttributes (kvs : list KeyValue) (s : Span) : Span :=
  if ended s then s
  else mkSpan (name s) (kind s) (parent s) (attributes s ++ kvs) (events s) (status s) false.

Definition span_AddEvent (n : string) (attrs : list KeyValue) (s : Span) : Span :=
  if ended s then s
  else mkSpan (name s) (kind s) (parent s) (attributes s)
              (events s ++ [mkEvent n attrs]) (status s) false.

(** [RecordError] and [recordException] add an event named [exception]
    that carries the message. They leave the status as it is: setting
    it is the separate call [SetStatus], which the JavaScript services
    make right after [recordException] and the Go services never make. *)
Definition span_RecordError (msg : string) (s : Span) : Span :=
  span_AddEvent "exception" [("exception.message", VString msg)] s.

(** [SetStatus]: [Ok] is final, [Error] replaces [Unset], and setting
    [Unset] changes nothing. *)
Definition span_SetStatus (c : Code) (s : Span) : Span :=
  if ended s then s
  else match status s, c with
       | Ok, _ => s
       | _, Unset => s
       | _, _ => mkSpan (name s) (kind s) (parent s) (attributes s) (events s) c false
       end.

(** [End] is idempotent. *)
Definition span_End (s : Span) : Span :=
  mkSpan (name s) (kind s) (parent s) (attributes s) (events s) (status s) true.

Definition is_root (s : Span) : bool :=
  match parent s with LocalParent _ => false | _ => true end.

Definition kind_eqb (a b : SpanKind) : bool :=
  match a, b with
  | SpanKindInternal, SpanKindInternal | SpanKindServer, SpanKindServer
  | SpanKindClient, SpanKindClient | SpanKindProducer, SpanKindProducer
  | SpanKindConsumer, SpanKindConsumer => true
  | _, _ => false
  end.

End Otel.

(** ** HTTP *)

Module Http.

Record Response := mkResponse { statusCode : Z; body : string }.

Definition is_2xx (r : Response) : bool := (200 <=? statusCode r) && (statusCode r <? 300).

(** The base URLs of go/config/config.go. *)
Inductive Service :=
| FrontendURL | PaymentURL | ShippingURL | CheckoutURL | CartURL
| ProductCatalogURL | RecommendationURL | AdURL | EmailURL | CurrencyURL
| AccountingURL | FraudDetectionURL | QuoteURL.

Definition service_eqb (a b : Service) : bool :=
  match a, b with
  | FrontendURL, FrontendURL | PaymentURL, PaymentURL | ShippingURL, ShippingURL
  | CheckoutURL, CheckoutURL | CartURL, CartURL | ProductCatalogURL, ProductCatalogURL
  | RecommendationURL, RecommendationURL | AdURL, AdURL | EmailURL, EmailURL
  | CurrencyURL, CurrencyURL | AccountingURL, AccountingURL
  | FraudDetectionURL, FraudDetectionURL | QuoteURL, QuoteURL => true
  | _, _ => false
  end.

(** An outbound request: method, base URL, path and query, and what the
    instrumented transport injects (the calling span and the baggage). *)
Record Request := mkRequest {
  r_method : string;
  r_service : Service;
  r_path : string;
  r_query : list (string * string);
  r_span : option nat;
  r_baggage : list (string * string)
}.

(** What [client.Do] returns: an error, or a response. *)
Inductive Outcome :=
| TransportError (msg : string)
| Responded (code : Z) (payload : string).

(** An inbound request. The query is the decoded one; [req.url] has no
    query part exactly when [q_query] is empty. *)
Record Inbound := mkInbound {
  q_method : string;
  q_path : string;
  q_query : list (string * string);
  q_traceparent : option string;
  q_baggage : list (string * string)
}.

Definition query_Get (k : string) (q : list (string * string)) : string :=
  match List.find (fun kv => String.eqb (fst kv) k) q with
  | Some kv => snd kv
  | None => EmptyString
  end.

(** ** Go's [http.ServeMux]

    A pattern that ends in a slash matches every path it is a prefix of;
    any other pattern matches that path only. The longest matching
    pattern wins; with none the mux answers 404. A path is the path of
    the request line, taken to carry no percent-escape. *)
Definition pattern_matches (pat path : string) : bool :=
  if String.eqb pat path then true
  else match String.get (Nat.pred (String.length pat)) pat with
       | Some "/"%char => String.prefix pat path
       | _ => false
       end.

Fixpoint mux_lookup {H : Type} (routes : list (string * H)) (path : string)
  : option (string * H) :=
  match routes with
  | [] => None
  | (pat, h) :: rest =>
      let best := mux_lookup rest path in
      if pattern_matches pat path then
        match best with
        | Some (pat', h') =>
            if (String.length pat' <? String.length pat)%nat then Some (pat, h) else best
        | None => Some (pat, h)
        end
      else best
  end.

(** What a route leads to: a handler, or an answer written in place. *)
Inductive Target (H : Type) :=
| Handle (h : H)
| Answer (resp : Response).
Arguments Handle {H} h.
Arguments Answer {H} resp.

Definition NotFound : Response :=
  mkResponse 404 ("404 page not found" +:+ String "010"%char EmptyString).

(** [http.Error(w, msg, code)] *)
Definition http_Error (msg : string) (code : Z) : Response :=
  mkResponse code (msg +:+ String "010"%char EmptyString).

(** [strings.Split(p, "/")] *)
Fixpoint Split (p : string) : list string :=
  match p with
  | EmptyString => [EmptyString]
  | String c rest =>
      if Ascii.eqb c "/" then EmptyString :: Split rest
      else match Split rest with
           | e :: more => String c e :: more
           | [] => [String c EmptyString]
           end
  end.

(** [path.Clean] of a rooted path: an empty or [.] element goes; a [..]
    element goes with the element before it, and alone at the root.
    The elements kept so far are held last first. *)
Definition clean_element (kept : list string) (e : string) : list string :=
  if String.eqb e EmptyString || String.eqb e "." then kept
  else if String.eqb e ".." then List.tl kept
  else e :: kept.

Definition path_Clean (p : string) : string :=
  "/" +:+ String.concat "/" (rev (fold_left clean_element (Split p) [])).

(** [strings.HasSuffix(p, "/")] *)
Definition HasSuffix_slash (p : string) : bool :=
  match String.get (Nat.pred (String.length p)) p with
  | Some "/"%char => true
  | _ => false
  end.

(** [cleanPath] of net/http: the canonical path, with the trailing
    slash that [path.Clean] takes away put back. *)
Definition cleanPath (p : string) : string :=
  if String.eqb p EmptyString then "/"
  else
    let p := if String.prefix "/" p then p else "/" +:+ p in
    let np := path_Clean p in
    if HasSuffix_slash p && negb (String.eqb np "/") then np +:+ "/" else np.

(** [htmlEscape] of net/http *)
Definition htmlEscape_char (c : ascii) : string :=
  if Ascii.eqb c "&" then "&amp;"
  else if Ascii.eqb c "<" then "&lt;"
  else if Ascii.eqb c ">" then "&gt;"
  else if Ascii.eqb c "034" then "&#34;"
  else if Ascii.eqb c "'" then "&#39;"
  else String c EmptyString.

Fixpoint htmlEscape (s : string) : string :=
  match s with
  | EmptyString => EmptyString
  | String c rest => htmlEscape_char c +:+ htmlEscape rest
  end.

(** What [http.RedirectHandler(url, http.StatusMovedPermanently)] writes
    for a rooted path: the status 301 and, to a GET, the short HTML
    body. The Location header is not kept, and the query of the
    request, which follows the path in both, is left out. *)
Definition http_Redirect (method url : string) : Response :=
  mkResponse 301
    (if String.eqb method "GET"
     then "<a href=" +:+ dq +:+ htmlEscape url +:+ dq +:+ ">Moved Permanently</a>."
          +:+ String "010"%char (String "010"%char EmptyString)
     else EmptyString).

(** The text carries no percent-escape. *)
Definition escape_free (s : string) : bool :=
  negb (existsb (Ascii.eqb "%") (list_ascii_of_string s)).

(** A pattern of the mux, as registered. *)
Definition registered {H : Type} (routes : list (string * Target H)) (pat : string) : bool :=
  existsb (fun e => String.eqb (fst e) pat) routes.

(** The handler [mux.Handler(r)] finds. The path is cleaned first (not
    that of a CONNECT). A path without trailing slash that no pattern
    matches exactly is redirected to the path with the slash, when that
    is a pattern; a path that cleaning changes is redirected to the
    cleaned path; and otherwise the longest matching pattern wins. *)
Definition ServeMux {H : Type} (routes : list (string * Target H)) (method path : string)
  : Target H :=
  let p := if String.eqb method "CONNECT" then path else cleanPath path in
  let best := mux_lookup routes p in
  let exact := match best with
               | Some (pat, _) => String.eqb pat p
               | None => false
               end in
  if negb exact && negb (HasSuffix_slash p) && registered routes (p +:+ "/")
  then Answer (http_Redirect method (cleanPath path +:+ "/"))
  else if negb (String.eqb p path)
  then Answer (http_Redirect method p)
  else match best with
       | Some (_, t) => t
       | None => Answer NotFound
       end.

(** The payload of the health routes. *)
Definition status_ok : string :=
  "{" +:+ jstr "status" +:+ ":" +:+ jstr "ok" +:+ "}".

(** The 404 of the JavaScript servers. *)
Definition error_not_found : string :=
  "{" +:+ jstr "error" +:+ ":" +:+ jstr "Not found" +:+ "}".

End Http.

(** ** The process: spans, outbound calls, logs, counters, random draws *)

Module Runtime.
Import Otel Http.

Inductive Level := Info | Warn | ErrorLevel.

Record LogLine := mkLog { l_level : Level; l_msg : string }.

Record Sample := mkSample { m_name : string; m_labels : list (string * string) }.

(** What the outside decides: the reply to the [n]-th outbound call, the
    [n]-th draw of the random generator (read as an integer by
    [rand.Intn], as a number of the interval from 0 to 1 by
    [rand.Float32] and [Math.random]), the [n]-th UUID, and how
    [encoding/json] reads a field out of a reply body. *)
Record Env := mkEnv {
  net : nat -> Request -> Outcome;
  rnd : nat -> Z;
  frand : nat -> Q;
  uuids : nat -> string;
  json_int : string -> string -> Z;
  json_string : string -> string -> string
}.

(** The spans live in a store and are known by their index in it: the
    span a context carries and the span a handler mutates are the same
    object. *)
Record World := mkWorld {
  spans : list Span;
  exchanges : list (Request * Outcome);
  logs : list LogLine;
  samples : list Sample;
  nrand : nat;
  nuuid : nat
}.

Definition empty_world : World := mkWorld [] [] [] [] 0 0.

(** The span a request to a server opens: the first span it adds. *)
Definition server_span (w w' : World) : option Span := spans w' !! length (spans w).

Definition M (A : Type) : Type := World -> A * World.

Definition ret {A} (a : A) : M A := fun w => (a, w).

Definition bind {A B} (c : M A) (k : A -> M B) : M B :=
  fun w => let (a, w') := c w in k a w'.

Definition exec {A} (c : M A) (w : World) : World := snd (c w).

Declare Scope m_scope.
Delimit Scope m_scope with M.
Notation "x <- c ;; k" := (bind c (fun x => k))
  (at level 100, c at next level, right associativity) : m_scope.
Notation "c ;; k" := (bind c (fun _ => k))
  (at level 100, right associativity) : m_scope.
Local Open Scope m_scope.

Definition with_spans (f : list Span -> list Span) : M unit :=
  fun w => (tt, mkWorld (f (spans w)) (exchanges w) (logs w) (samples w) (nrand w) (nuuid w)).

(** A context carries the current span (if any) and the baggage. *)
Record Context := mkContext {
  ctx_span : option nat;
  ctx_remote : option string;
  ctx_baggage : list (string * string)
}.

Definition Background : Context := mkContext None None [].

(** [trace.SpanFromContext]: the span of the context, or a span that
    records nothing and whose span context is not valid. *)
Definition SpanFromContext (ctx : Context) : option nat := ctx_span ctx.

Definition IsValid (h : option nat) : bool :=
  match h with Some _ => true | None => false end.

Definition parent_of (ctx : Context) : Parent :=
  match ctx_span ctx, ctx_remote ctx with
  | Some p, _ => LocalParent p
  | None, Some r => RemoteParent r
  | None, None => NoParent
  end.

(** [tracer.Start(ctx, name, opts...)] *)
Definition Start (ctx : Context) (n : string) (k : SpanKind) (attrs : list KeyValue)
  : M (Context * option nat) :=
  fun w =>
    let id := length (spans w) in
    ((mkContext (Some id) (ctx_remote ctx) (ctx_baggage ctx), Some id),
     mkWorld (spans w ++ [newSpan n k (parent_of ctx) attrs])
             (exchanges w) (logs w) (samples w) (nrand w) (nuuid w)).

Definition on_span (h : option nat) (f : Span -> Span) : M unit :=
  match h with
  | Some id => with_spans (alter f id)
  | None => ret tt
  end.

Definition SetAttributes (h : option nat) (kvs : list KeyValue) : M unit :=
  on_span h (span_SetAttributes kvs).
Definition AddEvent (h : option nat) (n : string) (attrs : list KeyValue) : M unit :=
  on_span h (span_AddEvent n attrs).
Definition RecordError (h : option nat) (msg : string) : M unit :=
  on_span h (span_RecordError msg).
Definition SetStatus (h : option nat) (c : Code) : M unit :=
  on_span h (span_SetStatus c).
Definition End (h : option nat) : M unit :=
  on_span h span_End.

Definition log (lv : Level) (msg : string) : M unit :=
  fun w => (tt, mkWorld (spans w) (exchanges w) (logs w ++ [mkLog lv msg])
                        (samples w) (nrand w) (nuuid w)).

Definition record_sample (n : string) (labels : list (string * string)) : M unit :=
  fun w => (tt, mkWorld (spans w) (exchanges w) (logs w)
                        (samples w ++ [mkSample n labels]) (nrand w) (nuuid w)).

Section WithEnv.
Variable env : Env.

(** [rand.Intn(n)] *)
Definition Intn (n : Z) : M Z :=
  fun w => (rnd env (nrand w) mod n,
            mkWorld (spans w) (exchanges w) (logs w) (samples w) (S (nrand w)) (nuuid w)).

(** [rand.Float32()] and [Math.random()] *)
Definition Float32 : M Q :=
  fun w => (frand env (nrand w),
            mkWorld (spans w) (exchanges w) (logs w) (samples w) (S (nrand w)) (nuuid w)).

(** [uuid.New().String()] and [randomUUID()] *)
Definition uuid_New : M string :=
  fun w => (uuids env (nuuid w),
            mkWorld (spans w) (exchanges w) (logs w) (samples w) (nrand w) (S (nuuid w))).

(** What the instrumented transport makes of a reply: a transport
    error or a status of 400 and above marks the client span. *)
Definition client_status (o : Outcome) : Code :=
  match o with
  | TransportError _ => Error
  | Responded code _ => if 400 <=? code then Error else Unset
  end.

(** [client.Do(req)] through [otelhttp.NewTransport]: a client span
    under the span of the request's context, the trace context and
    the baggage injected in the headers, then the call itself. Every
    caller closes the body (or has none to close) before its own span
    ends, which is when the client span ends. *)
Definition Do (ctx : Context) (method : string) (svc : Service) (path : string)
           (query : list (string * string)) : M Outcome :=
  started <- Start ctx ("HTTP " +:+ method) SpanKindClient [] ;;
  let cspan := snd started in
  o <- (fun w =>
          let req := mkRequest method svc path query cspan (ctx_baggage ctx) in
          let o := net env (length (exchanges w)) req in
          (o, mkWorld (spans w) (exchanges w ++ [(req, o)]) (logs w) (samples w)
                      (nrand w) (nuuid w))) ;;
  SetStatus cspan (client_status o) ;;
  End cspan ;;
  ret o.

(** [otelhttp.NewHandler(h, operation)]: a server span named after the
    operation, child of the caller's span when the request carries a
    trace context; once the handler has written its response a status
    of 500 and above marks the span, and the span ends. *)
Definition otelhttp_NewHandler (operation : string)
           (h : Context -> Inbound -> M Response) (r : Inbound) : M Response :=
  started <- Start (mkContext None (q_traceparent r) (q_baggage r))
                   operation SpanKindServer [] ;;
  let ctx := fst started in
  let span := snd started in
  resp <- h ctx r ;;
  (if 500 <=? statusCode resp then SetStatus span Error else ret tt) ;;
  End span ;;
  ret resp.

End WithEnv.

End Runtime.

(** ** Product catalog: the table the other services draw product ids from *)

Module ProductCatalog.
Import Runtime.
Local Open Scope m_scope.

Record Product := mkProduct {
  ID : string;
  Name : string;
  Price : Z  (* hundredths *)
}.

Definition products : list Product :=
  [ mkProduct "OLJCESPC7Z" "Sunglasses" 1999;
    mkProduct "66VCHSJNUP" "Tank Top" 1899;
    mkProduct "1YMWWN1N4O" "Watch" 10999;
    mkProduct "L9ECAV7KIM" "Loafers" 8999;
    mkProduct "2ZYFJ3GM2N" "Hairdryer" 2499;
    mkProduct "0PUK6V6EV0" "Candle Holder" 1599;
    mkProduct "LS4PSXUNUM" "Salt Shaker" 999;
    mkProduct "9SIQT8TOJO" "Bamboo Glass Jar" 1499;
    mkProduct "6E92ZMYYFZ" "Mug" 1299 ].

(** [products[rand.Intn(len(products))].ID] *)
Definition GetProductID (env : Env) : M string :=
  i <- Intn env (Z.of_nat (length products)) ;;
  ret (ID (nth (Z.to_nat i) products (mkProduct EmptyString EmptyString 0))).

End ProductCatalog.

(** ** go/services/checkout.go *)

Module Checkout.
Import Otel Http Runtime.
Local Open Scope m_scope.

Record orderPrep := mkOrderPrep {
  itemCount : Z;
  total : Z;         (* hundredths *)
  shippingCost : Z;  (* hundredths *)
  productIDs : list string
}.

(** [baggage.Member(k).Value()]: empty when the member is absent. *)
Definition Member (k : string) (bag : list (string * string)) : string :=
  query_Get k bag.

Section WithEnv.
Variable env : Env.

Definition randomCurrency : M string :=
  let currencies := ["USD"; "EUR"; "GBP"; "JPY"; "CAD"] in
  i <- Intn env (Z.of_nat (length currencies)) ;;
  ret (nth (Z.to_nat i) currencies EmptyString).

Definition addToCart (ctx : Context) (userID productID : string) : M (option string) :=
  log Info "AddItem" ;;
  o <- Do env ctx "POST" CartURL "/cart/add"
          [("user_id", userID); ("product_id", productID)] ;;
  match o with
  | TransportError e => log ErrorLevel "AddItem failed" ;; ret (Some e)
  | Responded _ _ => ret None
  end.

Definition getCart (ctx : Context) (userID : string) : M (Z * option string) :=
  log Info "GetCart" ;;
  o <- Do env ctx "GET" CartURL "/cart" [("user_id", userID)] ;;
  match o with
  | TransportError e => log ErrorLevel "GetCart failed" ;; ret (0, Some e)
  | Responded _ payload =>
      let ItemsCount := json_int env "items_count" payload in
      log Info "GetCart result" ;;
      ret (ItemsCount, None)
  end.

Definition emptyCart (ctx : Context) (userID : string) : M (option string) :=
  log Info "EmptyCart" ;;
  o <- Do env ctx "POST" CartURL "/cart/empty" [("user_id", userID)] ;;
  match o with
  | TransportError e => log ErrorLevel "EmptyCart failed" ;; ret (Some e)
  | Responded _ _ => ret None
  end.

(** The loop [for i := 0; i < itemCount; i++] of prepareOrderItems. *)
Fixpoint addItems (n : nat) (ctx : Context) (userID : string) (productIDs : list string)
  : M (list string) :=
  match n with
  | O => ret productIDs
  | S n' =>
      productID <- ProductCatalog.GetProductID env ;;
      let productIDs := (productIDs ++ [productID])%list in
      err <- addToCart ctx userID productID ;;
      match err with
      | Some _ => log Warn "Failed to add item to cart"
      | None => ret tt
      end ;;
      addItems n' ctx userID productIDs
  end.

Definition prepareOrderItems (ctx : Context) (userID currency : string)
  : M (orderPrep * option string) :=
  started <- Start ctx "prepareOrderItemsAndShippingQuoteFromCart" SpanKindInternal [] ;;
  let ctx := fst started in
  let span := snd started in
  log Info "PrepareOrderItems started" ;;
  SetAttributes span [("app.user.id", VString userID);
                      ("app.user.currency", VString currency)] ;;
  let itemCount := 3 in
  productIDs <- addItems (Z.to_nat itemCount) ctx userID [] ;;
  AddEvent span "items_added_to_cart" [("app.cart.items.count", VInt itemCount)] ;;
  got <- getCart ctx userID ;;
  let cartItems := fst got in
  match snd got with
  | Some _ => log Warn "Failed to get cart"
  | None => ret tt
  end ;;
  AddEvent span "cart_retrieved" [("app.user.id", VString userID);
                                  ("app.cart.items.count", VInt cartItems)] ;;
  t <- Intn env 50000 ;;
  let total := t + 1000 in
  s <- Intn env 1000 ;;
  let shippingCost := s + 100 in
  err <- emptyCart ctx userID ;;
  match err with
  | Some _ => log Warn "Failed to empty cart"
  | None => ret tt
  end ;;
  AddEvent span "cart_emptied" [] ;;
  End span ;;
  ret (mkOrderPrep itemCount total shippingCost productIDs, None).

Definition chargeCard (ctx : Context) (amount : Z) (currency : string)
  : M (string * option string) :=
  started <- Start ctx "chargeCard" SpanKindInternal [] ;;
  let ctx := fst started in
  let span := snd started in
  log Info "ChargeCard" ;;
  SetAttributes span [("saga.step", VString "payment");
                      ("payment.amount", VHundredths amount);
                      ("payment.currency", VString currency)] ;;
  o <- Do env ctx "POST" PaymentURL "/charge" [] ;;
  r <- match o with
       | TransportError e =>
           log ErrorLevel "ChargeCard failed" ;; ret (EmptyString, Some e)
       | Responded code payload =>
           if negb (code =? 200) then
             let err := "payment service returned " +:+ pretty code in
             log ErrorLevel "ChargeCard failed" ;; ret (EmptyString, Some err)
           else
             let TransactionID := json_string env "transaction_id" payload in
             log Info "ChargeCard success" ;;
             SetAttributes span [("payment.transaction.id", VString TransactionID)] ;;
             ret (TransactionID, None)
       end ;;
  End span ;;
  ret r.

Definition shipOrder (ctx : Context) (itemCount : Z) : M (string * option string) :=
  started <- Start ctx "shipOrder" SpanKindInternal [] ;;
  let ctx := fst started in
  let span := snd started in
  log Info "ShipOrder" ;;
  SetAttributes span [("saga.step", VString "shipping");
                      ("shipping.items.count", VInt itemCount)] ;;
  o <- Do env ctx "POST" ShippingURL "/ship" [] ;;
  r <- match o with
       | TransportError e =>
           log ErrorLevel "ShipOrder failed" ;; ret (EmptyString, Some e)
       | Responded code payload =>
           if negb (code =? 200) then
             let err := "shipping service returned " +:+ pretty code in
             log ErrorLevel "ShipOrder failed" ;; ret (EmptyString, Some err)
           else
             let TrackingID := json_string env "tracking_id" payload in
             log Info "ShipOrder success" ;;
             SetAttributes span [("shipping.tracking.id", VString TrackingID)] ;;
             ret (TrackingID, None)
       end ;;
  End span ;;
  ret r.

Definition sendOrderConfirmation (ctx : Context) (orderID userID : string)
  : M (option string) :=
  started <- Start ctx "sendOrderConfirmation" SpanKindInternal [] ;;
  let ctx := fst started in
  let span := snd started in
  log Info "SendOrderConfirmation" ;;
  SetAttributes span [("saga.step", VString "email");
                      ("app.order.id", VString orderID);
                      ("app.user.id", VString userID)] ;;
  o <- Do env ctx "POST" EmailURL "/send" [] ;;
  r <- match o with
       | TransportError e =>
           log ErrorLevel "SendOrderConfirmation failed" ;; ret (Some e)
       | Responded code _ =>
           if negb (code =? 200) then
             let err := "email service returned " +:+ pretty code in
             log ErrorLevel "SendOrderConfirmation failed" ;; ret (Some err)
           else
             log Info "SendOrderConfirmation success" ;; ret None
       end ;;
  End span ;;
  ret r.

Definition publishToKafka (ctx : Context) (orderID : string) : M unit :=
  started <- Start ctx "orders publish" SpanKindProducer
               [("messaging.system", VString "kafka");
                ("messaging.destination.name", VString "orders");
                ("messaging.operation.type", VString "publish");
                ("messaging.kafka.destination.partition", VString "0");
                ("app.order.id", VString orderID)] ;;
  let ctx := fst started in
  let span := snd started in
  log Info "PublishToKafka" ;;
  _ <- Intn env 10 ;;  (* the length of the sleep *)
  _ <- Do env ctx "POST" AccountingURL "/consume" [] ;;
  _ <- Do env ctx "POST" FraudDetectionURL "/consume" [] ;;
  End span.

(** The loop [for _, productID := range productIDs] of getProductDetails. *)
Fixpoint fetchProducts (ctx : Context) (productIDs : list string) : M unit :=
  match productIDs with
  | [] => ret tt
  | productID :: rest =>
      log Info "FetchProduct" ;;
      o <- Do env ctx "GET" ProductCatalogURL ("/products/" +:+ productID) [] ;;
      match o with
      | TransportError _ => log Warn "FetchProduct failed"
      | Responded _ _ => ret tt
      end ;;
      fetchProducts ctx rest
  end.

Definition getProductDetails (ctx : Context) (productIDs : list string) : M unit :=
  started <- Start ctx "getProductDetails" SpanKindClient [] ;;
  let ctx := fst started in
  let span := snd started in
  log Info "GetProductDetails" ;;
  SetAttributes span [("app.products.count", VInt (Z.of_nat (length productIDs)));
                      ("app.product.ids", VStringSlice productIDs)] ;;
  fetchProducts ctx productIDs ;;
  End span.

Definition getCurrencyConversion (ctx : Context) (currency : string) (amount : Z) : M unit :=
  started <- Start ctx "getCurrencyConversion" SpanKindClient [] ;;
  let ctx := fst started in
  let span := snd started in
  log Info "GetCurrencyConversion" ;;
  SetAttributes span [("app.currency.from", VString "USD");
                      ("app.currency.to", VString currency);
                      ("app.currency.amount", VHundredths amount)] ;;
  o <- Do env ctx "GET" CurrencyURL "/convert"
          [("from", "USD"); ("to", currency); ("amount", fmt_hundredths amount)] ;;
  match o with
  | TransportError _ => log Warn "GetCurrencyConversion failed"
  | Responded _ _ => ret tt
  end ;;
  End span.

Definition getRecommendations (ctx : Context) (userID : string) (productIDs : list string)
  : M unit :=
  started <- Start ctx "getRecommendations" SpanKindClient [] ;;
  let ctx := fst started in
  let span := snd started in
  log Info "GetRecommendations" ;;
  SetAttributes span [("app.user.id", VString userID);
                      ("app.product.ids", VStringSlice productIDs)] ;;
  o <- Do env ctx "GET" RecommendationURL "/recommendations" [("user_id", userID)] ;;
  match o with
  | TransportError _ => log Warn "GetRecommendations failed"
  | Responded _ _ => ret tt
  end ;;
  End span.

Definition getAds (ctx : Context) : M unit :=
  started <- Start ctx "getAds" SpanKindClient [] ;;
  let ctx := fst started in
  let span := snd started in
  let categories := ["clothing"; "electronics"; "home"; "outdoor"] in
  i <- Intn env (Z.of_nat (length categories)) ;;
  let category := nth (Z.to_nat i) categories EmptyString in
  log Info "GetAds" ;;
  SetAttributes span [("app.ads.category", VString category)] ;;
  o <- Do env ctx "GET" AdURL "/ads" [("category", category)] ;;
  match o with
  | TransportError _ => log Warn "GetAds failed"
  | Responded _ _ => ret tt
  end ;;
  End span.

(** The body of placeOrder once its span is known; every [return] of
    the source is the end of a branch here. *)
Definition placeOrder_body (ctx : Context) (span : option nat) : M unit :=
  n <- Intn env 10000 ;;
  let userID := "user-" +:+ pretty n in
  currency <- randomCurrency ;;
  orderID <- uuid_New env ;;
  SetAttributes span [("app.user.id", VString userID);
                      ("app.user.currency", VString currency)] ;;
  (if String.eqb (Member "synthetic_request" (ctx_baggage ctx)) "true"
   then SetAttributes span [("app.synthetic", VBool true)] else ret tt) ;;
  (if negb (String.eqb (Member "session.id" (ctx_baggage ctx)) EmptyString)
   then SetAttributes span [("session.id", VString (Member "session.id" (ctx_baggage ctx)))]
   else ret tt) ;;
  log Info "PlaceOrder started" ;;
  (* Step 1: prepare order items *)
  prepared <- prepareOrderItems ctx userID currency ;;
  let prep := fst prepared in
  match snd prepared with
  | Some err => RecordError span err ;; log ErrorLevel "Prepare failed"
  | None =>
      AddEvent span "prepared" [("app.order.items.count", VInt (itemCount prep))] ;;
      getProductDetails ctx (productIDs prep) ;;
      AddEvent span "product_details_fetched" [] ;;
      getCurrencyConversion ctx currency (total prep) ;;
      AddEvent span "currency_converted" [] ;;
      getRecommendations ctx userID (productIDs prep) ;;
      AddEvent span "recommendations_fetched" [] ;;
      getAds ctx ;;
      AddEvent span "ads_fetched" [] ;;
      (* Step 2: charge payment *)
      charged <- chargeCard ctx (total prep) currency ;;
      let txID := fst charged in
      match snd charged with
      | Some err => RecordError span err ;; log ErrorLevel "Payment failed"
      | None =>
          AddEvent span "charged" [("app.payment.transaction.id", VString txID)] ;;
          (* Step 3: ship order *)
          shipped <- shipOrder ctx (itemCount prep) ;;
          let trackingID := fst shipped in
          match snd shipped with
          | Some err => RecordError span err ;; log ErrorLevel "Shipping failed"
          | None =>
              AddEvent span "shipped" [("app.shipping.tracking.id", VString trackingID)] ;;
              (* Step 4: confirmation email *)
              err <- sendOrderConfirmation ctx orderID userID ;;
              match err with
              | Some _ => log Warn "Email failed"
              | None => ret tt
              end ;;
              AddEvent span "email_sent" [] ;;
              (* Step 5: publish to the orders topic *)
              publishToKafka ctx orderID ;;
              AddEvent span "published_to_kafka"
                       [("messaging.destination.name", VString "orders")] ;;
              SetAttributes span [("app.order.id", VString orderID);
                                  ("app.order.amount", VHundredths (total prep));
                                  ("app.shipping.amount", VHundredths (shippingCost prep));
                                  ("app.order.items.count", VInt (itemCount prep));
                                  ("app.shipping.tracking.id", VString trackingID)] ;;
              record_sample "app.checkout.orders_total"
                            [("currency", currency); ("status", "success")] ;;
              record_sample "app.checkout.latency" [("currency", currency)] ;;
              log Info "Order placed successfully"
          end
      end
  end.

Definition placeOrder (ctx : Context) : M unit :=
  let span := SpanFromContext ctx in
  if negb (IsValid span) then
    (* batch mode: the function makes its own span and ends it on return *)
    started <- Start ctx "PlaceOrder" SpanKindServer [] ;;
    let ctx := fst started in
    let span := snd started in
    placeOrder_body ctx span ;;
    End span
  else
    placeOrder_body ctx span.

(** The loop [for i := 0; i < count; i++] of RunCheckoutService; the
    draw is the length of the sleep after each order. *)
Fixpoint placeOrders (count : nat) : M unit :=
  match count with
  | O => ret tt
  | S n =>
      placeOrder Background ;;
      _ <- Intn env 300 ;;
      placeOrders n
  end.

Definition RunCheckoutService (count : nat) : M unit :=
  log Info "Checkout Service starting" ;;
  placeOrders count ;;
  log Info "Checkout Service completed all orders".

Definition order_placed : string :=
  "{" +:+ jstr "status" +:+ ": " +:+ jstr "order_placed" +:+ "}".

(** The handler InitCheckoutServer wraps with otelhttp: placeOrder
    returns nothing, and the response is written after it whatever
    happened in it. *)
Definition checkoutHandler (ctx : Context) (r : Inbound) : M Response :=
  placeOrder ctx ;;
  ret (mkResponse 200 order_placed).

End WithEnv.

(** The routes of InitCheckoutServer. *)
Inductive Handler := PlaceOrder.

Definition mux : list (string * Target Handler) :=
  [("/checkout", Handle PlaceOrder); ("/health", Answer (mkResponse 200 status_ok))].

Definition InitCheckoutServer (env : Env) (r : Inbound) : M Response :=
  match ServeMux mux (q_method r) (q_path r) with
  | Handle PlaceOrder => otelhttp_NewHandler "PlaceOrder" (checkoutHandler env) r
  | Answer resp => ret resp
  end.

End Checkout.

(** ** The cart service and its Redis store *)

Module Cart.
Import Otel Http Runtime.

Record CartItem := mkCartItem { ProductID : string; Quantity : Z }.

(** Redis as the cart service uses it: under each key a hash from field
    to value, with the time at which the key expires, if one is set.
    The values are the JSON texts of the items; the store keeps the item
    each text decodes to ([encoding/json] reads back the struct it
    wrote). Time is in seconds. *)
Record Entry := mkEntry { fields : gmap string CartItem; expires : option Z }.

Abbreviation Redis := (gmap string Entry).

(** The entry under a key at a given time: none once the key expired. *)
Definition live (now : Z) (db : Redis) (key : string) : option Entry :=
  match db !! key with
  | Some e =>
      match expires e with
      | Some t => if t <=? now then None else Some e
      | None => Some e
      end
  | None => None
  end.

Definition HSet (now : Z) (db : Redis) (key field : string) (v : CartItem) : Redis :=
  match live now db key with
  | Some e => <[key := mkEntry (<[field := v]> (fields e)) (expires e)]> db
  | None => <[key := mkEntry {[field := v]} None]> db
  end.

Definition Expire (now : Z) (db : Redis) (key : string) (ttl : Z) : Redis :=
  match live now db key with
  | Some e => <[key := mkEntry (fields e) (Some (now + ttl))]> db
  | None => db
  end.

Definition HGetAll (now : Z) (db : Redis) (key : string) : gmap string CartItem :=
  match live now db key with
  | Some e => fields e
  | None => ∅
  end.

Definition Del (db : Redis) (key : string) : Redis := delete key db.

Definition Hour : Z := 3600.

(** One request to the cart service: the request, the time on the Redis
    clock, the draws of [rand.Intn] in the order they are made, and the
    error of the [n]-th Redis command of the request when it fails. *)
Record Call := mkCall {
  request : Inbound;
  now : Z;
  draws : nat -> Z;
  redis_err : nat -> option string
}.

Record Out := mkOut {
  response : Response;
  span : Span;
  db : Redis;
  out_logs : list LogLine;
  out_samples : list Sample
}.

(** [otelhttp.NewHandler] around a handler of this service: the server
    span the handler finds in its context, marked when the response is
    500 or above, and ended. *)
Definition otelhttp_NewHandler (operation : string)
           (h : Call -> Span -> Redis -> Out) (c : Call) (store : Redis) : Out :=
  let parent := match q_traceparent (request c) with
                | Some r => RemoteParent r
                | None => NoParent
                end in
  let o := h c (newSpan operation SpanKindServer parent []) store in
  let s := if 500 <=? statusCode (response o) then span_SetStatus Error (span o) else span o in
  mkOut (response o) (span_End s) (db o) (out_logs o) (out_samples o).

Definition cartKey (userID : string) : string := "cart:" +:+ userID.

(** [user_id] of the query, or a random user when it is empty; with the
    number of draws made. *)
Definition userID_of (c : Call) : string * nat :=
  let userID := query_Get "user_id" (q_query (request c)) in
  if String.eqb userID EmptyString
  then ("user-" +:+ pretty (draws c 0%nat mod 1000), 1%nat)
  else (userID, 0%nat).

Definition addItemHandler (c : Call) (span : Span) (store : Redis) : Out :=
  let (userID, k) := userID_of c in
  let productID0 := query_Get "product_id" (q_query (request c)) in
  let (productID, k) :=
    if String.eqb productID0 EmptyString
    then (ProductCatalog.ID
            (nth (Z.to_nat (draws c k mod Z.of_nat (length ProductCatalog.products)))
                 ProductCatalog.products
                 (ProductCatalog.mkProduct EmptyString EmptyString 0)), S k)
    else (productID0, k) in
  let quantity := draws c k mod 3 + 1 in
  let span := span_SetAttributes [("app.user.id", VString userID);
                                  ("app.product.id", VString productID);
                                  ("app.product.quantity", VInt quantity)] span in
  let item := mkCartItem productID quantity in
  match redis_err c 0%nat with
  | Some err =>
      mkOut (http_Error "Failed to add item" 500) (span_RecordError err span) store
            [mkLog ErrorLevel "Failed to add item to cart"] []
  | None =>
      let store := HSet (now c) store (cartKey userID) productID item in
      (* the result of Expire is not looked at *)
      let store := match redis_err c 1%nat with
                   | Some _ => store
                   | None => Expire (now c) store (cartKey userID) Hour
                   end in
      mkOut (mkResponse 200
               ("{" +:+ jstr "status" +:+ ": " +:+ jstr "added" +:+ ", "
                +:+ jstr "user_id" +:+ ": " +:+ jstr userID +:+ ", "
                +:+ jstr "product_id" +:+ ": " +:+ jstr productID +:+ "}"))
            span store
            [mkLog Info "AddItem"]
            [mkSample "app.cart.add_item.latency" [];
             mkSample "app.cart.operations" [("operation", "add_item")]]
  end.

(** The sum of the quantities of a cart, the loop of getCartHandler. *)
Definition totalItems (items : gmap string CartItem) : Z :=
  map_fold (fun _ item total => total + Quantity item) 0 items.

Definition getCartHandler (c : Call) (span : Span) (store : Redis) : Out :=
  let (userID, _) := userID_of c in
  let span := span_SetAttributes [("app.user.id", VString userID)] span in
  let span := span_AddEvent "Fetch cart" [] span in
  match redis_err c 0%nat with
  | Some err =>
      mkOut (http_Error "Failed to get cart" 500) (span_RecordError err span) store
            [mkLog ErrorLevel "Failed to get cart"] []
  | None =>
      let items := HGetAll (now c) store (cartKey userID) in
      let total := totalItems items in
      let span := span_SetAttributes [("app.cart.items.count", VInt total)] span in
      mkOut (mkResponse 200
               ("{" +:+ jstr "user_id" +:+ ": " +:+ jstr userID +:+ ", "
                +:+ jstr "items_count" +:+ ": " +:+ pretty total +:+ "}"))
            span store
            [mkLog Info "GetCart"]
            [mkSample "app.cart.get_cart.latency" [];
             mkSample "app.cart.operations" [("operation", "get_cart")]]
  end.

Definition emptyCartHandler (c : Call) (span : Span) (store : Redis) : Out :=
  let (userID, _) := userID_of c in
  let span := span_SetAttributes [("app.user.id", VString userID)] span in
  let span := span_AddEvent "Empty cart" [] span in
  match redis_err c 0%nat with
  | Some err =>
      mkOut (http_Error "Failed to empty cart" 500) (span_RecordError err span) store
            [mkLog ErrorLevel "Failed to empty cart"] []
  | None =>
      let store := Del store (cartKey userID) in
      mkOut (mkResponse 200
               ("{" +:+ jstr "status" +:+ ": " +:+ jstr "emptied" +:+ ", "
                +:+ jstr "user_id" +:+ ": " +:+ jstr userID +:+ "}"))
            span store
            [mkLog Info "EmptyCart"]
            [mkSample "app.cart.operations" [("operation", "empty_cart")]]
  end.

(** The routes of RunCartService. *)
Inductive Handler := AddItem | GetCart | EmptyCart.

Definition mux : list (string * Target Handler) :=
  [("/cart/add", Handle AddItem); ("/cart", Handle GetCart); ("/cart/empty", Handle EmptyCart)].

Definition RunCartService (c : Call) (store : Redis) : Response * Redis :=
  match ServeMux mux (q_method (request c)) (q_path (request c)) with
  | Handle AddItem =>
      let o := otelhttp_NewHandler "AddItem" addItemHandler c store in (response o, db o)
  | Handle GetCart =>
      let o := otelhttp_NewHandler "GetCart" getCartHandler c store in (response o, db o)
  | Handle EmptyCart =>
      let o := otelhttp_NewHandler "EmptyCart" emptyCartHandler c store in (response o, db o)
  | Answer resp => (resp, store)
  end.

(** The three requests of the specification, for a user and a product. *)
Definition AddItem_request (u p : string) : Inbound :=
  mkInbound "POST" "/cart/add" [("user_id", u); ("product_id", p)] None [].
Definition GetCart_request (u : string) : Inbound :=
  mkInbound "GET" "/cart" [("user_id", u)] None [].
Definition EmptyCart_request (u : string) : Inbound :=
  mkInbound "POST" "/cart/empty" [("user_id", u)] None [].

(** The body of a GetCart response. *)
Definition cart_body (userID : string) (count : Z) : string :=
  "{" +:+ jstr "user_id" +:+ ": " +:+ jstr userID +:+ ", "
  +:+ jstr "items_count" +:+ ": " +:+ pretty count +:+ "}".

End Cart.

(** ** go/services/shipping.go *)

Module Shipping.
Import Otel Http Runtime.
Local Open Scope m_scope.

Section WithEnv.
Variable env : Env.
(** What [http.NewRequestWithContext] returns for the quote URL of the
    configuration: an error when the URL does not parse. *)
Variable newRequestErr : option string.

Definition calculateQuoteLocally (ctx : Context) (span : option nat) (count : Z)
  : M (Z * option string) :=
  let baseRate := 599 in
  let perItemRate := 150 in
  r <- Intn env 300 ;;
  let quote := baseRate + count * perItemRate + r in
  SetAttributes span [("quote.items.count", VInt count);
                      ("quote.base_rate", VHundredths baseRate);
                      ("quote.per_item_rate", VHundredths perItemRate);
                      ("quote.total", VHundredths quote);
                      ("quote.external_service", VBool false)] ;;
  AddEvent span "Quote calculated locally" [("app.shipping.cost.total", VHundredths quote)] ;;
  log Info "QuoteCalculatedLocally" ;;
  record_sample "app.shipping.quote.duration" [] ;;
  ret (quote, None).

Definition createQuoteFromCount (ctx : Context) (count : Z) : M (Z * option string) :=
  started <- Start ctx "createQuoteFromCount" SpanKindClient [] ;;
  let ctx := fst started in
  let span := snd started in
  log Info "CreateQuoteFromCount" ;;
  record_sample "app.shipping.items_count" [] ;;
  r <- match newRequestErr with
       | Some err =>
           RecordError span err ;;
           calculateQuoteLocally ctx span count
       | None =>
           o <- Do env ctx "POST" QuoteURL "/quote" [] ;;
           match o with
           | TransportError err =>
               RecordError span err ;;
               log Warn "QuoteService unavailable, using fallback" ;;
               calculateQuoteLocally ctx span count
           | Responded _ _ =>
               r <- Intn env 300 ;;
               let quote := 599 + count * 150 + r in
               SetAttributes span [("quote.items.count", VInt count);
                                   ("quote.total", VHundredths quote);
                                   ("quote.external_service", VBool true)] ;;
               AddEvent span "Quote received from service"
                        [("app.shipping.cost.total", VHundredths quote)] ;;
               log Info "QuoteReceived" ;;
               record_sample "app.shipping.quote.duration" [] ;;
               ret (quote, None)
           end
       end ;;
  End span ;;
  ret r.




End WithEnv.

(** The routes of RunShippingService. *)
Inductive Handler := ship | get_quote.

Definition mux : list (string * Target Handler) :=
  [("/ship", Handle ship); ("/get-quote", Handle get_quote)].


End Shipping.

(** ** go/services/fraud_detection.go (and the accounting consumer) *)

Module FraudDetection.
Import Otel Http Runtime.
Local Open Scope m_scope.

Definition letters : string := "abcdefghijklmnopqrstuvwxyz0123456789".

Section WithEnv.
Variable env : Env.

Fixpoint randomString (n : nat) : M string :=
  match n with
  | O => ret EmptyString
  | S n' =>
      i <- Intn env (Z.of_nat (String.length letters)) ;;
      rest <- randomString n' ;;
      ret (String (default "a"%char (String.get (Z.to_nat i) letters)) rest)
  end.




End WithEnv.

(** The routes of InitFraudDetectionService. *)
Inductive Handler := orders_receive.

Definition mux : list (string * Target Handler) :=
  [("/consume", Handle orders_receive); ("/health", Answer (mkResponse 200 status_ok))].


End FraudDetection.

Module Accounting.
Import Otel Http Runtime.
Local Open Scope m_scope.

(** The routes of InitAccountingService. *)
Inductive Handler := orders_receive.

Definition mux : list (string * Target Handler) :=
  [("/consume", Handle orders_receive); ("/health", Answer (mkResponse 200 status_ok))].

Section WithEnv.
Variable env : Env.

Definition processOrder (ctx : Context) : M unit :=
  started <- Start ctx "processOrder" SpanKindInternal [] ;;
  let ctx := fst started in
  let span := snd started in
  o <- FraudDetection.randomString env 8 ;;
  let orderID := "order-" +:+ o in
  a <- Intn env 50000 ;;
  let amount := a + 1000 in
  i <- Intn env 4 ;;
  let currency := nth (Z.to_nat i) ["USD"; "EUR"; "GBP"; "JPY"] EmptyString in
  log Info "ProcessOrder started" ;;
  SetAttributes span [("app.order.id", VString orderID);
                      ("app.order.amount", VHundredths amount);
                      ("app.order.currency", VString currency)] ;;
  record_sample "app.accounting.orders_processed" [("currency", currency)] ;;
  record_sample "app.accounting.revenue_total" [("currency", currency)] ;;
  AddEvent span "order_recorded" [("app.order.id", VString orderID)] ;;
  log Info "Order processed for accounting" ;;
  End span.

(** [json.NewEncoder(w).Encode] of the one-entry map, with its newline. *)
Definition processed_body : string :=
  "{" +:+ jstr "status" +:+ ":" +:+ jstr "processed" +:+ "}" +:+ String "010"%char EmptyString.

Definition handleAccountingConsume (ctx : Context) (r : Inbound) : M Response :=
  let span := SpanFromContext ctx in
  SetAttributes span [("messaging.system", VString "kafka");
                      ("messaging.destination.name", VString "orders");
                      ("messaging.operation.type", VString "receive");
                      ("messaging.consumer.group.name", VString "accountingservice")] ;;
  log Info "Received order from Kafka" ;;
  processOrder ctx ;;
  ret (mkResponse 200 processed_body).

End WithEnv.

Definition InitAccountingService (env : Env) (r : Inbound) : M Response :=
  match ServeMux mux (q_method r) (q_path r) with
  | Handle orders_receive => otelhttp_NewHandler "orders receive" (handleAccountingConsume env) r
  | Answer resp => ret resp
  end.

End Accounting.

Module Currency.
Import Otel Http Runtime.
Local Open Scope m_scope.

(** The routes of RunCurrencyService. *)
Inductive Handler := Convert | GetSupportedCurrencies.

Definition mux : list (string * Target Handler) :=
  [("/convert", Handle Convert); ("/currencies", Handle GetSupportedCurrencies)].

(** Exchange rates from USD. The rates and their quotient are kept as
    rationals, where the source has float64. *)
Definition exchangeRates : gmap string Q :=
  list_to_map [("USD", 1%Q); ("EUR", 85 # 100); ("GBP", 73 # 100); ("JPY", 110%Q);
               ("CAD", 125 # 100); ("CHF", 92 # 100); ("AUD", 135 # 100); ("INR", 83%Q)].

(** [rate, ok := exchangeRates[code]; if !ok { rate = 1.0 }] *)
Definition rate_of (code : string) : Q := default 1%Q (exchangeRates !! code).

(** [fmt.Sprintf("%.4f", x)] of a rate that is not negative. *)
Definition four_digits (n : Z) : string :=
  (if n <? 1000 then "0" else EmptyString) +:+ (if n <? 100 then "0" else EmptyString)
  +:+ (if n <? 10 then "0" else EmptyString) +:+ pretty n.

Definition fmt_rate (x : Q) : string :=
  let n := Qfloor (x * 10000 + (1 # 2))%Q in
  pretty (n / 10000) +:+ "." +:+ four_digits (n mod 10000).

Definition convert_body (from to : string) (rate : Q) : string :=
  "{" +:+ jstr "from" +:+ ": " +:+ jstr from +:+ ", "
  +:+ jstr "to" +:+ ": " +:+ jstr to +:+ ", "
  +:+ jstr "rate" +:+ ": " +:+ fmt_rate rate +:+ "}".

Definition convertHandler (ctx : Context) (r : Inbound) : M Response :=
  let span := SpanFromContext ctx in
  let from := query_Get "from" (q_query r) in
  let from := if String.eqb from EmptyString then "USD" else from in
  let to := query_Get "to" (q_query r) in
  let to := if String.eqb to EmptyString then "EUR" else to in
  SetAttributes span [("app.currency.conversion.from", VString from);
                      ("app.currency.conversion.to", VString to);
                      ("rpc.system", VString "grpc");
                      ("rpc.service", VString "oteldemo.CurrencyService");
                      ("rpc.method", VString "Convert")] ;;
  let fromRate := rate_of from in
  let toRate := rate_of to in
  let rate := (toRate / fromRate)%Q in
  record_sample "app.currency_counter" [("currency_code", to); ("from_currency", from)] ;;
  log Info "Convert" ;;
  ret (mkResponse 200 (convert_body from to rate)).

Definition getSupportedCurrenciesHandler (ctx : Context) (r : Inbound) : M Response :=
  let span := SpanFromContext ctx in
  let count := Z.of_nat (size exchangeRates) in
  SetAttributes span [("rpc.system", VString "grpc");
                      ("rpc.service", VString "oteldemo.CurrencyService");
                      ("rpc.method", VString "GetSupportedCurrencies");
                      ("app.currencies.count", VInt count)] ;;
  log Info "GetSupportedCurrencies" ;;
  ret (mkResponse 200 ("{" +:+ jstr "currencies" +:+ ": " +:+ pretty count +:+ "}")).

Definition RunCurrencyService (r : Inbound) : M Response :=
  match ServeMux mux (q_method r) (q_path r) with
  | Handle Convert => otelhttp_NewHandler "Convert" convertHandler r
  | Handle GetSupportedCurrencies =>
      otelhttp_NewHandler "GetSupportedCurrencies" getSupportedCurrenciesHandler r
  | Answer resp => ret resp
  end.

End Currency.

Module ProductCatalogServer.
Import Otel Http Runtime ProductCatalog.
Local Open Scope m_scope.

(** The routes of RunProductCatalogService. *)
Inductive Handler := ListProducts | GetProduct | SearchProducts.

Definition mux : list (string * Target Handler) :=
  [("/products", Handle ListProducts); ("/products/", Handle GetProduct);
   ("/products/search", Handle SearchProducts)].

(** [strings.TrimPrefix] *)
Definition TrimPrefix (s prefix : string) : string :=
  if String.prefix prefix s
  then String.substring (String.length prefix) (String.length s - String.length prefix) s
  else s.

Definition listProductsHandler (ctx : Context) (r : Inbound) : M Response :=
  let span := SpanFromContext ctx in
  let count := Z.of_nat (length products) in
  SetAttributes span [("app.products.count", VInt count);
                      ("rpc.system", VString "grpc");
                      ("rpc.service", VString "oteldemo.ProductCatalogService");
                      ("rpc.method", VString "ListProducts")] ;;
  record_sample "app.products.requests" [("method", "ListProducts")] ;;
  log Info "ListProducts" ;;
  ret (mkResponse 200 ("{" +:+ jstr "products" +:+ ": " +:+ pretty count +:+ "}")).

Definition product_body (found : Product) : string :=
  "{" +:+ jstr "id" +:+ ": " +:+ jstr (ID found) +:+ ", "
  +:+ jstr "name" +:+ ": " +:+ jstr (Name found) +:+ ", "
  +:+ jstr "price" +:+ ": " +:+ fmt_hundredths (Price found) +:+ "}".

Definition getProductHandler (ctx : Context) (r : Inbound) : M Response :=
  let span := SpanFromContext ctx in
  let path := q_path r in
  let id := TrimPrefix path "/products/" in
  SetAttributes span [("app.product.id", VString id);
                      ("rpc.system", VString "grpc");
                      ("rpc.service", VString "oteldemo.ProductCatalogService");
                      ("rpc.method", VString "GetProduct")] ;;
  (* the loop over the products stops at the first with this id *)
  match List.find (fun p => String.eqb (ID p) id) products with
  | None =>
      SetAttributes span [("product.found", VBool false)] ;;
      record_sample "app.products.requests"
                    [("method", "GetProduct"); ("status", "not_found")] ;;
      ret (http_Error "Product not found" 404)
  | Some found =>
      SetAttributes span [("app.product.name", VString (Name found));
                          ("product.found", VBool true)] ;;
      record_sample "app.products.requests"
                    [("method", "GetProduct"); ("status", "found")] ;;
      log Info "GetProduct" ;;
      ret (mkResponse 200 (product_body found))
  end.

End ProductCatalogServer.

(** ** JavaScript numbers

    A number is an IEEE 754 double, kept here as the rational it
    denotes. The result of a multiplication or of an addition is the
    exact result rounded to the nearest double, a tie going to the even
    significand; no value of the services comes near the overflow. *)

Module Double.

Definition two_to (e : Z) : Q :=
  if 0 <=? e then inject_Z (2 ^ e) else (1 # Z.to_pos (2 ^ (- e)))%Q.

(** The exponent [e] of a positive [x]: [2^e <= x < 2^(e+1)]. *)
Definition exponent (x : Q) : Z :=
  let e := Z.log2 (Qnum x) - Z.log2 (Zpos (Qden x)) in
  if Qle_bool (two_to e) x then e else e - 1.

(** The nearest integer, the even one of two. *)
Definition nearest_even (m : Q) : Z :=
  let q := Qfloor m in
  match Qcompare (m - inject_Z q)%Q (1 # 2)%Q with
  | Lt => q
  | Gt => q + 1
  | Eq => if Z.even q then q else q + 1
  end.

(** The spacing of the doubles around a positive [x]: 52 bits below
    its exponent, which is not less than -1022. *)
Definition ulp (x : Q) : Q := two_to (Z.max (exponent x) (-1022) - 52).

Definition round_positive (x : Q) : Q := (inject_Z (nearest_even (x / ulp x)) * ulp x)%Q.

Definition round (x : Q) : Q :=
  match Qcompare x 0%Q with
  | Eq => 0%Q
  | Gt => round_positive x
  | Lt => (- round_positive (- x))%Q
  end.

(** [x * y] and [x + y] *)
Definition mul (x y : Q) : Q := round (x * y)%Q.
Definition add (x y : Q) : Q := round (x + y)%Q.

(** [Math.floor(x)] *)
Definition floor (x : Q) : Z := Qfloor x.

End Double.

(** ** javascript/payment.js *)

Module Payment.
Import Otel Http Runtime.
Local Open Scope m_scope.

(** [s.padStart(n, '0')] *)
Definition padStart (n : nat) (s : string) : string :=
  String.concat EmptyString (repeat "0" (n - String.length s)) +:+ s.

(** [s.slice(-n)] *)
Definition slice_last (n : nat) (s : string) : string :=
  String.substring (String.length s - n) n s.

(** [x.toFixed(2)], in hundredths: the number of hundredths nearest to
    the value of the double [x], the larger one of two. *)
Definition toFixed2 (x : Q) : Z := Qfloor (x * 100 + (1 # 2))%Q.

Definition CARD_PREFIXES (c : option ascii) : option string :=
  match c with
  | Some "4"%char => Some "visa"
  | Some "5"%char => Some "mastercard"
  | Some "3"%char => Some "amex"
  | Some "6"%char => Some "discover"
  | _ => None
  end.

Definition LOYALTY_LEVELS : list string := ["bronze"; "silver"; "gold"; "platinum"].

Definition insufficient_funds : string := "Payment failed: insufficient funds".

(** [JSON.stringify({ error: error.message })] of that message. *)
Definition failed_body : string :=
  "{" +:+ jstr "error" +:+ ":" +:+ jstr insufficient_funds +:+ "}".

Section WithEnv.
Variable env : Env.

Definition handleCharge (parentCtx : Context) (r : Inbound) : M Response :=
  started <- Start parentCtx "charge" SpanKindServer
               [("rpc.system", VString "grpc");
                ("rpc.service", VString "oteldemo.PaymentService");
                ("rpc.method", VString "Charge")] ;;
  let span := snd started in
  let baggage := ctx_baggage parentCtx in
  (match baggage with
   | _ :: _ =>
       let synthetic := String.eqb (query_Get "synthetic_request" baggage) "true" in
       SetAttributes span [("app.payment.charged", VBool (negb synthetic))]
   | [] => SetAttributes span [("app.payment.charged", VBool true)]
   end) ;;
  r1 <- Float32 env ;;
  let cardNumber :=
    "4" +:+ padStart 15 (pretty (Double.floor (Double.mul r1 (inject_Z 1000000000000000)))) in
  let cardType := default "unknown" (CARD_PREFIXES (String.get 0 cardNumber)) in
  let lastFour := slice_last 4 cardNumber in
  r2 <- Float32 env ;;
  let loyaltyLevel :=
    nth (Z.to_nat (Double.floor (Double.mul r2 4))) LOYALTY_LEVELS EmptyString in
  r3 <- Float32 env ;;
  let amount := toFixed2 (Double.add (Double.mul r3 500) 10) in
  r4 <- Float32 env ;;
  let currency :=
    nth (Z.to_nat (Double.floor (Double.mul r4 4))) ["USD"; "EUR"; "GBP"; "JPY"] EmptyString in
  transactionId <- uuid_New env ;;
  SetAttributes span [("app.payment.card_type", VString cardType);
                      ("app.payment.card_valid", VBool true);
                      ("app.payment.last_four", VString lastFour);
                      ("app.loyalty.level", VString loyaltyLevel);
                      ("app.payment.amount", VHundredths amount);
                      ("app.payment.currency", VString currency);
                      ("app.payment.transaction.id", VString transactionId)] ;;
  r5 <- Float32 env ;;
  resp <- (if Qlt_le_dec r5 (5 # 100) then
             RecordError span insufficient_funds ;;
             SetStatus span Error ;;
             AddEvent span "payment_failed"
                      [("app.payment.failure_reason", VString "insufficient_funds")] ;;
             record_sample "app.payment.transactions"
                           [("currency", currency); ("status", "failed");
                            ("card_type", cardType)] ;;
             ret (mkResponse 402 failed_body)
           else
             AddEvent span "payment_successful"
                      [("app.payment.transaction.id", VString transactionId)] ;;
             record_sample "app.payment.transactions"
                           [("currency", currency); ("status", "success");
                            ("card_type", cardType)] ;;
             log Info ("Payment successful: " +:+ transactionId) ;;
             ret (mkResponse 200
                    ("{" +:+ jstr "transaction_id" +:+ ":" +:+ jstr transactionId +:+ ","
                     +:+ jstr "amount" +:+ ":" +:+ jstr (fmt_hundredths amount) +:+ ","
                     +:+ jstr "currency" +:+ ":" +:+ jstr currency +:+ ","
                     +:+ jstr "card_type" +:+ ":" +:+ jstr cardType +:+ "}"))) ;;
  record_sample "app.payment.latency" [("card_type", cardType)] ;;
  End span ;;
  ret resp.

End WithEnv.

Inductive Handler := charge.

Definition route (r : Inbound) : Target Handler :=
  if String.eqb (q_path r) "/charge" && String.eqb (q_method r) "POST"
  then Handle charge
  else Answer (mkResponse 404 error_not_found).

(** The server: the context comes out of the request headers. *)
Definition server (env : Env) (r : Inbound) : M Response :=
  let ctx := mkContext None (q_traceparent r) (q_baggage r) in
  match route r with
  | Handle charge => handleCharge env ctx r
  | Answer resp => ret resp
  end.

End Payment.

Module Email.
Import Http.

Inductive Handler := sendOrderConfirmation.

Definition route (r : Inbound) : Target Handler :=
  if String.eqb (q_path r) "/send" && String.eqb (q_method r) "POST"
  then Handle sendOrderConfirmation
  else Answer (mkResponse 404 error_not_found).

End Email.

Module Ad.
Import Http.

Inductive Handler := getAds.

Definition route (r : Inbound) : Target Handler :=
  if String.eqb (q_path r) "/ads" || String.eqb (q_path r) "/"
  then Handle getAds
  else Answer (mkResponse 404 error_not_found).

End Ad.

Module BrowserSimulator.
Import Http.

Inductive Handler := runSingleIteration.

(** This server compares [req.url], the path with its query. *)
Definition route (r : Inbound) : Target Handler :=
  match q_query r with
  | [] =>
      if String.eqb (q_path r) "/health" then Answer (mkResponse 200 status_ok)
      else if String.eqb (q_path r) "/trigger" || String.eqb (q_path r) "/"
           then Handle runSingleIteration
           else Answer (mkResponse 404 "Not found")
  | _ :: _ => Answer (mkResponse 404 "Not found")
  end.

End BrowserSimulator.

(** ** javascript/frontend.js *)

Module Frontend.
Import Otel Http Runtime.

(** [JSON.stringify] of a string. *)
Definition hex (n : nat) : ascii :=
  nth n ["0"; "1"; "2"; "3"; "4"; "5"; "6"; "7"; "8"; "9";
         "a"; "b"; "c"; "d"; "e"; "f"]%char "0"%char.

Definition escape (c : ascii) : string :=
  let n := nat_of_ascii c in
  if (n =? 34)%nat then "\" +:+ dq
  else if (n =? 92)%nat then "\\"
  else if (n =? 8)%nat then "\b"
  else if (n =? 9)%nat then "\t"
  else if (n =? 10)%nat then "\n"
  else if (n =? 12)%nat then "\f"
  else if (n =? 13)%nat then "\r"
  else if (n <? 32)%nat then
    "\u00" +:+ String (hex (n / 16)) (String (hex (n mod 16)) EmptyString)
  else String c EmptyString.

Fixpoint escape_all (s : string) : string :=
  match s with
  | EmptyString => EmptyString
  | String c rest => escape c +:+ escape_all rest
  end.

Definition JSON_stringify (s : string) : string := dq +:+ escape_all s +:+ dq.

(** [JSON.stringify({ error: message })] *)
Definition error_body (message : string) : string :=
  "{" +:+ jstr "error" +:+ ":" +:+ JSON_stringify message +:+ "}".

Definition timeout_body : string :=
  "{" +:+ jstr "error" +:+ ":" +:+ jstr "timeout" +:+ "}".

(** *** Text as Node has it

    A string stands for the UTF-8 form of a JavaScript string. *)

(** U+FFFD, the replacement character. *)
Definition REPLACEMENT : string := String "239" (String "191" (String "189" EmptyString)).

(** The state of the UTF-8 decoder inside a sequence: the bytes it has
    seen of it, the number of bytes it still needs, and the bounds of
    the next byte. *)
Record Utf8 := mkUtf8 {
  seen : string;
  needed : nat;
  lower : nat;
  upper : nat
}.

Definition idle : Utf8 := mkUtf8 EmptyString 0 128 191.

(** A byte met outside a sequence: a character of its own, the lead
    byte of a sequence, or an error. *)
Definition lead (b : ascii) : string * Utf8 :=
  let n := nat_of_ascii b in
  if (n <? 128)%nat then (String b EmptyString, idle)
  else if (194 <=? n)%nat && (n <=? 223)%nat then
    (EmptyString, mkUtf8 (String b EmptyString) 1 128 191)
  else if (224 <=? n)%nat && (n <=? 239)%nat then
    (EmptyString, mkUtf8 (String b EmptyString) 2
                         (if (n =? 224)%nat then 160 else 128)
                         (if (n =? 237)%nat then 159 else 191))
  else if (240 <=? n)%nat && (n <=? 244)%nat then
    (EmptyString, mkUtf8 (String b EmptyString) 3
                         (if (n =? 240)%nat then 144 else 128)
                         (if (n =? 244)%nat then 143 else 191))
  else (REPLACEMENT, idle).

(** A sequence that a byte breaks off, or that the end of the bytes
    cuts short, is replaced by one U+FFFD, and the byte that broke it
    off is read again as the start of the next. *)
Fixpoint decode (bytes : string) (st : Utf8) : string :=
  match bytes with
  | EmptyString => if (needed st =? 0)%nat then EmptyString else REPLACEMENT
  | String b rest =>
      let n := nat_of_ascii b in
      if (needed st =? 0)%nat then
        let (out, st') := lead b in out +:+ decode rest st'
      else if (lower st <=? n)%nat && (n <=? upper st)%nat then
        if (needed st =? 1)%nat then seen st +:+ String b (decode rest idle)
        else decode rest (mkUtf8 (seen st +:+ String b EmptyString) (needed st - 1) 128 191)
      else
        let (out, st') := lead b in REPLACEMENT +:+ out +:+ decode rest st'
  end.

(** [buf.toString()]: the bytes of the buffer decoded as UTF-8. This is
    what [data += chunk] appends, chunk by chunk. *)
Definition Buffer_toString (chunk : string) : string := decode chunk idle.

(** Every byte of the text is an ASCII character. *)
Definition ascii_text (s : string) : bool :=
  forallb (fun c => (nat_of_ascii c <? 128)%nat) (list_ascii_of_string s).

(** *** [url.parse] and [http.request], as far as makeRequest goes *)

(** What [url.parse] trims at the end of the URL: the characters below
    U+0021, U+00A0 and U+FEFF. The text is given last byte first. *)
Fixpoint trim_end (r : list ascii) : list ascii :=
  match r with
  | [] => []
  | c :: r1 =>
      if (nat_of_ascii c <? 33)%nat then trim_end r1
      else match r1 with
           | c1 :: r2 =>
               if (nat_of_ascii c =? 160)%nat && (nat_of_ascii c1 =? 194)%nat then trim_end r2
               else match r2 with
                    | c2 :: r3 =>
                        if (nat_of_ascii c =? 191)%nat && (nat_of_ascii c1 =? 187)%nat
                           && (nat_of_ascii c2 =? 239)%nat
                        then trim_end r3 else r
                    | [] => r
                    end
           | [] => r
           end
  end.

(** Backslashes become slashes up to the first [?] or [#]. *)
Fixpoint backslashes (s : list ascii) : list ascii :=
  match s with
  | [] => []
  | c :: rest =>
      if Ascii.eqb c "?" || Ascii.eqb c "#" then s
      else (if Ascii.eqb c "\" then "/"%char else c) :: backslashes rest
  end.

(** [autoEscapeStr]: the characters [url.parse] escapes by itself. *)
Definition autoEscape (c : ascii) : list ascii :=
  let n := nat_of_ascii c in
  list_ascii_of_string
    (if (n =? 9)%nat then "%09" else if (n =? 10)%nat then "%0A"
     else if (n =? 13)%nat then "%0D" else if (n =? 32)%nat then "%20"
     else if (n =? 34)%nat then "%22" else if (n =? 39)%nat then "%27"
     else if (n =? 60)%nat then "%3C" else if (n =? 62)%nat then "%3E"
     else if (n =? 92)%nat then "%5C" else if (n =? 94)%nat then "%5E"
     else if (n =? 96)%nat then "%60" else if (n =? 123)%nat then "%7B"
     else if (n =? 124)%nat then "%7C" else if (n =? 125)%nat then "%7D"
     else String c EmptyString).

(** The part before the first [#]. *)
Fixpoint before_hash (s : list ascii) : list ascii :=
  match s with
  | [] => []
  | c :: rest => if Ascii.eqb c "#" then [] else c :: before_hash rest
  end.

(** [url.parse(base + target).path], for a base of scheme, host and
    port and a target that starts with a slash. *)
Definition url_parse_path (target : string) : string :=
  let rest := rev (trim_end (rev (list_ascii_of_string target))) in
  let rest := backslashes rest in
  let rest := flat_map autoEscape rest in
  string_of_list_ascii (before_hash rest).

(** [INVALID_PATH_REGEX = /[^\u0021-\u00ff]/] of [http.request]: in
    UTF-8, a character above U+00FF starts with a byte of 196 or more. *)
Definition unescaped (c : ascii) : bool :=
  (nat_of_ascii c <? 33)%nat || (196 <=? nat_of_ascii c)%nat.

Definition INVALID_PATH (path : string) : bool :=
  existsb unescaped (list_ascii_of_string path).

(** The message of ERR_UNESCAPED_CHARACTERS, which [http.request]
    throws for such a path. *)
Definition unescaped_characters : string := "Request path contains unescaped characters".

(** Every character within U+0021..U+00FF. *)
Definition plain (s : string) : bool := negb (INVALID_PATH s).

(** The path and the values of the query of a request are plain. *)
Definition plain_request (r : Inbound) : bool :=
  plain (q_path r) && forallb (fun kv => plain (snd kv)) (q_query r).

(** [parsedUrl.query.k || dflt] inside a template string: the value of
    the key; the values joined by commas when the key comes more than
    once; [dflt] when it does not come or comes once and empty. *)
Definition query_param (k dflt : string) (q : list (string * string)) : string :=
  match map snd (List.filter (fun kv => String.eqb (fst kv) k) q) with
  | [] => dflt
  | [v] => if String.eqb v EmptyString then dflt else v
  | vs => String.concat "," vs
  end.

(** A promise settles once: later calls of [resolve] change nothing. *)
Inductive Promise :=
| Pending
| Resolved (value : string)
| Rejected (reason : string).

Definition resolve (v : string) (p : Promise) : Promise :=
  match p with
  | Pending => Resolved v
  | _ => p
  end.


(** What can happen to the request makeRequest sends: the response
    arrives, a chunk of its body (a buffer), its end, an error of the
    request (the downstream is unreachable, the socket was destroyed),
    the timeout of 30 seconds. *)
Inductive Event :=
| OnResponse (statusCode : Z)
| OnData (chunk : string)
| OnEnd
| OnError (message : string)
| OnTimeout.

(** The state of one makeRequest: its promise, its client span, the
    response once it has arrived, the body read so far. *)
Record Pending_request := mkPending {
  promise : Promise;
  clientSpan : Span;
  res : option Z;
  data : string
}.

Definition on_event (e : Event) (st : Pending_request) : Pending_request :=
  match e with
  | OnResponse code =>
      match res st with
      | None => mkPending (promise st) (clientSpan st) (Some code) EmptyString
      | Some _ => st
      end
  | OnData chunk =>
      match res st with
      | Some _ =>
          mkPending (promise st) (clientSpan st) (res st) (data st +:+ Buffer_toString chunk)
      | None => st
      end
  | OnEnd =>
      match res st with
      | Some code =>
          let span := span_SetAttributes [("http.status_code", VInt code)] (clientSpan st) in
          let span := span_End span in
          (* resolve(data || '{}') *)
          let v := if String.eqb (data st) EmptyString then "{}" else data st in
          mkPending (resolve v (promise st)) span (res st) (data st)
      | None => st
      end
  | OnError message =>
      let span := span_RecordError message (clientSpan st) in
      let span := span_SetStatus Error span in
      let span := span_End span in
      mkPending (resolve (error_body message) (promise st)) span (res st) (data st)
  | OnTimeout =>
      (* req.destroy() shows as a later OnError *)
      let span := span_SetStatus Error (clientSpan st) in
      let span := span_End span in
      mkPending (resolve timeout_body (promise st)) span (res st) (data st)
  end.

(** The body of makeRequest is the executor of its promise, so an
    exception raised in it rejects the promise. [http.request] raises
    one for a path it does not accept; no request exists then, and
    nothing happens to it: the client span, started already, is never
    ended. *)
Definition makeRequest (method : string) (svc : Service) (target : string)
           (parentSpan : nat) (events : list Event) : Pending_request :=
  let clientSpan := newSpan ("HTTP " +:+ method) SpanKindClient (LocalParent parentSpan) [] in
  let clientSpan := span_SetAttributes [("http.method", VString method);
                                        ("http.url", VString target)] clientSpan in
  if INVALID_PATH (url_parse_path target)
  then mkPending (Rejected unescaped_characters) clientSpan None EmptyString
  else fold_left (fun st e => on_event e st) events
                 (mkPending Pending clientSpan None EmptyString).

(** The routes below the health check: the page, the calls to a
    downstream service (log line, method, service, path and query), or
    nothing. *)
Inductive Route :=
| Index
| Api (line : string) (method : string) (svc : Service) (target : string)
| Unknown.

Definition route (r : Inbound) : Route :=
  let path := q_path r in
  if String.eqb path "/" || String.eqb path "/index.html" then Index
  else if String.eqb path "/api/products" then
    Api "Fetching products from catalog" "GET" ProductCatalogURL "/products"
  else if String.prefix "/api/products/" path then
    let productId := String.substring 14 (String.length path - 14) path in
    Api ("Fetching product " +:+ productId) "GET" ProductCatalogURL ("/products/" +:+ productId)
  else if String.eqb path "/api/cart" then
    let userId := query_param "user_id" "anonymous" (q_query r) in
    Api ("Getting cart for user " +:+ userId) "GET" CartURL ("/cart?user_id=" +:+ userId)
  else if String.eqb path "/api/recommendations" then
    let productIds := query_param "productIds" EmptyString (q_query r) in
    Api "Fetching recommendations" "GET" RecommendationURL ("/?productIds=" +:+ productIds)
  else if String.eqb path "/api/checkout" then
    Api "Processing checkout request" "POST" CheckoutURL "/checkout"
  else if String.eqb path "/api/ads" then
    Api "Fetching ads" "GET" AdURL "/ads"
  else if String.eqb path "/api/currencies" then
    Api "Fetching currencies" "GET" CurrencyURL "/currencies"
  else Unknown.

(** One request to the frontend: the request, what happens to the
    downstream request it makes (if it makes one), and the exception a
    call of the [try] block other than makeRequest raises, if any (none
    of them raises one by itself). *)
Record Call := mkCall {
  request : Inbound;
  events : list Event;
  thrown : option string
}.

(** What comes of it. No response means that the handler is still
    waiting for makeRequest. *)
Record Out := mkOut {
  response : option Response;
  span : option Span;
  downstream : option Pending_request;
  out_logs : list LogLine;
  out_samples : list Sample
}.

(** The [catch] and [finally] of the server. *)
Definition failed (message : string) (span : Span) (down : option Pending_request)
           (lines : list LogLine) (counted : list Sample) : Out :=
  let span := span_RecordError message span in
  let span := span_SetStatus Error span in
  mkOut (Some (mkResponse 500 (error_body message))) (Some (span_End span)) down
        (lines ++ [mkLog ErrorLevel ("Request failed: " +:+ message)]) counted.

(** The end of the [try] block and the [finally]. *)
Definition answered (resp : Response) (span : Span) (down : option Pending_request)
           (lines : list LogLine) (counted : list Sample) : Out :=
  let span := span_SetAttributes [("http.status_code", VInt (statusCode resp))] span in
  mkOut (Some resp) (Some (span_End span)) down lines counted.

Definition server (c : Call) : Out :=
  let r := request c in
  let path := q_path r in
  if String.eqb path "/health" then
    mkOut (Some (mkResponse 200 status_ok)) None None [] []
  else
    let parent := match q_traceparent r with
                  | Some p => RemoteParent p
                  | None => NoParent
                  end in
    let span := newSpan (q_method r +:+ " " +:+ path) SpanKindServer parent
                        [("http.method", VString (q_method r));
                         ("http.route", VString path)] in
    let counted := [mkSample "app.frontend.requests"
                             [("route", path); ("method", q_method r)]] in
    match thrown c with
    | Some message => failed message span None [] counted
    | None =>
        let lines := [mkLog Info ("Incoming request: " +:+ q_method r +:+ " " +:+ path)] in
        match route r with
        | Index =>
            answered (mkResponse 200 "<html><body><h1>OTel Demo Frontend</h1></body></html>")
                     span None lines counted
        | Api line method svc target =>
            let lines := lines ++ [mkLog Info line] in
            let down := makeRequest method svc target 0 (events c) in
            (* const response = await makeRequest(...) *)
            match promise down with
            | Resolved value =>
                answered (mkResponse 200 value) span (Some down) lines counted
            | Rejected reason => failed reason span (Some down) lines counted
            | Pending => mkOut None (Some span) (Some down) lines counted
            end
        | Unknown => answered (mkResponse 404 error_not_found) span None lines counted
        end
    end.

(** The paths the server has an [/api] branch for. *)
Definition is_api (r : Inbound) : bool :=
  match route r with
  | Api _ _ _ _ => true
  | _ => false
  end.

End Frontend.

(** ** javascript/email.js *)

Module EmailService.
Import Otel Http Runtime.
Local Open Scope m_scope.

Definition smtp_failed : string := "SMTP connection failed".

(** [s.slice(0, n)] *)
Definition slice_first (n : nat) (s : string) : string := String.substring 0 n s.

(** [JSON.stringify({ success: true, message_id, recipient, order_id })] *)
Definition sent_body (messageId email orderId : string) : string :=
  "{" +:+ jstr "success" +:+ ":true,"
  +:+ jstr "message_id" +:+ ":" +:+ Frontend.JSON_stringify messageId +:+ ","
  +:+ jstr "recipient" +:+ ":" +:+ Frontend.JSON_stringify email +:+ ","
  +:+ jstr "order_id" +:+ ":" +:+ Frontend.JSON_stringify orderId +:+ "}".

Section WithEnv.
Variable env : Env.

Definition handleSendEmail (parentCtx : Context) (r : Inbound) : M Response :=
  started <- Start parentCtx "sendOrderConfirmation" SpanKindServer
               [("rpc.system", VString "grpc");
                ("rpc.service", VString "oteldemo.EmailService");
                ("rpc.method", VString "SendOrderConfirmation")] ;;
  let span := snd started in
  let query := q_query r in
  (* query.order_id || randomUUID() *)
  orderId <- (if String.eqb (query_Get "order_id" query) EmptyString
              then uuid_New env
              else ret (query_Get "order_id" query)) ;;
  userId <- (if String.eqb (query_Get "user_id" query) EmptyString
             then x <- Float32 env ;;
                  ret ("user-" +:+ pretty (Double.floor (Double.mul x 10000)))
             else ret (query_Get "user_id" query)) ;;
  let email := if String.eqb (query_Get "email" query) EmptyString
               then userId +:+ "@example.com"
               else query_Get "email" query in
  SetAttributes span [("app.order.id", VString orderId);
                      ("app.user.id", VString userId);
                      ("app.email.recipient", VString email);
                      ("app.email.type", VString "order_confirmation")] ;;
  (match List.find (fun kv => String.eqb (fst kv) "session.id") (ctx_baggage parentCtx) with
   | Some sessionId => SetAttributes span [("session.id", VString (snd sessionId))]
   | None => ret tt
   end) ;;
  x <- Float32 env ;;
  resp <- (if Qlt_le_dec x (2 # 100) then
             RecordError span smtp_failed ;;
             SetStatus span Error ;;
             AddEvent span "email_failed"
                      [("app.email.failure_reason", VString "smtp_error")] ;;
             record_sample "app.email.sent"
                           [("type", "order_confirmation"); ("status", "failed")] ;;
             ret (mkResponse 500 (Frontend.error_body smtp_failed))
           else
             u <- uuid_New env ;;
             let messageId := "msg-" +:+ slice_first 8 u in
             SetAttributes span [("app.email.message_id", VString messageId)] ;;
             AddEvent span "email_sent"
                      [("app.email.recipient", VString email);
                       ("app.email.message_id", VString messageId)] ;;
             record_sample "app.email.sent"
                           [("type", "order_confirmation"); ("status", "sent")] ;;
             log Info ("Email sent to " +:+ email +:+ " for order " +:+ orderId) ;;
             ret (mkResponse 200 (sent_body messageId email orderId))) ;;
  record_sample "app.email.latency" [] ;;
  End span ;;
  ret resp.

End WithEnv.

(** The server: the context comes out of the request headers. *)
Definition server (env : Env) (r : Inbound) : M Response :=
  let ctx := mkContext None (q_traceparent r) (q_baggage r) in
  match Email.route r with
  | Handle Email.sendOrderConfirmation => handleSendEmail env ctx r
  | Answer resp => ret resp
  end.

End EmailService.

(** ** The fetch of the browser simulator *)

Module BrowserFetch.
Import Otel Http Runtime.

(** The promise of simulateFetch: pending, or resolved with the body
    read or with [null]. It has no [reject]. *)
Inductive Promise :=
| Pending
| Resolved (value : option string).

Definition resolve (v : option string) (p : Promise) : Promise :=
  match p with
  | Pending => Resolved v
  | _ => p
  end.

(** The state of one simulateFetch: its promise, its client span, the
    response once it has arrived, the body read so far, the log lines
    and the durations recorded. *)
Record Fetch := mkFetch {
  promise : Promise;
  span : Span;
  res : option Z;
  data : string;
  lines : list LogLine;
  durations : list Sample
}.

Definition on_event (url method : string) (e : Frontend.Event) (st : Fetch) : Fetch :=
  match e with
  | Frontend.OnResponse code =>
      match res st with
      | None => mkFetch (promise st) (span st) (Some code) EmptyString (lines st) (durations st)
      | Some _ => st
      end
  | Frontend.OnData chunk =>
      match res st with
      | Some _ =>
          mkFetch (promise st) (span st) (res st) (data st +:+ Frontend.Buffer_toString chunk)
                  (lines st) (durations st)
      | None => st
      end
  | Frontend.OnEnd =>
      match res st with
      | Some code =>
          let span := span_SetAttributes [("http.response.status_code", VInt code)] (span st) in
          let span := if 400 <=? code then span_SetStatus Error span else span in
          let span := span_End span in
          mkFetch (resolve (Some (data st)) (promise st)) span (res st) (data st) (lines st)
                  (durations st
                   ++ [mkSample "http.client.request.duration"
                                [("http.request.method", method)]])
      | None => st
      end
  | Frontend.OnError message =>
      let span := span_RecordError message (span st) in
      let span := span_SetStatus Error span in
      let span := span_End span in
      mkFetch (resolve None (promise st)) span (res st) (data st)
              (lines st ++ [mkLog ErrorLevel ("HTTP request failed: " +:+ url)]) (durations st)
  | Frontend.OnTimeout =>
      (* req.destroy() shows as a later OnError *)
      let span := span_SetStatus Error (span st) in
      let span := span_End span in
      mkFetch (resolve None (promise st)) span (res st) (data st) (lines st) (durations st)
  end.

Definition simulateFetch (FRONTEND_URL url method : string) (parent : Parent)
           (events : list Frontend.Event) : Fetch :=
  let span := newSpan ("HTTP " +:+ method) SpanKindClient parent
                      [("http.request.method", VString method);
                       ("url.full", VString (FRONTEND_URL +:+ url));
                       ("url.path", VString url);
                       ("server.address", VString "localhost");
                       ("server.port", VInt 8080)] in
  fold_left (fun st e => on_event url method e st) events
            (mkFetch Pending span None EmptyString
                     [mkLog Info ("HTTP " +:+ method +:+ " " +:+ url)] []).

End BrowserFetch.

(** ** The context propagator *)

Module Propagator.

(** Modelled from the spec: [inject] and [extract] are the W3C
    trace-context and baggage propagators of the OpenTelemetry
    libraries, which telemetry.js and the Go InitTelemetry only install;
    their code is not part of the sources. What follows is the encoding
    as sections 3, 4.1 and 6 of the specification describe it: a
    [version-traceid-spanid-flags] header, hyphen-delimited, and a
    baggage header of comma-separated [key=value] pairs. *)

Record TraceContext := mkTraceContext {
  trace_id : Z;   (* 128 bits *)
  span_id : Z;    (* 64 bits *)
  sampled : bool;
  baggage : list (string * string)
}.

Abbreviation Headers := (list (string * string)).

Definition hex_digit (d : Z) : ascii :=
  nth (Z.to_nat d) ["0"; "1"; "2"; "3"; "4"; "5"; "6"; "7"; "8"; "9";
                    "a"; "b"; "c"; "d"; "e"; "f"]%char "0"%char.

Definition hex_value (c : ascii) : option Z :=
  let n := Z.of_nat (nat_of_ascii c) in
  if (48 <=? n) && (n <=? 57) then Some (n - 48)
  else if (97 <=? n) && (n <=? 102) then Some (n - 87)
  else None.

(** [width] lowercase hexadecimal digits, most significant first. *)
Fixpoint to_hex_onto (width : nat) (n : Z) (rest : string) : string :=
  match width with
  | O => rest
  | S w => to_hex_onto w (n / 16) (String (hex_digit (n mod 16)) rest)
  end.

Definition to_hex (width : nat) (n : Z) : string := to_hex_onto width n EmptyString.

Fixpoint of_hex_from (s : string) (acc : Z) : option Z :=
  match s with
  | EmptyString => Some acc
  | String c rest =>
      match hex_value c with
      | Some d => of_hex_from rest (16 * acc + d)
      | None => None
      end
  end.

Definition of_hex (s : string) : option Z := of_hex_from s 0.

Fixpoint split_on (c : ascii) (s : string) : list string :=
  match s with
  | EmptyString => [EmptyString]
  | String a rest =>
      if Ascii.eqb a c then EmptyString :: split_on c rest
      else match split_on c rest with
           | h :: t => String a h :: t
           | [] => [String a EmptyString]
           end
  end.

Fixpoint join (c : ascii) (parts : list string) : string :=
  match parts with
  | [] => EmptyString
  | [x] => x
  | x :: rest => x +:+ String c (join c rest)
  end.

(** The text before the first [c] and the text after it. *)
Fixpoint split_first (c : ascii) (s : string) : option (string * string) :=
  match s with
  | EmptyString => None
  | String a rest =>
      if Ascii.eqb a c then Some (EmptyString, rest)
      else match split_first c rest with
           | Some (k, v) => Some (String a k, v)
           | None => None
           end
  end.

Definition header (name : string) (h : Headers) : option string :=
  match List.find (fun kv => String.eqb (fst kv) name) h with
  | Some kv => Some (snd kv)
  | None => None
  end.

(** One baggage entry, [key=value]. *)
Definition encode (kv : string * string) : string :=
  fst kv +:+ String "="%char (snd kv).

Definition inject (ctx : TraceContext) : Headers :=
  ("traceparent",
   join "-" ["00"; to_hex 32 (trace_id ctx); to_hex 16 (span_id ctx);
             if sampled ctx then "01" else "00"])
  :: match baggage ctx with
     | [] => []
     | entries => [("baggage", join "," (map encode entries))]
     end.

Definition parse_traceparent (v : string) : option (Z * Z * bool) :=
  match split_on "-" v with
  | [version; tid; sid; flags] =>
      if String.eqb version "00"
         && (String.length tid =? 32)%nat
         && (String.length sid =? 16)%nat
         && (String.length flags =? 2)%nat
      then match of_hex tid, of_hex sid, of_hex flags with
           | Some t, Some s, Some f => Some (t, s, Z.testbit f 0)
           | _, _, _ => None
           end
      else None
  | _ => None
  end.

Definition parse_baggage (v : option string) : list (string * string) :=
  match v with
  | None => []
  | Some text => omap (split_first "=") (split_on "," text)
  end.

(** [extract] never fails: without a well-formed header the result is
    the fresh root context it is given. *)
Definition extract (fresh : TraceContext) (h : Headers) : TraceContext :=
  match header "traceparent" h with
  | Some v =>
      match parse_traceparent v with
      | Some (t, s, f) => mkTraceContext t s f (parse_baggage (header "baggage" h))
      | None => fresh
      end
  | None => fresh
  end.

Fixpoint has_char (c : ascii) (s : string) : bool :=
  match s with
  | EmptyString => false
  | String a rest => Ascii.eqb a c || has_char c rest
  end.

(** A valid context: identifiers of 128 and 64 bits, and baggage keys
    and values that the header can carry as they are. *)
Definition valid_entry (kv : string * string) : Prop :=
  has_char "," (fst kv) = false /\ has_char "=" (fst kv) = false
  /\ has_char "," (snd kv) = false.

Definition valid (ctx : TraceContext) : Prop :=
  0 <= trace_id ctx < 2 ^ 128 /\ 0 <= span_id ctx < 2 ^ 64
  /\ Forall valid_entry (baggage ctx).

End Propagator.

(** ** The servers of the system and their health routes *)

Module System.
Import Http.

(** What a route answers in place, without running a handler. *)
Definition in_place {H : Type} (t : Target H) : option Response :=
  match t with
  | Answer resp => Some resp
  | Handle _ => None
  end.

(** Every server of the sources, with what it answers in place. *)
Definition servers : list (string * (Inbound -> option Response)) :=
  [ ("frontend", fun r => Frontend.response (Frontend.server (Frontend.mkCall r [] None)));
    ("browser-simulator", fun r => in_place (BrowserSimulator.route r));
    ("payment", fun r => in_place (Payment.route r));
    ("email", fun r => in_place (Email.route r));
    ("ad", fun r => in_place (Ad.route r));
    ("checkout", fun r => in_place (ServeMux Checkout.mux (q_method r) (q_path r)));
    ("fraud-detection", fun r => in_place (ServeMux FraudDetection.mux (q_method r) (q_path r)));
    ("accounting", fun r => in_place (ServeMux Accounting.mux (q_method r) (q_path r)));
    ("cart", fun r => in_place (ServeMux Cart.mux (q_method r) (q_path r)));
    ("shipping", fun r => in_place (ServeMux Shipping.mux (q_method r) (q_path r)));
    ("product-catalog", fun r => in_place (ServeMux ProductCatalogServer.mux (q_method r) (q_path r)));
    ("currency", fun r => in_place (ServeMux Currency.mux (q_method r) (q_path r))) ].

Definition health_ok : Response := mkResponse 200 status_ok.

Definition health_request : Inbound := mkInbound "GET" "/health" [] None [].

Definition exposes_health (name : string) : bool :=
  existsb (String.eqb name)
          ["frontend"; "browser-simulator"; "checkout"; "fraud-detection"; "accounting"].

End System.

(** ** The vocabulary of the specification over the checkout model *)

Module Saga.
Import Otel Http Runtime Checkout.

(** The steps of the orchestrator's state machine. *)
Inductive Step :=
| PrepareCart | GetProductDetails | ConvertCurrency | GetRecommendations | GetAds
| ChargeCard | ShipOrder | SendEmail | PublishEvent.

(** Each step function opens a span of its own, by which it is known. *)
Definition step_of_span (n : string) : option Step :=
  if String.eqb n "prepareOrderItemsAndShippingQuoteFromCart" then Some PrepareCart
  else if String.eqb n "getProductDetails" then Some GetProductDetails
  else if String.eqb n "getCurrencyConversion" then Some ConvertCurrency
  else if String.eqb n "getRecommendations" then Some GetRecommendations
  else if String.eqb n "getAds" then Some GetAds
  else if String.eqb n "chargeCard" then Some ChargeCard
  else if String.eqb n "shipOrder" then Some ShipOrder
  else if String.eqb n "sendOrderConfirmation" then Some SendEmail
  else if String.eqb n "orders publish" then Some PublishEvent
  else None.

Definition step_under (p : nat) (s : Span) : option Step :=
  match parent s with
  | LocalParent q => if (q =? p)%nat then step_of_span (name s) else None
  | _ => None
  end.

(** The steps invoked under the span [p], in the order of invocation. *)
Definition steps_under (p : nat) (l : list Span) : list Step := omap (step_under p) l.

Definition called (x : Request * Outcome) : Service := r_service (fst x).

(** What a call sends: method, service, path and query. No call of the
    orchestrator has a body. *)
Definition sent (x : Request * Outcome) : string * Service * string * list (string * string) :=
  (r_method (fst x), r_service (fst x), r_path (fst x), r_query (fst x)).

(** The request of addToCart and the request of one product lookup, as
    sent. *)
Definition add_item (u id : string) : string * Service * string * list (string * string) :=
  ("POST", CartURL, "/cart/add", [("user_id", u); ("product_id", id)]).

Definition get_product (id : string) : string * Service * string * list (string * string) :=
  ("GET", ProductCatalogURL, "/products/" +:+ id, []).

(** A call fails with a transport error or a status other than 200. *)
Definition failed (o : Outcome) : bool :=
  match o with
  | TransportError _ => true
  | Responded code _ => negb (code =? 200)
  end.

(** A transaction: one order of the batch loop, or one request to the
    [/checkout] route. *)
Inductive Mode := Batch | Served (r : Inbound).

Definition transaction (env : Env) (mode : Mode) (w : World) : World :=
  match mode with
  | Batch => exec (placeOrder env Background) w
  | Served r => exec (otelhttp_NewHandler "PlaceOrder" (checkoutHandler env) r) w
  end.

(** What a transaction adds to the process. *)
Definition new_spans (w w' : World) : list Span := drop (length (spans w)) (spans w').
Definition new_exchanges (w w' : World) : list (Request * Outcome) :=
  drop (length (exchanges w)) (exchanges w').
Definition new_samples (w w' : World) : list Sample :=
  drop (length (samples w)) (samples w').

(** The steps of the transaction: those under its first span. *)
Definition steps (w w' : World) : list Step :=
  steps_under (length (spans w)) (new_spans w w').

Definition roots (w w' : World) : list Span := filter (fun s => is_root s = true) (new_spans w w').

Definition services_called (w w' : World) : list Service := map called (new_exchanges w w').

(** The call of a step failed, or succeeded, in this transaction. *)
Definition call_failed (svc : Service) (w w' : World) : Prop :=
  exists req o, In (req, o) (new_exchanges w w') /\ r_service req = svc /\ failed o = true.

Definition calls_succeeded (svc : Service) (w w' : World) : Prop :=
  forall req o, In (req, o) (new_exchanges w w') -> r_service req = svc -> failed o = false.

(** The transaction went through: it counted an order as a success. *)
Definition successful (w w' : World) : Prop :=
  exists currency,
    In (mkSample "app.checkout.orders_total" [("currency", currency); ("status", "success")])
       (new_samples w w').

(** The two as decidable checks. *)
Definition call_failedb (svc : Service) (w w' : World) : bool :=
  existsb (fun x => service_eqb (called x) svc && failed (snd x)) (new_exchanges w w').

Definition calls_succeededb (svc : Service) (w w' : World) : bool :=
  forallb (fun x => negb (service_eqb (called x) svc) || negb (failed (snd x)))
          (new_exchanges w w').

Definition full_sequence : list Step :=
  [PrepareCart; GetProductDetails; ConvertCurrency; GetRecommendations; GetAds;
   ChargeCard; ShipOrder; SendEmail; PublishEvent].

(** The steps and the calls that come before the payment. *)
Definition prefix_steps : list Step :=
  [PrepareCart; GetProductDetails; ConvertCurrency; GetRecommendations; GetAds].

Definition prefix_calls : list Service :=
  repeat CartURL 5 ++ repeat ProductCatalogURL 3 ++ [CurrencyURL; RecommendationURL; AdURL].

Definition full_calls : list Service :=
  prefix_calls ++ [PaymentURL; ShippingURL; EmailURL; AccountingURL; FraudDetectionURL].

Definition non_root (s : Span) : bool := negb (is_root s).

(** [news] are spans below a root, and the steps among them that are
    children of [p] are [sts]. *)
Definition adds (p : nat) (news : list Span) (sts : list Step) : Prop :=
  steps_under p news = sts /\ forallb non_root news = true.

Definition recorded_exception (root : Span) : Prop :=
  In "exception" (map ev_name (events root)).

Definition success_samples (currency : string) : list Sample :=
  [mkSample "app.checkout.orders_total" [("currency", currency); ("status", "success")];
   mkSample "app.checkout.latency" [("currency", currency)]].

(** The three courses a transaction can take, by the outcome [oc] of
    the payment call and the outcome [os] of the shipping call: what
    it adds under its root span [p], the calls it makes, the samples it
    records. *)
Definition outline (p : nat) (root : Span) (news : list Span)
           (xs : list (Request * Outcome)) (smp : list Sample) : Prop :=
  exists xpre reqc oc xtail,
    xs = xpre ++ (reqc, oc) :: xtail /\ map called xpre = prefix_calls
    /\ r_service reqc = PaymentURL /\
    if failed oc then
      steps_under p news = prefix_steps ++ [ChargeCard] /\ xtail = [] /\ smp = []
      /\ recorded_exception root
    else exists reqs os xrest,
      xtail = (reqs, os) :: xrest /\ r_service reqs = ShippingURL /\
      if failed os then
        steps_under p news = prefix_steps ++ [ChargeCard; ShipOrder] /\ xrest = [] /\ smp = []
        /\ recorded_exception root
      else
        steps_under p news = full_sequence
        /\ map called xrest = [EmailURL; AccountingURL; FraudDetectionURL]
        /\ exists cur, smp = success_samples cur.

End Saga.

(** ** Environments for the scenarios of the specification *)

Module Scenarios.
Import Http Runtime.

Definition reply_ok : Outcome := Responded 200 "{}".

Definition base (net : nat -> Request -> Outcome) : Env :=
  mkEnv net (fun n => Z.of_nat n) (fun _ => 1 # 2) (fun _ => "0b2d9c1e")
        (fun _ _ => 3) (fun _ _ => "id-1").

(** Every downstream service answers 200. *)
Definition all_up : Env := base (fun _ _ => reply_ok).

(** The payment service rejects every charge (its 402). *)
Definition payment_rejects : Env :=
  base (fun _ r => match r_service r with
                   | PaymentURL => Responded 402 "{}"
                   | _ => reply_ok
                   end).

(** The payment service cannot be reached. *)
Definition payment_down : Env :=
  base (fun _ r => match r_service r with
                   | PaymentURL => TransportError "connection refused"
                   | _ => reply_ok
                   end).

(** The shipping service cannot be reached. *)
Definition shipping_down : Env :=
  base (fun _ r => match r_service r with
                   | ShippingURL => TransportError "connection refused"
                   | _ => reply_ok
                   end).

(** The ad service cannot be reached. *)
Definition ads_down : Env :=
  base (fun _ r => match r_service r with
                   | AdURL => TransportError "connection refused"
                   | _ => reply_ok
                   end).

(** Every random draw falls below the failure thresholds. *)
Definition low_draws : Env :=
  mkEnv (fun _ _ => reply_ok) (fun n => Z.of_nat n) (fun _ => 1 # 100) (fun _ => "0b2d9c1e")
        (fun _ _ => 3) (fun _ _ => "id-1").

Definition charge_request : Inbound := mkInbound "POST" "/charge" [] None [].

Definition consume_request : Inbound := mkInbound "POST" "/consume" [] None [].


Definition send_request : Inbound := mkInbound "POST" "/send" [] None [].

Definition checkout_request : Inbound :=
  mkInbound "POST" "/checkout" [] (Some "00f067aa0ba902b7") [("session.id", "s-1")].



End Scenarios.

(** * Verification *)

(** ** The span store: a span is altered at its own index *)

Lemma alter_at_length {A} (f : A -> A) (l r : list A) :
  alter f (length l) (l ++ r) = l ++ alter f 0%nat r.
Proof. rewrite <- (Nat.add_0_r (length l)) at 1. apply alter_app_r. Qed.

Ltac norm_store :=
  repeat (first
    [ rewrite length_app
    | rewrite length_alter
    | rewrite <- app_assoc
    | rewrite alter_at_length
    | rewrite alter_app_r
    | progress simpl ]).

(** ** The mux on a canonical path *)

(** For a path that cleaning leaves as it is, the method plays no part
    in what the mux finds. *)
Lemma ServeMux_canonical {H : Type} (routes : list (string * Http.Target H))
      (method path : string) (t : Http.Target H) :
  Http.cleanPath path = path ->
  (if negb (match Http.mux_lookup routes path with
            | Some (pat, _) => String.eqb pat path
            | None => false
            end)
      && negb (Http.HasSuffix_slash path) && Http.registered routes (path +:+ "/")
   then None
   else Some (match Http.mux_lookup routes path with
              | Some (_, t) => t
              | None => Http.Answer Http.NotFound
              end)) = Some t ->
  Http.ServeMux routes method path = t.
Proof.
  intros Hc Ht. unfold Http.ServeMux.
  replace (if String.eqb method "CONNECT" then path else Http.cleanPath path) with path
    by (rewrite Hc; destruct (String.eqb method "CONNECT"); reflexivity).
  destruct (negb _ && negb _ && Http.registered routes (path +:+ "/")); [discriminate|].
  rewrite String.eqb_refl. cbn [negb]. injection Ht as <-. reflexivity.
Qed.

(** ** The checkout orchestrator *)

Module CheckoutProofs.
Import Otel Http Runtime Checkout Saga.

Ltac prims := unfold bind, Start, SetAttributes, AddEvent, RecordError, End, SetStatus, on_span,
                     with_spans, ret, log, record_sample, Intn, uuid_New; simpl.

Lemma adds_app p n1 n2 s1 s2 :
  adds p n1 s1 -> adds p n2 s2 -> adds p (n1 ++ n2) (s1 ++ s2).
Proof.
  intros [H1 R1] [H2 R2]. split.
  - unfold steps_under in *. rewrite omap_app. congruence.
  - rewrite forallb_app, R1, R2. reflexivity.
Qed.

Lemma adds_nil p : adds p [] [].
Proof. split; reflexivity. Qed.

(** *** What each step adds: its spans, its calls, its result *)

Section Steps.
Variable env : Env.

(** One outbound call: one client span below the calling span, one
    exchange. *)
Lemma Do_run ctx q m svc path query w :
  ctx_span ctx = Some q ->
  exists c o,
    Do env ctx m svc path query w =
      (o, mkWorld (spans w ++ [c])
                  (exchanges w ++ [(mkRequest m svc path query (Some (length (spans w))) (ctx_baggage ctx), o)])
                  (logs w) (samples w) (nrand w) (nuuid w))
    /\ forall p, adds p [c] [].
Proof.
  intros Hq. unfold Do. prims. norm_store.
  eexists _, _. split; [reflexivity|].
  intros p. unfold adds, steps_under, step_under, parent_of, non_root, is_root. rewrite Hq.
  destruct (client_status _); simpl; destruct (q =? p)%nat; split; reflexivity.
Qed.

Opaque Do.

Ltac run_Do :=
  match goal with
  | |- context [Do ?e ?c ?m ?s ?p ?q ?w] =>
      let c0 := fresh "c" in let o := fresh "o" in let H := fresh "Hc" in
      destruct (Do_run c _ m s p q w eq_refl) as (c0 & o & -> & H); simpl in H |- *; norm_store
  end.

Lemma getAds_run q bag rem w :
  let ctx := mkContext (Some q) rem bag in
  exists news x lg nr,
    getAds env ctx w = (tt, mkWorld (spans w ++ news) (exchanges w ++ [x]) lg (samples w) nr (nuuid w))
    /\ adds q news [GetAds] /\ called x = AdURL.
Proof.
  intros ctx. unfold getAds. prims. run_Do.
  destruct o; prims; norm_store;
    eexists [_; c], _, _, _; (split; [reflexivity|]); (split; [|reflexivity]).
  all: apply (adds_app _ [_] [c] [GetAds] []); [|apply Hc].
  all: split; [unfold steps_under, step_under; simpl; rewrite Nat.eqb_refl; reflexivity | reflexivity].
Qed.

Lemma addToCart_run ctx q u pid w :
  ctx_span ctx = Some q ->
  exists res c x lg,
    addToCart env ctx u pid w
    = (res, mkWorld (spans w ++ [c]) (exchanges w ++ [x]) lg (samples w) (nrand w) (nuuid w))
    /\ (forall p, adds p [c] []) /\ called x = CartURL.
Proof.
  intros Hq. unfold addToCart. prims.
  destruct (Do_run ctx q "POST" CartURL "/cart/add" [("user_id", u); ("product_id", pid)]
              (mkWorld (spans w) (exchanges w) (logs w ++ [mkLog Info "AddItem"]) (samples w) (nrand w) (nuuid w)) Hq)
    as (c & o & -> & Hc). simpl in *.
  destruct o; prims; eexists _, c, _, _; (split; [reflexivity|]); (split; [exact Hc|reflexivity]).
Qed.

Lemma getCart_run ctx q u w :
  ctx_span ctx = Some q ->
  exists res c x lg,
    getCart env ctx u w
    = (res, mkWorld (spans w ++ [c]) (exchanges w ++ [x]) lg (samples w) (nrand w) (nuuid w))
    /\ (forall p, adds p [c] []) /\ called x = CartURL.
Proof.
  intros Hq. unfold getCart. prims.
  destruct (Do_run ctx q "GET" CartURL "/cart" [("user_id", u)]
              (mkWorld (spans w) (exchanges w) (logs w ++ [mkLog Info "GetCart"]) (samples w) (nrand w) (nuuid w)) Hq)
    as (c & o & -> & Hc). simpl in *.
  destruct o; prims; eexists _, c, _, _; (split; [reflexivity|]); (split; [exact Hc|reflexivity]).
Qed.

Lemma emptyCart_run ctx q u w :
  ctx_span ctx = Some q ->
  exists res c x lg,
    emptyCart env ctx u w
    = (res, mkWorld (spans w ++ [c]) (exchanges w ++ [x]) lg (samples w) (nrand w) (nuuid w))
    /\ (forall p, adds p [c] []) /\ called x = CartURL.
Proof.
  intros Hq. unfold emptyCart. prims.
  destruct (Do_run ctx q "POST" CartURL "/cart/empty" [("user_id", u)]
              (mkWorld (spans w) (exchanges w) (logs w ++ [mkLog Info "EmptyCart"]) (samples w) (nrand w) (nuuid w)) Hq)
    as (c & o & -> & Hc). simpl in *.
  destruct o; prims; eexists _, c, _, _; (split; [reflexivity|]); (split; [exact Hc|reflexivity]).
Qed.

Opaque addToCart getCart emptyCart.

(** The loop over the items, by induction on their number. *)
Lemma addItems_run n : forall ctx q u acc w,
  ctx_span ctx = Some q ->
  exists ids news xs lg nr,
    addItems env n ctx u acc w
    = (ids, mkWorld (spans w ++ news) (exchanges w ++ xs) lg (samples w) nr (nuuid w))
    /\ (forall p, adds p news []) /\ map called xs = repeat CartURL n
    /\ length ids = (length acc + n)%nat.
Proof.
  induction n as [|n IH]; intros ctx q u acc w Hq.
  - destruct w. simpl. prims. eexists acc, [], [], _, _.
    rewrite !app_nil_r, Nat.add_0_r. (split; [reflexivity|]). split; [intros p; apply adds_nil|]. split; reflexivity.
  - simpl. unfold ProductCatalog.GetProductID. prims.
    match goal with |- context [addToCart env ctx u ?pid ?w1] =>
      destruct (addToCart_run ctx q u pid w1 Hq) as (res & c & x & lg & -> & Hc & Hx) end.
    simpl.
    destruct res; prims.
    all: match goal with |- context [addItems env _ _ _ ?acc1 ?w1] =>
      destruct (IH ctx q u acc1 w1 Hq) as (ids & news & xs & lg2 & nr & -> & Hn & Hxs & Hlen) end.
    all: simpl; norm_store.
    all: exists ids, (c :: news), (x :: xs), lg2, nr; (split; [reflexivity|]); split; [|split].
    all: try (intros p; specialize (Hc p); specialize (Hn p); apply (adds_app p [c] news [] []); assumption).
    all: try (simpl; rewrite Hx, Hxs; reflexivity).
    all: rewrite Hlen, length_app; simpl; lia.
Qed.

Lemma adds_own q n k attrs evs st e rest sts X :
  step_of_span n = Some X ->
  adds q rest sts ->
  adds q (mkSpan n k (LocalParent q) attrs evs st e :: rest) (X :: sts).
Proof.
  intros HX [H1 H2].
  assert (Hs : step_under q (mkSpan n k (LocalParent q) attrs evs st e) = Some X).
  { unfold step_under. simpl. rewrite Nat.eqb_refl. exact HX. }
  split.
  - unfold steps_under in *. cbn [omap list_omap]. rewrite Hs, H1. reflexivity.
  - simpl. exact H2.
Qed.

Lemma adds_cons q c rest sts :
  adds q [c] [] -> adds q rest sts -> adds q (c :: rest) sts.
Proof. intros H1 H2. apply (adds_app q [c] rest [] sts); assumption. Qed.

Opaque addItems.

Lemma prepareOrderItems_run q rem bag u cur w :
  exists prep news xs lg nr,
    prepareOrderItems env (mkContext (Some q) rem bag) u cur w
    = ((prep, None), mkWorld (spans w ++ news) (exchanges w ++ xs) lg (samples w) nr (nuuid w))
    /\ adds q news [PrepareCart] /\ map called xs = repeat CartURL 5
    /\ itemCount prep = 3 /\ length (productIDs prep) = 3%nat.
Proof.
  unfold prepareOrderItems. prims. norm_store.
  match goal with |- context [addItems env ?n ?c ?u0 ?acc ?w1] =>
    destruct (addItems_run n c _ u0 acc w1 eq_refl) as (ids & n1 & x1 & lg1 & nr1 & -> & Hn1 & Hx1 & Hlen) end.
  simpl. norm_store.
  match goal with |- context [getCart env ?c ?u0 ?w1] =>
    destruct (getCart_run c _ u0 w1 eq_refl) as (res2 & c2 & x2 & lg2 & -> & Hc2 & Hx2) end.
  simpl. norm_store.
  destruct (snd res2); prims; norm_store.
  all: match goal with |- context [emptyCart env ?c ?u0 ?w1] =>
    destruct (emptyCart_run c _ u0 w1 eq_refl) as (res3 & c3 & x3 & lg3 & -> & Hc3 & Hx3) end.
  all: simpl; norm_store.
  all: destruct res3; prims; norm_store.
  all: eexists _, (_ :: n1 ++ [c2; c3]), (x1 ++ [x2; x3]), _, _; (split; [reflexivity|]).
  all: split; [|split; [|split; [reflexivity|exact Hlen]]].
  all: try (apply adds_own; [reflexivity|];
            apply (adds_app q n1 [c2; c3] [] []); [apply Hn1|];
            apply adds_cons; [apply Hc2 | apply Hc3]).
  all: rewrite map_app, Hx1; simpl; rewrite Hx2, Hx3; reflexivity.
Qed.

(** The loop over the products, by induction on the list. *)
Lemma fetchProducts_run ids : forall ctx q w,
  ctx_span ctx = Some q ->
  exists news xs lg,
    fetchProducts env ctx ids w
    = (tt, mkWorld (spans w ++ news) (exchanges w ++ xs) lg (samples w) (nrand w) (nuuid w))
    /\ (forall p, adds p news []) /\ map called xs = repeat ProductCatalogURL (length ids).
Proof.
  induction ids as [|pid ids IH]; intros ctx q w Hq.
  - destruct w. simpl. prims. eexists [], [], _. rewrite !app_nil_r.
    split; [reflexivity|]. split; [intros p; apply adds_nil|reflexivity].
  - simpl. prims.
    match goal with |- context [Do env ?c ?m ?s0 ?p0 ?q0 ?w1] =>
      destruct (Do_run c q m s0 p0 q0 w1 Hq) as (c1 & o & -> & Hc1) end.
    simpl. destruct o; prims.
    all: match goal with |- context [fetchProducts env _ _ ?w1] =>
      destruct (IH ctx q w1 Hq) as (news & xs & lg & -> & Hn & Hxs) end.
    all: simpl; norm_store.
    all: eexists (c1 :: news), (_ :: xs), _; (split; [reflexivity|]); split.
    all: try (intros p; apply adds_cons; [apply Hc1|apply Hn]).
    all: simpl; rewrite Hxs; reflexivity.
Qed.

Opaque fetchProducts prepareOrderItems.

Lemma getProductDetails_run q rem bag ids w :
  exists news xs lg,
    getProductDetails env (mkContext (Some q) rem bag) ids w
    = (tt, mkWorld (spans w ++ news) (exchanges w ++ xs) lg (samples w) (nrand w) (nuuid w))
    /\ adds q news [GetProductDetails] /\ map called xs = repeat ProductCatalogURL (length ids).
Proof.
  unfold getProductDetails. prims. norm_store.
  match goal with |- context [fetchProducts env ?c ?i ?w1] =>
    destruct (fetchProducts_run i c _ w1 eq_refl) as (news & xs & lg & -> & Hn & Hxs) end.
  simpl. norm_store.
  eexists (_ :: news), xs, _. split; [reflexivity|]. split; [|exact Hxs].
  apply adds_own; [reflexivity|apply Hn].
Qed.

Lemma getCurrencyConversion_run q rem bag cur amount w :
  exists news x lg,
    getCurrencyConversion env (mkContext (Some q) rem bag) cur amount w
    = (tt, mkWorld (spans w ++ news) (exchanges w ++ [x]) lg (samples w) (nrand w) (nuuid w))
    /\ adds q news [ConvertCurrency] /\ called x = CurrencyURL.
Proof.
  unfold getCurrencyConversion. prims. norm_store.
  match goal with |- context [Do env ?c ?m ?s0 ?p0 ?q0 ?w1] =>
    destruct (Do_run c _ m s0 p0 q0 w1 eq_refl) as (c1 & o & -> & Hc1) end.
  simpl. norm_store.
  destruct o; prims; norm_store; eexists [_; c1], _, _; (split; [reflexivity|]); (split; [|reflexivity]).
  all: apply adds_own; [reflexivity|apply Hc1].
Qed.

Lemma getRecommendations_run q rem bag u ids w :
  exists news x lg,
    getRecommendations env (mkContext (Some q) rem bag) u ids w
    = (tt, mkWorld (spans w ++ news) (exchanges w ++ [x]) lg (samples w) (nrand w) (nuuid w))
    /\ adds q news [GetRecommendations] /\ called x = RecommendationURL.
Proof.
  unfold getRecommendations. prims. norm_store.
  match goal with |- context [Do env ?c ?m ?s0 ?p0 ?q0 ?w1] =>
    destruct (Do_run c _ m s0 p0 q0 w1 eq_refl) as (c1 & o & -> & Hc1) end.
  simpl. norm_store.
  destruct o; prims; norm_store; eexists [_; c1], _, _; (split; [reflexivity|]); (split; [|reflexivity]).
  all: apply adds_own; [reflexivity|apply Hc1].
Qed.

(** The two hard-fail steps return an error exactly when their call
    failed. *)
Lemma chargeCard_run q rem bag amount cur w :
  exists res news req o lg,
    chargeCard env (mkContext (Some q) rem bag) amount cur w
    = (res, mkWorld (spans w ++ news) (exchanges w ++ [(req, o)]) lg (samples w) (nrand w) (nuuid w))
    /\ adds q news [ChargeCard] /\ r_service req = PaymentURL
    /\ (if failed o then exists e, snd res = Some e else snd res = None).
Proof.
  unfold chargeCard. prims. norm_store.
  match goal with |- context [Do env ?c ?m ?s0 ?p0 ?q0 ?w1] =>
    destruct (Do_run c _ m s0 p0 q0 w1 eq_refl) as (c1 & o & -> & Hc1) end.
  simpl. norm_store.
  destruct o as [e|code payload]; [|destruct (code =? 200) eqn:E]; prims; norm_store.
  all: eexists _, [_; c1], _, _, _; (split; [reflexivity|]); (split; [|split; [reflexivity|]]).
  all: try (apply adds_own; [reflexivity|apply Hc1]).
  all: simpl; rewrite ?E; simpl; eauto.
Qed.

Lemma shipOrder_run q rem bag count w :
  exists res news req o lg,
    shipOrder env (mkContext (Some q) rem bag) count w
    = (res, mkWorld (spans w ++ news) (exchanges w ++ [(req, o)]) lg (samples w) (nrand w) (nuuid w))
    /\ adds q news [ShipOrder] /\ r_service req = ShippingURL
    /\ (if failed o then exists e, snd res = Some e else snd res = None).
Proof.
  unfold shipOrder. prims. norm_store.
  match goal with |- context [Do env ?c ?m ?s0 ?p0 ?q0 ?w1] =>
    destruct (Do_run c _ m s0 p0 q0 w1 eq_refl) as (c1 & o & -> & Hc1) end.
  simpl. norm_store.
  destruct o as [e|code payload]; [|destruct (code =? 200) eqn:E]; prims; norm_store.
  all: eexists _, [_; c1], _, _, _; (split; [reflexivity|]); (split; [|split; [reflexivity|]]).
  all: try (apply adds_own; [reflexivity|apply Hc1]).
  all: simpl; rewrite ?E; simpl; eauto.
Qed.

Lemma sendOrderConfirmation_run q rem bag oid u w :
  exists res news x lg,
    sendOrderConfirmation env (mkContext (Some q) rem bag) oid u w
    = (res, mkWorld (spans w ++ news) (exchanges w ++ [x]) lg (samples w) (nrand w) (nuuid w))
    /\ adds q news [SendEmail] /\ called x = EmailURL.
Proof.
  unfold sendOrderConfirmation. prims. norm_store.
  match goal with |- context [Do env ?c ?m ?s0 ?p0 ?q0 ?w1] =>
    destruct (Do_run c _ m s0 p0 q0 w1 eq_refl) as (c1 & o & -> & Hc1) end.
  simpl. norm_store.
  destruct o as [e|code payload]; [|destruct (code =? 200) eqn:E]; prims; norm_store.
  all: eexists _, [_; c1], _, _; (split; [reflexivity|]); (split; [|reflexivity]).
  all: apply adds_own; [reflexivity|apply Hc1].
Qed.

Lemma publishToKafka_run q rem bag oid w :
  exists news x1 x2 lg nr,
    publishToKafka env (mkContext (Some q) rem bag) oid w
    = (tt, mkWorld (spans w ++ news) (exchanges w ++ [x1; x2]) lg (samples w) nr (nuuid w))
    /\ adds q news [PublishEvent] /\ called x1 = AccountingURL /\ called x2 = FraudDetectionURL.
Proof.
  unfold publishToKafka. prims. norm_store.
  match goal with |- context [Do env ?c ?m ?s0 ?p0 ?q0 ?w1] =>
    destruct (Do_run c _ m s0 p0 q0 w1 eq_refl) as (c1 & o1 & -> & Hc1) end.
  simpl. norm_store.
  match goal with |- context [Do env ?c ?m ?s0 ?p0 ?q0 ?w1] =>
    destruct (Do_run c _ m s0 p0 q0 w1 eq_refl) as (c2 & o2 & -> & Hc2) end.
  simpl. norm_store.
  eexists [_; c1; c2], _, _, _, _. split; [reflexivity|]. split; [|split; reflexivity].
  apply adds_own; [reflexivity|]. apply adds_cons; [apply Hc1|apply Hc2].
Qed.

Opaque getProductDetails getCurrencyConversion getRecommendations getAds chargeCard shipOrder
       sendOrderConfirmation publishToKafka.

(** Runs the next step of the body with its lemma. *)
Ltac step L :=
  let H := fresh "R" in
  pose proof L as H; simpl in H;
  repeat match type of H with
         | exists _, _ => let x := fresh "v" in destruct H as [x H]
         end;
  let E := fresh "E" in
  destruct H as [E H]; rewrite E; clear E; simpl; norm_store.

Ltac split_adds :=
  repeat match goal with H : adds _ _ _ |- _ => destruct H as [? ?] end.

Ltac calls_facts :=
  rewrite ?map_app; simpl;
  repeat match goal with H : map called _ = _ |- _ => rewrite H; clear H end;
  repeat match goal with H : called _ = _ |- _ => rewrite H; clear H end;
  reflexivity.

Ltac steps_facts :=
  split_adds; unfold steps_under in *; rewrite ?omap_app;
  repeat match goal with H : omap _ _ = _ |- _ => rewrite H; clear H end;
  reflexivity.

Ltac roots_facts :=
  split_adds; rewrite ?forallb_app;
  repeat match goal with H : forallb _ _ = true |- _ => rewrite H; clear H end;
  reflexivity.

(** The body of placeOrder under a fresh root span, in closed form. *)
Lemma placeOrder_body_run l0 nm par rem bag X0 LG0 S0 nr0 nu0 :
  exists root news xs smp lg nr nu,
    placeOrder_body env (mkContext (Some (length l0)) rem bag) (Some (length l0))
      (mkWorld (l0 ++ [newSpan nm SpanKindServer par []]) X0 LG0 S0 nr0 nu0)
    = (tt, mkWorld (l0 ++ root :: news) (X0 ++ xs) lg (S0 ++ smp) nr nu)
    /\ name root = nm /\ kind root = SpanKindServer /\ parent root = par
    /\ status root = Unset /\ ended root = false
    /\ forallb non_root news = true
    /\ outline (length l0) root news xs smp.
Proof.
  unfold placeOrder_body, randomCurrency. prims. norm_store.
  destruct (String.eqb (Member "synthetic_request" bag) "true");
  destruct (String.eqb (Member "session.id" bag) EmptyString); prims; norm_store.
  all: match goal with |- context [prepareOrderItems env ?c ?u ?cur ?w1] =>
         step (prepareOrderItems_run (length l0) rem bag u cur w1) end.
  all: destruct R as (Hprep & Hxprep & Hcount & Hids).
  all: match goal with |- context [getProductDetails env ?c ?ids ?w1] =>
         step (getProductDetails_run (length l0) rem bag ids w1) end.
  all: destruct R as (Hprod & Hxprod); rewrite Hids in Hxprod.
  all: match goal with |- context [getCurrencyConversion env ?c ?cur ?a ?w1] =>
         step (getCurrencyConversion_run (length l0) rem bag cur a w1) end.
  all: destruct R as (Hcur & Hxcur).
  all: match goal with |- context [getRecommendations env ?c ?u ?ids ?w1] =>
         step (getRecommendations_run (length l0) rem bag u ids w1) end.
  all: destruct R as (Hrec & Hxrec).
  all: match goal with |- context [getAds env ?c ?w1] =>
         step (getAds_run (length l0) bag rem w1) end.
  all: destruct R as (Hads & Hxads).
  all: match goal with |- context [chargeCard env ?c ?a ?cur ?w1] =>
         step (chargeCard_run (length l0) rem bag a cur w1) end.
  all: destruct R as (Hchg & Hreqc & Hres).
  all: destruct (failed v20) eqn:Fc; [destruct Hres as [e Hres]|]; rewrite Hres; prims; norm_store.
  all: try solve
    [ eexists _, _, _, [], _, _, _;
      (split; [rewrite (app_nil_r S0); reflexivity|]);
      do 5 (split; [reflexivity|]);
      (split; [roots_facts|]);
      exists (v1 ++ v5 ++ [v8; v11; v14]), v19, v20, [];
      (split; [rewrite <- !app_assoc; reflexivity|]); (split; [calls_facts|]); (split; [assumption|]);
      rewrite Fc; (split; [steps_facts|]); (split; [reflexivity|]); (split; [reflexivity|]);
      unfold recorded_exception; simpl; tauto ].
  all: match goal with |- context [shipOrder env ?c ?n ?w1] =>
         step (shipOrder_run (length l0) rem bag n w1) end.
  all: destruct R as (Hship & Hreqs & Hress).
  all: destruct (failed v25) eqn:Fs; [destruct Hress as [e Hress]|]; rewrite Hress; prims; norm_store.
  all: try solve
    [ eexists _, _, _, [], _, _, _;
      (split; [rewrite (app_nil_r S0); reflexivity|]);
      do 5 (split; [reflexivity|]);
      (split; [roots_facts|]);
      exists (v1 ++ v5 ++ [v8; v11; v14]), v19, v20, [(v24, v25)];
      (split; [rewrite <- !app_assoc; reflexivity|]); (split; [calls_facts|]); (split; [assumption|]);
      rewrite Fc; exists v24, v25, [];
      (split; [reflexivity|]); (split; [assumption|]);
      rewrite Fs; (split; [steps_facts|]); (split; [reflexivity|]); (split; [reflexivity|]);
      unfold recorded_exception; simpl; tauto ].
  all: match goal with |- context [sendOrderConfirmation env ?c ?o ?u ?w1] =>
         step (sendOrderConfirmation_run (length l0) rem bag o u w1) end.
  all: destruct R as (Hmail & Hxmail).
  all: destruct v27; prims; norm_store.
  all: match goal with |- context [publishToKafka env ?c ?o ?w1] =>
         step (publishToKafka_run (length l0) rem bag o w1) end.
  all: destruct R as (Hpub & Hxacc & Hxfraud).
  all: match type of Hxmail with called ?xm = _ =>
       match type of Hxacc with called ?xa = _ =>
       match type of Hxfraud with called ?xf = _ =>
         eexists _, _, _, _, _, _, _;
         (split; [reflexivity|]);
         do 5 (split; [reflexivity|]);
         (split; [roots_facts|]);
         exists (v1 ++ v5 ++ [v8; v11; v14]), v19, v20, [(v24, v25); xm; xa; xf];
         (split; [rewrite <- !app_assoc; reflexivity|]); (split; [calls_facts|]); (split; [assumption|]);
         rewrite Fc; exists v24, v25, [xm; xa; xf];
         (split; [reflexivity|]); (split; [assumption|]);
         rewrite Fs; (split; [steps_facts|]); (split; [calls_facts|]);
         exists (nth (Z.to_nat (rnd env (S nr0) mod 5)) ["USD"; "EUR"; "GBP"; "JPY"; "CAD"] EmptyString); reflexivity
       end end end.
Qed.

Transparent Do addToCart getCart emptyCart addItems fetchProducts prepareOrderItems
            getProductDetails getCurrencyConversion getRecommendations getAds chargeCard shipOrder
            sendOrderConfirmation publishToKafka.

Lemma outline_root p root root' news xs smp :
  events root' = events root -> outline p root news xs smp -> outline p root' news xs smp.
Proof.
  unfold outline, recorded_exception. intros ->. tauto.
Qed.

(** A transaction in closed form: one new root span of kind server, the
    spans below it, the calls and the samples, in one of the three
    courses of [outline]. *)
Lemma transaction_run mode w :
  exists root news xs smp lg nr nu,
    transaction env mode w
    = mkWorld (spans w ++ root :: news) (exchanges w ++ xs) lg (samples w ++ smp) nr nu
    /\ kind root = SpanKindServer /\ is_root root = true
    /\ status root = Unset /\ ended root = true
    /\ forallb non_root news = true
    /\ outline (length (spans w)) root news xs smp.
Proof.
  destruct w as [l0 X0 LG0 S0 nr0 nu0].
  destruct mode as [|r]; unfold transaction, exec.
  - unfold placeOrder, Background, SpanFromContext, IsValid. cbn [ctx_span negb].
    unfold bind at 1. unfold Start at 1. cbn [spans exchanges logs samples nrand nuuid fst snd
      ctx_remote ctx_baggage parent_of ctx_span].
    unfold bind at 1.
    destruct (placeOrder_body_run l0 "PlaceOrder" NoParent None [] X0 LG0 S0 nr0 nu0)
      as (root & news & xs & smp & lg & nr & nu & -> & Hn & Hk & Hp & Hs & He & Hr & Ho).
    unfold End, on_span, with_spans. cbn [snd spans exchanges logs samples nrand nuuid].
    rewrite alter_at_length. cbn [alter list_alter].
    exists (span_End root), news, xs, smp, lg, nr, nu.
    split; [reflexivity|]. split; [exact Hk|]. split; [unfold is_root; simpl; rewrite Hp; reflexivity|].
    split; [exact Hs|]. split; [reflexivity|]. split; [exact Hr|].
    apply (outline_root _ root); [reflexivity|exact Ho].
  - unfold otelhttp_NewHandler.
    unfold bind at 1. unfold Start at 1. cbn [spans exchanges logs samples nrand nuuid fst snd
      ctx_remote ctx_baggage parent_of ctx_span].
    unfold bind at 1. unfold checkoutHandler, placeOrder, SpanFromContext, IsValid.
    cbn [ctx_span negb]. unfold bind at 1.
    destruct (placeOrder_body_run l0 "PlaceOrder"
                (match q_traceparent r with Some r0 => RemoteParent r0 | None => NoParent end)
                (q_traceparent r) (q_baggage r) X0 LG0 S0 nr0 nu0)
      as (root & news & xs & smp & lg & nr & nu & -> & Hn & Hk & Hp & Hs & He & Hr & Ho).
    unfold ret, bind, End, on_span, with_spans. simpl.
    rewrite alter_at_length. cbn [alter list_alter].
    exists (span_End root), news, xs, smp, lg, nr, nu.
    split; [reflexivity|]. split; [exact Hk|].
    split; [unfold is_root; simpl; rewrite Hp; destruct (q_traceparent r); reflexivity|].
    split; [exact Hs|]. split; [reflexivity|]. split; [exact Hr|].
    apply (outline_root _ root); [reflexivity|exact Ho].
Qed.
End Steps.

(** *** The observations on a transaction in closed form *)

Lemma service_eqb_eq a b : service_eqb a b = true <-> a = b.
Proof. destruct a, b; simpl; split; intros H; try reflexivity; discriminate. Qed.

Lemma call_failedb_true svc w w' : call_failedb svc w w' = true -> call_failed svc w w'.
Proof.
  unfold call_failedb, call_failed. rewrite existsb_exists.
  intros ([req o] & Hin & H). apply andb_true_iff in H as [H1 H2].
  exists req, o. split; [exact Hin|]. split; [apply service_eqb_eq; exact H1|exact H2].
Qed.

Lemma calls_succeededb_true svc w w' :
  calls_succeededb svc w w' = true -> calls_succeeded svc w w'.
Proof.
  unfold calls_succeededb, calls_succeeded. rewrite forallb_forall.
  intros H req o Hin Hsvc. specialize (H (req, o) Hin).
  unfold called in H. cbn [fst snd] in H.
  assert (E : service_eqb (r_service req) svc = true) by (apply service_eqb_eq; exact Hsvc).
  rewrite E in H. cbn [negb orb] in H. destruct (failed o); [discriminate|reflexivity].
Qed.

Lemma no_roots_below news :
  forallb non_root news = true -> filter (fun s => is_root s = true) news = [].
Proof.
  induction news as [|s news IH]; simpl; intros H; [reflexivity|].
  apply andb_true_iff in H as [H1 H2]. unfold non_root in H1.
  rewrite filter_cons. destruct (decide (is_root s = true)) as [E|E].
  - rewrite E in H1. discriminate.
  - apply IH, H2.
Qed.

(** What a transaction in closed form shows to the observations. *)
Lemma observe w root news xs smp lg nr nu :
  is_root root = true -> forallb non_root news = true ->
  let w' := mkWorld (spans w ++ root :: news) (exchanges w ++ xs) lg (samples w ++ smp) nr nu in
  steps w w' = steps_under (length (spans w)) news
  /\ roots w w' = [root]
  /\ new_exchanges w w' = xs
  /\ new_samples w w' = smp.
Proof.
  intros Hroot Hnews w'. unfold steps, roots, new_spans, new_exchanges, new_samples, w'. simpl.
  rewrite !drop_app_length. repeat split.
  - unfold steps_under. cbn [omap list_omap].
    replace (step_under (length (spans w)) root) with (@None Step); [reflexivity|].
    unfold step_under. unfold is_root in Hroot. destruct (parent root); try reflexivity. discriminate.
  - rewrite filter_cons. destruct (decide (is_root root = true)); [|contradiction].
    rewrite no_roots_below; [reflexivity|exact Hnews].
Qed.

Lemma prefix_calls_before svc xpre :
  map called xpre = prefix_calls ->
  svc = PaymentURL \/ svc = ShippingURL ->
  forall req o, In (req, o) xpre -> r_service req <> svc.
Proof.
  intros Hpre Hsvc req o Hin E.
  assert (Hc : In svc prefix_calls).
  { rewrite <- Hpre. apply in_map_iff. exists (req, o). split; [exact E|exact Hin]. }
  unfold prefix_calls in Hc. simpl in Hc.
  destruct Hsvc as [-> | ->]; intuition discriminate.
Qed.

Ltac closed_form env mode w :=
  destruct (transaction_run env mode w)
    as (root & news & xs & smp & lg & nr & nu & E & Hk & Hroot & Hs & He & Hnews & Ho);
  destruct (observe w root news xs smp lg nr nu Hroot Hnews) as (Esteps & Eroots & Ex & Esmp);
  rewrite <- E in Esteps, Eroots, Ex, Esmp.

(** *** The claims *)

(** C1. When the ChargeCard step fails (the payment call returns a
    transport error or a status other than 200), the transaction ends
    after ChargeCard: ShipOrder, SendEmail and PublishEvent are not
    invoked and no call goes to their services. The root span gets an
    exception event; its status stays unset, where the claim has it equal
    to error: no call of this service sets a span status. *)
Theorem payment_failure_leaves_root_unset env mode w :
  call_failed PaymentURL w (transaction env mode w) ->
  steps w (transaction env mode w) = prefix_steps ++ [ChargeCard]
  /\ services_called w (transaction env mode w) = prefix_calls ++ [PaymentURL]
  /\ exists root,
       roots w (transaction env mode w) = [root]
       /\ status root = Unset /\ recorded_exception root.
Proof.
  intros (req & o & Hin & Hsvc & Hf). closed_form env mode w.
  unfold services_called. rewrite Esteps, Eroots, Ex. rewrite Ex in Hin.
  destruct Ho as (xpre & reqc & oc & xtail & -> & Hpre & Hreqc & Ho).
  assert (Hoc : failed oc = true).
  { destruct (failed oc) eqn:Fc; [reflexivity|].
    destruct Ho as (reqs & os & xrest & -> & Hreqs & Ho).
    apply in_app_or in Hin as [Hin|[Hin|[Hin|Hin]]].
    - exfalso. apply (prefix_calls_before PaymentURL xpre Hpre (or_introl eq_refl) req o Hin Hsvc).
    - congruence.
    - congruence.
    - destruct (failed os); [destruct Ho as (_ & -> & _); contradiction|].
      destruct Ho as (_ & Hrest & _).
      assert (Hc : In PaymentURL (map called xrest)).
      { apply in_map_iff. exists (req, o). split; [exact Hsvc|exact Hin]. }
      rewrite Hrest in Hc. simpl in Hc. intuition discriminate. }
  rewrite Hoc in Ho. destruct Ho as (Hst & -> & _ & Hexc).
  split; [exact Hst|]. split.
  - rewrite map_app, Hpre. simpl. unfold called at 1. simpl. rewrite Hreqc. reflexivity.
  - exists root. auto.
Qed.

(** C2, as amended. The handler of the [/checkout] route answers 200 with
    the body [{"status": "order_placed"}] for every request, whatever
    happened to the steps of the order: placeOrder returns nothing. *)
Theorem checkout_response_is_always_200 env r w :
  q_path r = "/checkout" ->
  fst (InitCheckoutServer env r w) = mkResponse 200 order_placed.
Proof.
  intros Hp. unfold InitCheckoutServer. rewrite Hp.
  rewrite (ServeMux_canonical mux (q_method r) "/checkout" (Handle PlaceOrder) eq_refl eq_refl).
  unfold otelhttp_NewHandler, checkoutHandler, bind, ret, Start. simpl.
  destruct (placeOrder env _ _) as [u w1]. simpl.
  unfold End, on_span, with_spans. reflexivity.
Qed.

(** C3, as amended. When the FetchAds call fails, ChargeCard is still
    invoked; and when the payment and shipping calls succeed, ShipOrder,
    SendEmail and PublishEvent follow, the order is counted as a
    success, and the root span ends with its status unset, where the
    claim has it equal to ok: no call of this service sets a span
    status. *)
Theorem ads_failure_is_tolerated env mode w :
  call_failed AdURL w (transaction env mode w) ->
  In ChargeCard (steps w (transaction env mode w))
  /\ (calls_succeeded PaymentURL w (transaction env mode w) ->
      calls_succeeded ShippingURL w (transaction env mode w) ->
      steps w (transaction env mode w) = full_sequence
      /\ successful w (transaction env mode w)
      /\ exists root,
           roots w (transaction env mode w) = [root]
           /\ ended root = true /\ status root = Unset).
Proof.
  intros _. closed_form env mode w.
  unfold calls_succeeded, successful. rewrite Esteps, Eroots, Ex, Esmp.
  destruct Ho as (xpre & reqc & oc & xtail & -> & Hpre & Hreqc & Ho).
  split.
  - destruct (failed oc).
    + destruct Ho as (-> & _). unfold prefix_steps. simpl. tauto.
    + destruct Ho as (reqs & os & xrest & _ & _ & Ho). destruct (failed os).
      * destruct Ho as (-> & _). unfold prefix_steps. simpl. tauto.
      * destruct Ho as (-> & _). unfold full_sequence. simpl. tauto.
  - intros Hpay Hship.
    assert (Hoc : failed oc = false).
    { apply (Hpay reqc oc); [|exact Hreqc]. apply in_or_app. right. left. reflexivity. }
    rewrite Hoc in Ho. destruct Ho as (reqs & os & xrest & -> & Hreqs & Ho).
    assert (Hos : failed os = false).
    { apply (Hship reqs os); [|exact Hreqs]. apply in_or_app. right. right. left. reflexivity. }
    rewrite Hos in Ho. destruct Ho as (-> & _ & cur & ->).
    split; [reflexivity|]. split.
    + exists cur. left. reflexivity.
    + exists root. auto.
Qed.

(** C4. A successful transaction performs the nine steps in the fixed
    order, PrepareCart, GetProductDetails, ConvertCurrency,
    GetRecommendations, GetAds, ChargeCard, ShipOrder, SendEmail,
    PublishEvent, each under the one root span of the transaction, which
    is of kind server; the calls go to the services in that order. *)
Theorem successful_checkout_sequence env mode w :
  successful w (transaction env mode w) ->
  steps w (transaction env mode w) = full_sequence
  /\ services_called w (transaction env mode w) = full_calls
  /\ exists root, roots w (transaction env mode w) = [root] /\ kind root = SpanKindServer.
Proof.
  intros (cur & Hin). closed_form env mode w.
  unfold services_called. rewrite Esteps, Eroots, Ex. rewrite Esmp in Hin.
  destruct Ho as (xpre & reqc & oc & xtail & -> & Hpre & Hreqc & Ho).
  destruct (failed oc); [destruct Ho as (_ & _ & -> & _); contradiction|].
  destruct Ho as (reqs & os & xrest & -> & Hreqs & Ho).
  destruct (failed os); [destruct Ho as (_ & _ & -> & _); contradiction|].
  destruct Ho as (Hst & Hrest & _).
  split; [exact Hst|]. split.
  - rewrite map_app, Hpre. simpl. unfold called at 1 2. simpl. rewrite Hreqc, Hreqs, Hrest. reflexivity.
  - exists root. auto.
Qed.

(** The payment service answers 402: the transaction of C1. *)
Lemma payment_failure_witness :
  call_failed PaymentURL empty_world (transaction Scenarios.payment_rejects Batch empty_world)
  /\ steps empty_world (transaction Scenarios.payment_rejects Batch empty_world) = prefix_steps ++ [ChargeCard].
Proof.
  assert (H : call_failed PaymentURL empty_world (transaction Scenarios.payment_rejects Batch empty_world))
    by (apply call_failedb_true; vm_compute; reflexivity).
  split; [exact H|].
  apply (payment_failure_leaves_root_unset Scenarios.payment_rejects Batch empty_world H).
Defined.

(** C2 as stated fails: the payment is rejected and the response is 200
    with the body of a placed order. *)
Lemma checkout_error_response_counterexample :
  call_failed PaymentURL empty_world
    (snd (InitCheckoutServer Scenarios.payment_rejects Scenarios.checkout_request empty_world))
  /\ is_2xx (fst (InitCheckoutServer Scenarios.payment_rejects Scenarios.checkout_request empty_world)) = true
  /\ body (fst (InitCheckoutServer Scenarios.payment_rejects Scenarios.checkout_request empty_world))
     = order_placed.
Proof.
  split; [apply call_failedb_true; vm_compute; reflexivity|].
  split; vm_compute; reflexivity.
Qed.

(** C3 as stated fails: with the ad service down and every other
    service up, the nine steps all run, and the root span's status is
    not ok. *)
Lemma ads_failure_counterexample :
  call_failed AdURL empty_world (transaction Scenarios.ads_down Batch empty_world)
  /\ steps empty_world (transaction Scenarios.ads_down Batch empty_world) = full_sequence
  /\ exists root,
       roots empty_world (transaction Scenarios.ads_down Batch empty_world) = [root]
       /\ status root <> Ok.
Proof.
  split; [apply call_failedb_true; vm_compute; reflexivity|].
  split; [vm_compute; reflexivity|].
  eexists. split; [vm_compute; reflexivity|]. simpl. discriminate.
Qed.

Lemma checkout_response_witness :
  q_path Scenarios.checkout_request = "/checkout"
  /\ fst (InitCheckoutServer Scenarios.payment_down Scenarios.checkout_request empty_world)
     = mkResponse 200 order_placed.
Proof.
  split; [reflexivity|].
  apply (checkout_response_is_always_200 Scenarios.payment_down Scenarios.checkout_request
           empty_world).
  reflexivity.
Defined.

Lemma ads_failure_witness :
  call_failed AdURL empty_world (transaction Scenarios.ads_down Batch empty_world)
  /\ steps empty_world (transaction Scenarios.ads_down Batch empty_world) = full_sequence
  /\ successful empty_world (transaction Scenarios.ads_down Batch empty_world).
Proof.
  assert (H : call_failed AdURL empty_world (transaction Scenarios.ads_down Batch empty_world))
    by (apply call_failedb_true; vm_compute; reflexivity).
  assert (Hp : calls_succeeded PaymentURL empty_world
                 (transaction Scenarios.ads_down Batch empty_world))
    by (apply calls_succeededb_true; vm_compute; reflexivity).
  assert (Hs : calls_succeeded ShippingURL empty_world
                 (transaction Scenarios.ads_down Batch empty_world))
    by (apply calls_succeededb_true; vm_compute; reflexivity).
  destruct (proj2 (ads_failure_is_tolerated Scenarios.ads_down Batch empty_world H) Hp Hs)
    as (E1 & E2 & _).
  split; [exact H|]. split; assumption.
Defined.

Lemma successful_checkout_witness :
  successful empty_world (transaction Scenarios.all_up Batch empty_world)
  /\ steps empty_world (transaction Scenarios.all_up Batch empty_world) = full_sequence.
Proof.
  assert (H : successful empty_world (transaction Scenarios.all_up Batch empty_world)).
  { exists "EUR". vm_compute. left. reflexivity. }
  split; [exact H|].
  apply (successful_checkout_sequence Scenarios.all_up Batch empty_world H).
Defined.

End CheckoutProofs.

(** ** The health routes *)

Module HealthProofs.
Import Otel Http Runtime.
Import System.

(** C8 as stated fails: the payment server has no health route and
    answers 404. *)
Lemma not_every_server_has_health :
  ~ Forall (fun s => snd s health_request = Some health_ok) servers.
Proof.
  unfold servers. intros H.
  do 2 apply List.Forall_inv_tail in H. apply List.Forall_inv in H.
  vm_compute in H. discriminate.
Qed.

(** C8, as amended. The frontend, the browser simulator, checkout,
    fraud detection and accounting answer a request for [/health] with
    200 and the fixed payload [{"status":"ok"}]; the payment, email, ad,
    cart, shipping, product-catalog and currency servers have no such
    route and answer 404. *)
Theorem health_routes r :
  q_path r = "/health" -> q_query r = [] ->
  Forall (fun s =>
            if exposes_health (fst s) then snd s r = Some health_ok
            else exists resp, snd s r = Some resp /\ statusCode resp = 404)
         servers.
Proof.
  destruct r as [m p q t b]. simpl. intros -> ->.
  unfold servers. repeat constructor; simpl.
  all: try (erewrite ServeMux_canonical by reflexivity).
  all: try reflexivity.
  all: eexists; split; reflexivity.
Qed.

Lemma health_routes_witness :
  q_path health_request = "/health" /\ q_query health_request = []
  /\ Forall (fun s =>
            if exposes_health (fst s) then snd s health_request = Some health_ok
            else exists resp, snd s health_request = Some resp /\ statusCode resp = 404)
         servers.
Proof.
  split; [reflexivity|]. split; [reflexivity|].
  apply (health_routes health_request); reflexivity.
Defined.
End HealthProofs.

(** ** The shipping service *)

Module ShippingProofs.
Import Otel Http Runtime.
Import Shipping.

Opaque Do.


Transparent Do.


End ShippingProofs.

(** ** The frontend *)

Module FrontendProofs.
Import Otel Http Runtime.
Import Frontend.

(** *** Plain text stays plain *)

Lemma plain_chars s :
  plain s = true <-> forall c, In c (list_ascii_of_string s) -> unescaped c = false.
Proof.
  unfold plain, INVALID_PATH. rewrite negb_true_iff. split.
  - intros H c Hin. destruct (unescaped c) eqn:E; [|reflexivity].
    assert (Hex : existsb unescaped (list_ascii_of_string s) = true)
      by (apply existsb_exists; eauto).
    rewrite H in Hex. discriminate.
  - intros H. destruct (existsb unescaped (list_ascii_of_string s)) eqn:E; [|reflexivity].
    apply existsb_exists in E as (c & Hin & Hc). rewrite (H c Hin) in Hc. discriminate.
Qed.

Lemma chars_app a b :
  list_ascii_of_string (a +:+ b) = list_ascii_of_string a ++ list_ascii_of_string b.
Proof.
  induction a as [|c a IH]; [reflexivity|].
  change (String c a +:+ b) with (String c (a +:+ b)). simpl. rewrite IH. reflexivity.
Qed.

Lemma plain_app a b : plain a = true -> plain b = true -> plain (a +:+ b) = true.
Proof.
  rewrite !plain_chars. intros Ha Hb c. rewrite chars_app, in_app_iff. intros [H|H]; auto.
Qed.

Lemma substring_chars n : forall m s c,
  In c (list_ascii_of_string (String.substring n m s)) -> In c (list_ascii_of_string s).
Proof.
  induction n as [|n IHn].
  - induction m as [|m IHm]; intros [|a s] c; simpl; try tauto.
    intros [H|H]; [left; exact H|right; apply IHm, H].
  - intros m [|a s] c; simpl; [destruct m; simpl; tauto|].
    intros H. right. apply (IHn m s c H).
Qed.

Lemma plain_substring n m s : plain s = true -> plain (String.substring n m s) = true.
Proof. rewrite !plain_chars. intros H c Hin. apply H, (substring_chars n m s c Hin). Qed.

Lemma plain_concat sep vs :
  plain sep = true -> Forall (fun v => plain v = true) vs -> plain (String.concat sep vs) = true.
Proof.
  intros Hsep. induction vs as [|v vs IH]; intros Hvs; [reflexivity|].
  apply Forall_cons_1 in Hvs as [Hv Hvs]. destruct vs as [|v' vs]; [exact Hv|].
  change (String.concat sep (v :: v' :: vs)) with (v +:+ sep +:+ String.concat sep (v' :: vs)).
  apply plain_app; [exact Hv|]. apply plain_app; [exact Hsep|]. apply IH, Hvs.
Qed.

Lemma plain_query_param k dflt q :
  plain dflt = true -> forallb (fun kv => plain (snd kv)) q = true ->
  plain (query_param k dflt q) = true.
Proof.
  intros Hd Hq. unfold query_param.
  assert (Hvs : Forall (fun v => plain v = true)
                       (map snd (List.filter (fun kv => String.eqb (fst kv) k) q))).
  { apply List.Forall_forall. intros v Hin. apply in_map_iff in Hin as (kv & <- & Hin).
    apply filter_In in Hin as [Hin _].
    rewrite forallb_forall in Hq. apply (Hq kv Hin). }
  destruct (map snd (List.filter _ q)) as [|v [|v' vs]]; [exact Hd| |].
  - apply Forall_cons_1 in Hvs as [Hv _]. destruct (String.eqb v EmptyString); assumption.
  - apply plain_concat; [reflexivity|exact Hvs].
Qed.

(** *** What [url.parse] makes of a plain target *)

Lemma trim_end_chars n : forall r c, (length r <= n)%nat -> In c (trim_end r) -> In c r.
Proof.
  induction n as [|n IH]; intros r c Hn.
  - destruct r; [simpl; tauto|simpl in Hn; lia].
  - destruct r as [|c0 r1]; [simpl; tauto|]. simpl in Hn. cbn [trim_end].
    destruct (nat_of_ascii c0 <? 33)%nat.
    { intros H. right. apply (IH r1 c); [lia|exact H]. }
    destruct r1 as [|c1 r2]; [tauto|]. simpl in Hn.
    destruct ((nat_of_ascii c0 =? 160)%nat && (nat_of_ascii c1 =? 194)%nat).
    { intros H. right. right. apply (IH r2 c); [lia|exact H]. }
    destruct r2 as [|c2 r3]; [tauto|]. simpl in Hn.
    destruct ((nat_of_ascii c0 =? 191)%nat && (nat_of_ascii c1 =? 187)%nat
              && (nat_of_ascii c2 =? 239)%nat); [|tauto].
    intros H. right. right. right. apply (IH r3 c); [lia|exact H].
Qed.

Lemma backslashes_chars s : forall c, In c (backslashes s) -> In c s \/ c = "/"%char.
Proof.
  induction s as [|a s IH]; intros c; cbn [backslashes]; [tauto|].
  destruct (Ascii.eqb a "?" || Ascii.eqb a "#"); [tauto|].
  intros [H|H].
  - destruct (Ascii.eqb a "\"); [right; symmetry; exact H|left; left; exact H].
  - destruct (IH c H) as [H1|H1]; [left; right; exact H1|right; exact H1].
Qed.

Lemma autoEscape_chars a c : In c (autoEscape a) -> c = a \/ unescaped c = false.
Proof.
  unfold autoEscape.
  repeat (match goal with |- context [if ?b then _ else _] => destruct b end;
          [simpl; intros H; right;
           repeat (destruct H as [<-|H]; [reflexivity|]); contradiction|]).
  simpl. intros [H|[]]. left. symmetry. exact H.
Qed.

Lemma before_hash_chars s : forall c, In c (before_hash s) -> In c s.
Proof.
  induction s as [|a s IH]; intros c; cbn [before_hash]; [tauto|].
  destruct (Ascii.eqb a "#"); [simpl; tauto|].
  intros [H|H]; [left; exact H|right; apply IH, H].
Qed.

(** [url.parse] brings no character into the path that [http.request]
    refuses. *)
Lemma url_parse_path_plain target :
  plain target = true -> INVALID_PATH (url_parse_path target) = false.
Proof.
  intros Hp. apply negb_true_iff. change (plain (url_parse_path target) = true).
  rewrite plain_chars in *. intros c. unfold url_parse_path.
  rewrite list_ascii_of_string_of_list_ascii. intros Hin.
  apply before_hash_chars, in_flat_map in Hin as (a & Ha & Hc).
  apply autoEscape_chars in Hc as [->|Hc]; [|exact Hc].
  apply backslashes_chars in Ha as [Ha| ->]; [|reflexivity].
  apply in_rev in Ha. apply (trim_end_chars _ _ _ (Nat.le_refl _)) in Ha.
  apply in_rev in Ha. apply Hp, Ha.
Qed.

(** The target of every [/api] route is made of the path and the
    values of the query. *)
Lemma route_plain r line method svc target :
  plain_request r = true -> route r = Api line method svc target -> plain target = true.
Proof.
  unfold plain_request. intros Hr. apply andb_true_iff in Hr as [Hpath Hq]. unfold route.
  repeat (match goal with |- context [if ?b then _ else _] => destruct b end;
          try discriminate);
    intros E; injection E as <- <- <- <-; try reflexivity.
  - apply plain_app; [reflexivity|]. apply plain_substring, Hpath.
  - apply plain_app; [reflexivity|]. apply plain_query_param; [reflexivity|exact Hq].
  - apply plain_app; [reflexivity|]. apply plain_query_param; [reflexivity|exact Hq].
Qed.

(** *** The promise of makeRequest *)







End FrontendProofs.

(** ** The cart *)

Module CartProofs.
Import Otel Http Runtime.
Import Cart.

Lemma totalItems_insert (m : gmap string CartItem) p item :
  totalItems (<[p := item]> m) = Quantity item + totalItems (delete p m).
Proof.
  unfold totalItems. rewrite <- insert_delete_eq.
  rewrite map_fold_insert_L.
  - lia.
  - intros. lia.
  - apply lookup_delete_eq.
Qed.

Lemma userID_of_given u t d e m pth rest tp bg :
  u <> EmptyString ->
  userID_of (mkCall (mkInbound m pth (("user_id", u) :: rest) tp bg) t d e) = (u, 0%nat).
Proof.
  intros Hu. unfold userID_of. simpl.
  change (query_Get "user_id" (("user_id", u) :: rest)) with u.
  destruct (String.eqb u EmptyString) eqn:E; [|reflexivity].
  apply String.eqb_eq in E. contradiction.
Qed.

Lemma live_after_add t1 t2 (store : Redis) key p item :
  t1 <= t2 < t1 + Hour ->
  live t2 (Expire t1 (HSet t1 store key p item) key Hour) key
  = Some (mkEntry (<[p := item]> (HGetAll t1 store key)) (Some (t1 + Hour))).
Proof.
  intros Ht. unfold Expire, HSet, HGetAll.
  destruct (live t1 store key) as [e|] eqn:El.
  - assert (Hl : live t1 (<[key := mkEntry (<[p := item]> (fields e)) (expires e)]> store) key
                 = Some (mkEntry (<[p := item]> (fields e)) (expires e))).
    { unfold live in *. rewrite lookup_insert_eq. simpl.
      destruct (store !! key) as [e0|]; [|discriminate].
      destruct (expires e0) as [t|] eqn:Ee.
      - destruct (t <=? t1) eqn:Et; [discriminate|]. injection El as <-. rewrite Ee, Et. reflexivity.
      - injection El as <-. rewrite Ee. reflexivity. }
    rewrite Hl. unfold live. rewrite lookup_insert_eq. simpl.
    destruct (t1 + Hour <=? t2) eqn:E; [apply Z.leb_le in E; lia|reflexivity].
  - assert (Hl : live t1 (<[key := mkEntry {[p := item]} None]> store) key
                 = Some (mkEntry {[p := item]} None)).
    { unfold live. rewrite lookup_insert_eq. reflexivity. }
    rewrite Hl. unfold live. rewrite lookup_insert_eq. simpl.
    destruct (t1 + Hour <=? t2) eqn:E; [apply Z.leb_le in E; lia|].
    rewrite insert_empty. reflexivity.
Qed.


End CartProofs.

(** ** The simulated failures *)

Module FailureProofs.
Import Otel Http Runtime.





(** randomString only draws: [n] draws for [n] letters. *)
Lemma randomString_run env n : forall w,
  exists s,
    FraudDetection.randomString env n w
    = (s, mkWorld (spans w) (exchanges w) (logs w) (samples w) (n + nrand w) (nuuid w)).
Proof.
  induction n as [|n IH]; intros [sp ex lg sm nr nu].
  - eexists. reflexivity.
  - cbn [FraudDetection.randomString]. unfold bind at 1. unfold Intn at 1.
    cbn [spans exchanges logs samples nrand nuuid]. unfold bind at 1.
    destruct (IH (mkWorld sp ex lg sm (S nr) nu)) as [s ->].
    cbn [spans exchanges logs samples nrand nuuid]. unfold ret.
    rewrite Nat.add_succ_r. eexists. reflexivity.
Qed.




End FailureProofs.

(** ** The propagator *)

Module PropagatorProofs.
Import Propagator.

Lemma hex_value_digit d : 0 <= d < 16 -> hex_value (hex_digit d) = Some d.
Proof.
  intros H.
  assert (C : d = 0 \/ d = 1 \/ d = 2 \/ d = 3 \/ d = 4 \/ d = 5 \/ d = 6 \/ d = 7 \/ d = 8
              \/ d = 9 \/ d = 10 \/ d = 11 \/ d = 12 \/ d = 13 \/ d = 14 \/ d = 15) by lia.
  repeat (destruct C as [-> | C]; [reflexivity|]). subst d. reflexivity.
Qed.

Lemma hex_digit_plain c d :
  hex_value c = None -> 0 <= d < 16 -> Ascii.eqb (hex_digit d) c = false.
Proof.
  intros Hc H. destruct (Ascii.eqb (hex_digit d) c) eqn:E; [|reflexivity].
  apply Ascii.eqb_eq in E. subst c. rewrite hex_value_digit in Hc by exact H. discriminate.
Qed.

(** Reading back the digits written in front of [rest]. *)
Lemma of_hex_to_hex width : forall n rest acc,
  0 <= n < 16 ^ Z.of_nat width ->
  of_hex_from (to_hex_onto width n rest) acc
  = of_hex_from rest (acc * 16 ^ Z.of_nat width + n).
Proof.
  induction width as [|w IH]; intros n rest acc H.
  - simpl in *. f_equal. lia.
  - cbn [to_hex_onto]. rewrite Nat2Z.inj_succ, Z.pow_succ_r in * by lia.
    rewrite IH by (split; [apply Z.div_pos; lia|apply Z.div_lt_upper_bound; lia]).
    cbn [of_hex_from]. rewrite hex_value_digit by (apply Z.mod_pos_bound; lia).
    f_equal. pose proof (Z.div_mod n 16 ltac:(lia)). lia.
Qed.

Lemma length_to_hex width : forall n rest,
  String.length (to_hex_onto width n rest) = (width + String.length rest)%nat.
Proof.
  induction width as [|w IH]; intros n rest; [reflexivity|].
  cbn [to_hex_onto]. rewrite IH. simpl. lia.
Qed.

Lemma to_hex_plain c width : forall n rest,
  hex_value c = None ->
  has_char c (to_hex_onto width n rest) = has_char c rest.
Proof.
  induction width as [|w IH]; intros n rest Hc; [reflexivity|].
  cbn [to_hex_onto]. rewrite IH by exact Hc. cbn [has_char].
  rewrite hex_digit_plain; [reflexivity|exact Hc|apply Z.mod_pos_bound; lia].
Qed.

Lemma split_on_plain c x : has_char c x = false -> split_on c x = [x].
Proof.
  induction x as [|a x IH]; simpl; intros H; [reflexivity|].
  apply orb_false_iff in H as [H1 H2]. rewrite H1, IH by exact H2. reflexivity.
Qed.

Lemma split_on_app c x y :
  has_char c x = false -> split_on c (x +:+ String c y) = x :: split_on c y.
Proof.
  induction x as [|a x IH]; simpl; intros H.
  - rewrite Ascii.eqb_refl. reflexivity.
  - apply orb_false_iff in H as [H1 H2]. rewrite H1, IH by exact H2. reflexivity.
Qed.

Lemma split_join c parts :
  parts <> [] -> Forall (fun x => has_char c x = false) parts ->
  split_on c (join c parts) = parts.
Proof.
  induction parts as [|x parts IH]; intros Hne H; [contradiction|].
  inversion H as [|? ? Hx Hrest]; subst.
  destruct parts as [|y parts].
  - simpl. apply split_on_plain, Hx.
  - change (join c (x :: y :: parts)) with (x +:+ String c (join c (y :: parts))).
    rewrite split_on_app by exact Hx. rewrite IH; [reflexivity|discriminate|exact Hrest].
Qed.

Lemma split_first_app c k v :
  has_char c k = false -> split_first c (k +:+ String c v) = Some (k, v).
Proof.
  induction k as [|a k IH]; simpl; intros H.
  - rewrite Ascii.eqb_refl. reflexivity.
  - apply orb_false_iff in H as [H1 H2]. rewrite H1, IH by exact H2. reflexivity.
Qed.

Lemma has_char_app c x y : has_char c (x +:+ y) = has_char c x || has_char c y.
Proof. induction x as [|a x IH]; simpl; [reflexivity|]. rewrite IH, orb_assoc. reflexivity. Qed.

Lemma parse_encoded entries :
  Forall valid_entry entries ->
  omap (split_first "=") (map encode entries) = entries.
Proof.
  induction 1 as [|[k v] entries (Hk1 & Hk2 & Hv) _ IH]; [reflexivity|].
  change (omap (split_first "=") (map encode ((k, v) :: entries)))
    with (match split_first "=" (encode (k, v)) with
          | Some y => y :: omap (split_first "=") (map encode entries)
          | None => omap (split_first "=") (map encode entries)
          end).
  unfold encode at 1. cbn [fst snd] in *.
  rewrite split_first_app by exact Hk2. f_equal. exact IH.
Qed.

Lemma encoded_plain entries :
  Forall valid_entry entries ->
  Forall (fun x => has_char "," x = false) (map encode entries).
Proof.
  induction 1 as [|[k v] entries (Hk1 & Hk2 & Hv) _ IH]; constructor; [|exact IH].
  unfold encode. cbn [fst snd] in *. rewrite has_char_app. cbn [has_char].
  rewrite Hk1, Hv. reflexivity.
Qed.

Lemma baggage_roundtrip t s f entries :
  Forall valid_entry entries ->
  parse_baggage (header "baggage" (inject (mkTraceContext t s f entries))) = entries.
Proof.
  intros H. destruct entries as [|e entries]; [reflexivity|].
  change (parse_baggage (Some (join "," (map encode (e :: entries)))) = e :: entries).
  unfold parse_baggage.
  rewrite split_join; [apply parse_encoded, H|discriminate|apply encoded_plain, H].
Qed.

Lemma traceparent_roundtrip t s (f : bool) :
  0 <= t < 2 ^ 128 -> 0 <= s < 2 ^ 64 ->
  parse_traceparent (join "-" ["00"; to_hex 32 t; to_hex 16 s; if f then "01" else "00"])
  = Some (t, s, f).
Proof.
  intros Ht Hs. unfold parse_traceparent.
  change (join "-" ["00"; to_hex 32 t; to_hex 16 s; if f then "01" else "00"])
    with ("00" +:+ String "-"%char
            (to_hex 32 t +:+ String "-"%char
               (to_hex 16 s +:+ String "-"%char (if f then "01" else "00")))).
  rewrite split_on_app by reflexivity.
  rewrite split_on_app by (unfold to_hex; rewrite to_hex_plain; reflexivity).
  rewrite split_on_app by (unfold to_hex; rewrite to_hex_plain; reflexivity).
  rewrite split_on_plain by (destruct f; reflexivity).
  unfold to_hex at 1 2. rewrite !length_to_hex.
  replace (String.length (if f then "01" else "00")) with 2%nat by (destruct f; reflexivity).
  cbn [String.eqb Ascii.eqb Bool.eqb andb String.length Nat.add Nat.eqb].
  unfold of_hex, to_hex. rewrite !of_hex_to_hex by assumption.
  cbn [of_hex_from]. destruct f; reflexivity.
Qed.

(** C6. For every valid trace context, [extract] of what [inject] wrote
    gives back the same trace id, span id, sampled flag and baggage (here
    in the same order). The encodings are the ones the specification
    describes. *)
Theorem extract_inject_roundtrip ctx fresh :
  valid ctx -> extract fresh (inject ctx) = ctx.
Proof.
  destruct ctx as [t s f entries]. intros (Ht & Hs & Hb). cbn [trace_id span_id baggage] in *.
  unfold extract.
  change (header "traceparent" (inject (mkTraceContext t s f entries)))
    with (Some (join "-" ["00"; to_hex 32 t; to_hex 16 s; if f then "01" else "00"])).
  cbv beta iota.
  rewrite traceparent_roundtrip by assumption.
  rewrite baggage_roundtrip by exact Hb. reflexivity.
Qed.

Lemma extract_inject_witness :
  valid (mkTraceContext 0x4bf92f3577b34da6a3ce929d0e0e4736 0x00f067aa0ba902b7 true
           [("session.id", "s-1"); ("synthetic_request", "true")])
  /\ extract (mkTraceContext 1 1 false [])
       (inject (mkTraceContext 0x4bf92f3577b34da6a3ce929d0e0e4736 0x00f067aa0ba902b7 true
                  [("session.id", "s-1"); ("synthetic_request", "true")]))
     = mkTraceContext 0x4bf92f3577b34da6a3ce929d0e0e4736 0x00f067aa0ba902b7 true
         [("session.id", "s-1"); ("synthetic_request", "true")].
Proof.
  assert (V : valid (mkTraceContext 0x4bf92f3577b34da6a3ce929d0e0e4736 0x00f067aa0ba902b7 true
           [("session.id", "s-1"); ("synthetic_request", "true")])).
  { unfold valid. cbn [trace_id span_id baggage]. split; [lia|]. split; [lia|].
    repeat constructor. }
  split; [exact V|]. apply extract_inject_roundtrip. exact V.
Defined.
End PropagatorProofs.

(** ** The cart store: overwriting, isolation, expiry, failures *)

Module CartStoreProofs.
Import Otel Http Runtime.
Import Cart.

(** The requests of a user who names themself, in closed form. *)
Lemma AddItem_served u p (store : Redis) t d :
  u <> EmptyString -> p <> EmptyString ->
  snd (RunCartService (mkCall (AddItem_request u p) t d (fun _ => None)) store)
  = Expire t (HSet t store (cartKey u) p (mkCartItem p (d 0%nat mod 3 + 1))) (cartKey u) Hour.
Proof.
  intros Hu Hp. unfold RunCartService. simpl.
  unfold otelhttp_NewHandler, addItemHandler, AddItem_request.
  rewrite CartProofs.userID_of_given by exact Hu. simpl.
  change (query_Get "product_id" [("user_id", u); ("product_id", p)]) with p.
  destruct (String.eqb p EmptyString) eqn:E; [apply String.eqb_eq in E; contradiction|].
  reflexivity.
Qed.

Lemma GetCart_served u (store : Redis) t d :
  u <> EmptyString ->
  RunCartService (mkCall (GetCart_request u) t d (fun _ => None)) store
  = (mkResponse 200 (cart_body u (totalItems (HGetAll t store (cartKey u)))), store).
Proof.
  intros Hu. unfold RunCartService. simpl.
  unfold otelhttp_NewHandler, getCartHandler, GetCart_request.
  rewrite CartProofs.userID_of_given by exact Hu. reflexivity.
Qed.

Lemma EmptyCart_served u (store : Redis) t d :
  u <> EmptyString ->
  snd (RunCartService (mkCall (EmptyCart_request u) t d (fun _ => None)) store)
  = Del store (cartKey u).
Proof.
  intros Hu. unfold RunCartService. simpl.
  unfold otelhttp_NewHandler, emptyCartHandler, EmptyCart_request.
  rewrite CartProofs.userID_of_given by exact Hu. reflexivity.
Qed.

Lemma cartKey_inj u v : cartKey u = cartKey v -> u = v.
Proof. unfold cartKey. simpl. intros H. injection H as H. exact H. Qed.

Lemma HGetAll_after_add t1 t2 (store : Redis) key p item :
  t1 <= t2 < t1 + Hour ->
  HGetAll t2 (Expire t1 (HSet t1 store key p item) key Hour) key
  = <[p := item]> (HGetAll t1 store key).
Proof.
  intros Ht. unfold HGetAll at 1. rewrite (CartProofs.live_after_add t1 t2 store key p item Ht).
  reflexivity.
Qed.

Lemma live_other (store : Redis) key key' e t :
  key <> key' -> live t (<[key := e]> store) key' = live t store key'.
Proof. intros H. unfold live. rewrite lookup_insert_ne by exact H. reflexivity. Qed.

Lemma HGetAll_other_add t t' (store : Redis) key key' p item :
  key <> key' ->
  HGetAll t' (Expire t (HSet t store key p item) key Hour) key' = HGetAll t' store key'.
Proof.
  intros H. unfold HGetAll, Expire, HSet.
  destruct (live t store key) as [e|].
  - destruct (live t (<[key := _]> store) key) as [e'|].
    + rewrite !live_other by exact H. reflexivity.
    + rewrite live_other by exact H. reflexivity.
  - destruct (live t (<[key := _]> store) key) as [e'|].
    + rewrite !live_other by exact H. reflexivity.
    + rewrite live_other by exact H. reflexivity.
Qed.

(** X1. Adding a product that is already in the cart replaces its quantity:
    the cart holds the second quantity, not the sum of the two. *)
Theorem cart_add_again_replaces u p (store : Redis) t1 t2 t3 d1 d2 d3 :
  u <> EmptyString -> p <> EmptyString ->
  t1 <= t2 < t1 + Hour -> t2 <= t3 < t2 + Hour ->
  let up := fun _ : nat => @None string in
  let once := snd (RunCartService (mkCall (AddItem_request u p) t1 d1 up) store) in
  let twice := snd (RunCartService (mkCall (AddItem_request u p) t2 d2 up) once) in
  fst (RunCartService (mkCall (GetCart_request u) t3 d3 up) twice)
  = mkResponse 200
      (cart_body u (d2 0%nat mod 3 + 1 + totalItems (delete p (HGetAll t1 store (cartKey u))))).
Proof.
  intros Hu Hp H12 H23 up once twice. unfold twice, once, up.
  rewrite !AddItem_served by assumption. rewrite GetCart_served by exact Hu.
  cbn [fst]. rewrite !HGetAll_after_add by assumption.
  rewrite insert_insert_eq, CartProofs.totalItems_insert. reflexivity.
Qed.

Lemma cart_add_again_witness :
  fst (RunCartService (mkCall (GetCart_request "user-7") 120 (fun _ => 0) (fun _ => None))
         (snd (RunCartService (mkCall (AddItem_request "user-7" "OLJCESPC7Z") 60
                                 (fun _ => 3) (fun _ => None))
                 (snd (RunCartService (mkCall (AddItem_request "user-7" "OLJCESPC7Z") 0
                                         (fun _ => 5) (fun _ => None)) ∅)))))
  = mkResponse 200
      (cart_body "user-7"
         (3 mod 3 + 1 + totalItems (delete "OLJCESPC7Z" (HGetAll 0 ∅ (cartKey "user-7"))))).
Proof.
  apply (cart_add_again_replaces "user-7" "OLJCESPC7Z" ∅ 0 60 120
           (fun _ => 5) (fun _ => 3) (fun _ => 0)).
  - discriminate.
  - discriminate.
  - unfold Hour. lia.
  - unfold Hour. lia.
Defined.

(** X2. The carts of two users do not touch: what GetCart answers for one
    user is the same before and after the other user adds an item or
    empties their cart. *)
Theorem cart_users_are_isolated u v p (store : Redis) t t' d d' :
  u <> EmptyString -> v <> EmptyString -> p <> EmptyString -> u <> v ->
  let up := fun _ : nat => @None string in
  let before := fst (RunCartService (mkCall (GetCart_request v) t' d' up) store) in
  fst (RunCartService (mkCall (GetCart_request v) t' d' up)
         (snd (RunCartService (mkCall (AddItem_request u p) t d up) store))) = before
  /\ fst (RunCartService (mkCall (GetCart_request v) t' d' up)
            (snd (RunCartService (mkCall (EmptyCart_request u) t d up) store))) = before.
Proof.
  intros Hu Hv Hp Huv up before. unfold before, up.
  assert (Hk : cartKey u <> cartKey v) by (intros E; apply Huv, cartKey_inj, E).
  rewrite AddItem_served, EmptyCart_served, !GetCart_served by assumption. cbn [fst].
  split.
  - rewrite HGetAll_other_add by exact Hk. reflexivity.
  - unfold HGetAll, Del, live. rewrite lookup_delete_ne by exact Hk. reflexivity.
Qed.

Lemma cart_isolation_witness :
  fst (RunCartService (mkCall (GetCart_request "user-2") 10 (fun _ => 0) (fun _ => None))
         (snd (RunCartService (mkCall (AddItem_request "user-1" "6E92ZMYYFZ") 5
                                 (fun _ => 1) (fun _ => None)) ∅)))
  = fst (RunCartService (mkCall (GetCart_request "user-2") 10 (fun _ => 0) (fun _ => None)) ∅).
Proof.
  assert (H1 : "user-1" <> EmptyString) by discriminate.
  assert (H2 : "user-2" <> EmptyString) by discriminate.
  assert (H3 : "6E92ZMYYFZ" <> EmptyString) by discriminate.
  assert (H4 : "user-1" <> "user-2") by discriminate.
  exact (proj1 (cart_users_are_isolated "user-1" "user-2" "6E92ZMYYFZ" ∅ 5 10
                  (fun _ => 1) (fun _ => 0) H1 H2 H3 H4)).
Defined.



(** X4. When the first Redis command of a request fails, each of the three
    handlers answers 500 and leaves the store as it was; the server span
    carries the exception event, gets the status error from the wrapper
    and is ended; no sample is recorded. *)
Theorem cart_redis_failure op h c (store : Redis) err :
  In (op, h) [("AddItem", addItemHandler); ("GetCart", getCartHandler);
              ("EmptyCart", emptyCartHandler)] ->
  redis_err c 0%nat = Some err ->
  let o := otelhttp_NewHandler op h c store in
  statusCode (response o) = 500
  /\ db o = store
  /\ status (span o) = Error /\ ended (span o) = true
  /\ In "exception" (map ev_name (events (span o)))
  /\ out_samples o = [].
Proof.
  intros Hin Herr.
  destruct Hin as [E|[E|[E|[]]]]; injection E as <- <-; intros o; unfold o.
  - unfold otelhttp_NewHandler, addItemHandler.
    destruct (userID_of c) as [userID k].
    destruct (String.eqb (query_Get "product_id" (q_query (request c))) EmptyString);
      rewrite Herr; simpl; tauto.
  - unfold otelhttp_NewHandler, getCartHandler.
    destruct (userID_of c) as [userID k]. rewrite Herr. simpl. tauto.
  - unfold otelhttp_NewHandler, emptyCartHandler.
    destruct (userID_of c) as [userID k]. rewrite Herr. simpl. tauto.
Qed.

Lemma cart_redis_failure_witness :
  status (span (otelhttp_NewHandler "GetCart" getCartHandler
                  (mkCall (GetCart_request "user-7") 0 (fun _ => 0)
                          (fun _ => Some "connection refused")) ∅)) = Error.
Proof.
  assert (H1 : In ("GetCart", getCartHandler)
                  [("AddItem", addItemHandler); ("GetCart", getCartHandler);
                   ("EmptyCart", emptyCartHandler)]) by (simpl; tauto).
  exact (proj1 (proj2 (proj2
           (cart_redis_failure "GetCart" getCartHandler
              (mkCall (GetCart_request "user-7") 0 (fun _ => 0)
                      (fun _ => Some "connection refused"))
              ∅ "connection refused" H1 eq_refl)))).
Defined.

End CartStoreProofs.

(** ** The orchestrator: the other courses of an order, and what it sends *)

Module OrderProofs.
Import Otel Http Runtime Checkout Saga.
Import CheckoutProofs.

(** X5. When the ShipOrder call fails (a transport error or a status other
    than 200), the order ends after ShipOrder: the payment has been
    charged, SendEmail and PublishEvent are not invoked, no call goes to
    the email, accounting or fraud services, and no sample is recorded.
    The root span gets an exception event; its status stays unset. *)
Theorem shipping_failure_stops_the_order env mode w :
  call_failed ShippingURL w (transaction env mode w) ->
  steps w (transaction env mode w) = prefix_steps ++ [ChargeCard; ShipOrder]
  /\ services_called w (transaction env mode w) = prefix_calls ++ [PaymentURL; ShippingURL]
  /\ new_samples w (transaction env mode w) = []
  /\ exists root,
       roots w (transaction env mode w) = [root]
       /\ status root = Unset /\ recorded_exception root.
Proof.
  intros (req & o & Hin & Hsvc & Hf). closed_form env mode w.
  unfold services_called. rewrite Esteps, Eroots, Ex, Esmp. rewrite Ex in Hin.
  destruct Ho as (xpre & reqc & oc & xtail & -> & Hpre & Hreqc & Ho).
  destruct (failed oc) eqn:Fc.
  { exfalso. destruct Ho as (_ & -> & _).
    apply in_app_or in Hin as [Hin|[Hin|[]]].
    - apply (prefix_calls_before ShippingURL xpre Hpre (or_intror eq_refl) req o Hin Hsvc).
    - congruence. }
  destruct Ho as (reqs & os & xrest & -> & Hreqs & Ho).
  assert (Hos : failed os = true).
  { destruct (failed os) eqn:Fs; [reflexivity|]. exfalso.
    destruct Ho as (_ & Hx & _).
    apply in_app_or in Hin as [Hin|[Hin|[Hin|Hin]]].
    - apply (prefix_calls_before ShippingURL xpre Hpre (or_intror eq_refl) req o Hin Hsvc).
    - congruence.
    - congruence.
    - assert (Hc : In ShippingURL (map called xrest)).
      { apply in_map_iff. exists (req, o). split; [exact Hsvc|exact Hin]. }
      rewrite Hx in Hc. simpl in Hc. intuition discriminate. }
  rewrite Hos in Ho. destruct Ho as (Hst & -> & -> & Hexc).
  split; [exact Hst|]. split; [|split; [reflexivity|]].
  - rewrite map_app, Hpre. simpl. unfold called at 1 2. simpl. rewrite Hreqc, Hreqs. reflexivity.
  - exists root. auto.
Qed.

Lemma shipping_failure_witness :
  steps empty_world (transaction Scenarios.shipping_down Batch empty_world)
  = prefix_steps ++ [ChargeCard; ShipOrder].
Proof.
  assert (H : call_failed ShippingURL empty_world
                (transaction Scenarios.shipping_down Batch empty_world))
    by (apply call_failedb_true; vm_compute; reflexivity).
  exact (proj1 (shipping_failure_stops_the_order Scenarios.shipping_down Batch empty_world H)).
Defined.

(** X6. An order counts as a success exactly when neither the payment call
    nor the shipping call failed: a failure of any other call (cart,
    catalog, currency, recommendations, ads, email, the two consumers)
    never keeps an order from being counted. *)
Theorem order_succeeds_iff env mode w :
  successful w (transaction env mode w)
  <-> ~ call_failed PaymentURL w (transaction env mode w)
      /\ ~ call_failed ShippingURL w (transaction env mode w).
Proof.
  closed_form env mode w. unfold successful, call_failed. rewrite Ex, Esmp.
  destruct Ho as (xpre & reqc & oc & xtail & -> & Hpre & Hreqc & Ho).
  split.
  - intros (cur & Hin).
    destruct (failed oc) eqn:Fc; [destruct Ho as (_ & _ & -> & _); contradiction|].
    destruct Ho as (reqs & os & xrest & -> & Hreqs & Ho).
    destruct (failed os) eqn:Fs; [destruct Ho as (_ & _ & -> & _); contradiction|].
    destruct Ho as (_ & Hx & _).
    assert (Hrest : forall req o svc, In (req, o) xrest -> r_service req = svc ->
                    svc = PaymentURL \/ svc = ShippingURL -> False).
    { intros req o svc Hi Hrs Hsvc.
      assert (Hc : In svc (map called xrest)).
      { apply in_map_iff. exists (req, o). split; [exact Hrs|exact Hi]. }
      rewrite Hx in Hc. simpl in Hc. destruct Hsvc as [-> | ->]; intuition discriminate. }
    split; intros (req & o & Hi & Hrs & Hf).
    + apply in_app_or in Hi as [Hi|[Hi|[Hi|Hi]]].
      * apply (prefix_calls_before PaymentURL xpre Hpre (or_introl eq_refl) req o Hi Hrs).
      * congruence.
      * congruence.
      * apply (Hrest req o PaymentURL Hi Hrs). left. reflexivity.
    + apply in_app_or in Hi as [Hi|[Hi|[Hi|Hi]]].
      * apply (prefix_calls_before ShippingURL xpre Hpre (or_intror eq_refl) req o Hi Hrs).
      * congruence.
      * congruence.
      * apply (Hrest req o ShippingURL Hi Hrs). right. reflexivity.
  - intros [Hpay Hship].
    destruct (failed oc) eqn:Fc.
    { exfalso. apply Hpay. exists reqc, oc. split; [|split; assumption].
      apply in_or_app. right. left. reflexivity. }
    destruct Ho as (reqs & os & xrest & -> & Hreqs & Ho).
    destruct (failed os) eqn:Fs.
    { exfalso. apply Hship. exists reqs, os. split; [|split; assumption].
      apply in_or_app. right. right. left. reflexivity. }
    destruct Ho as (_ & _ & cur & ->). exists cur. left. reflexivity.
Qed.

(** X7. Whatever the downstream services answer, an order adds exactly one
    root span; it is of kind server, it is ended, and its status is
    unset: no course of placeOrder sets a status, and the wrapper of the
    [/checkout] route sees a 200. *)
Theorem order_root_is_ended_and_unset env mode w :
  exists root,
    roots w (transaction env mode w) = [root]
    /\ kind root = SpanKindServer /\ ended root = true /\ status root = Unset.
Proof.
  closed_form env mode w. rewrite Eroots. exists root. auto.
Qed.

(** X8. An order only appends: the spans, exchanges and samples the process
    held before are all still there, unchanged, in front of the new
    ones. *)
Theorem order_only_appends env mode w :
  take (length (spans w)) (spans (transaction env mode w)) = spans w
  /\ take (length (exchanges w)) (exchanges (transaction env mode w)) = exchanges w
  /\ take (length (samples w)) (samples (transaction env mode w)) = samples w.
Proof.
  destruct (transaction_run env mode w)
    as (root & news & xs & smp & lg & nr & nu & -> & _).
  cbn [spans exchanges samples]. rewrite !take_app_length. auto.
Qed.

(** *** The batch loop *)

Lemma roots_of_added (w : World) added w' :
  spans w' = spans w ++ added -> roots w w' = filter (fun s => is_root s = true) added.
Proof. intros E. unfold roots, new_spans. rewrite E, drop_app_length. reflexivity. Qed.

Lemma placeOrders_next env n w :
  exec (placeOrders env (S n)) w
  = exec (placeOrders env n)
         (mkWorld (spans (transaction env Batch w)) (exchanges (transaction env Batch w))
                  (logs (transaction env Batch w)) (samples (transaction env Batch w))
                  (S (nrand (transaction env Batch w))) (nuuid (transaction env Batch w))).
Proof.
  unfold transaction, exec. cbn [placeOrders]. unfold bind.
  destruct (placeOrder env Background w) as [u w1]. reflexivity.
Qed.

Lemma placeOrders_run env n : forall w,
  exists added,
    spans (exec (placeOrders env n) w) = spans w ++ added
    /\ length (filter (fun s => is_root s = true) added) = n
    /\ Forall (fun root => kind root = SpanKindServer /\ ended root = true
                           /\ status root = Unset)
              (filter (fun s => is_root s = true) added).
Proof.
  induction n as [|n IH]; intros w.
  - exists []. rewrite app_nil_r. split; [reflexivity|]. split; [reflexivity|constructor].
  - rewrite placeOrders_next.
    destruct (transaction_run env Batch w)
      as (root & news & xs & smp & lg & nr & nu & -> & Hk & Hroot & Hst & He & Hnews & _).
    cbn [spans exchanges logs samples nrand nuuid].
    match goal with |- context [exec (placeOrders env n) ?w2] =>
      destruct (IH w2) as (added & -> & Hlen & Hall)
    end.
    cbn [spans]. exists ((root :: news) ++ added). rewrite <- app_assoc.
    split; [reflexivity|].
    rewrite filter_app, filter_cons.
    destruct (decide (is_root root = true)); [|contradiction].
    rewrite (no_roots_below news Hnews). cbn [app length].
    split; [rewrite Hlen; reflexivity|].
    constructor; [auto|exact Hall].
Qed.

Lemma RunCheckoutService_spans env count w :
  spans (exec (RunCheckoutService env count) w)
  = spans (exec (placeOrders env count)
                (mkWorld (spans w) (exchanges w)
                         (logs w ++ [mkLog Info "Checkout Service starting"])
                         (samples w) (nrand w) (nuuid w))).
Proof.
  unfold RunCheckoutService, exec, bind. unfold log at 1.
  destruct (placeOrders env count _) as [u w1]. reflexivity.
Qed.

(** X9. The batch mode places [count] orders: it adds [count] root
    spans, each of kind server, ended, with its status unset. *)
Theorem batch_places_count_orders env count w :
  length (roots w (exec (RunCheckoutService env count) w)) = count
  /\ Forall (fun root => kind root = SpanKindServer /\ ended root = true /\ status root = Unset)
            (roots w (exec (RunCheckoutService env count) w)).
Proof.
  destruct (placeOrders_run env count
              (mkWorld (spans w) (exchanges w)
                       (logs w ++ [mkLog Info "Checkout Service starting"])
                       (samples w) (nrand w) (nuuid w))) as (added & E & Hlen & Hall).
  rewrite <- RunCheckoutService_spans in E. cbn [spans] in E.
  rewrite (roots_of_added w added _ E). auto.
Qed.

End OrderProofs.

(** ** The orchestrator: what its calls send *)

Module RequestProofs.
Import Otel Http Runtime Checkout Saga.
Import CheckoutProofs.

Lemma new_exchanges_added (w : World) l xs lg smp nr nu :
  new_exchanges w (mkWorld l (exchanges w ++ xs) lg smp nr nu) = xs.
Proof. unfold new_exchanges. cbn [exchanges]. apply drop_app_length. Qed.

(** A product id drawn from the catalog is an id of the catalog. *)
Lemma GetProductID_in_catalog env w :
  In (fst (ProductCatalog.GetProductID env w)) (map ProductCatalog.ID ProductCatalog.products).
Proof.
  unfold ProductCatalog.GetProductID, bind, Intn, ret. cbn [fst].
  apply in_map. apply nth_In.
  pose proof (Z.mod_pos_bound (rnd env (nrand w)) 9 ltac:(lia)) as H.
  change (Z.of_nat (length ProductCatalog.products)) with 9.
  change (length ProductCatalog.products) with 9%nat. lia.
Qed.

Section Requests.
Variable env : Env.

Opaque Do.

Lemma addToCart_sent ctx q u pid w :
  ctx_span ctx = Some q ->
  exists res c x lg,
    addToCart env ctx u pid w
    = (res, mkWorld (spans w ++ [c]) (exchanges w ++ [x]) lg (samples w) (nrand w) (nuuid w))
    /\ sent x = add_item u pid.
Proof.
  intros Hq. unfold addToCart. prims.
  match goal with |- context [Do env ?c ?m ?s0 ?p0 ?q0 ?w1] =>
    destruct (Do_run env c q m s0 p0 q0 w1 Hq) as (c1 & o & -> & _) end.
  simpl. destruct o; prims; eexists _, c1, _, _; (split; reflexivity).
Qed.

Lemma addItems_sent n : forall ctx q u acc w,
  ctx_span ctx = Some q ->
  exists ids news xs lg nr,
    addItems env n ctx u acc w
    = (acc ++ ids, mkWorld (spans w ++ news) (exchanges w ++ xs) lg (samples w) nr (nuuid w))
    /\ length ids = n
    /\ Forall (fun id => In id (map ProductCatalog.ID ProductCatalog.products)) ids
    /\ map sent xs = map (add_item u) ids.
Proof.
  induction n as [|n IH]; intros ctx q u acc w Hq.
  - destruct w as [l0 x0 lg0 s0 nr0 nu0]. exists [], [], [], lg0, nr0.
    cbn [addItems]. unfold ret. cbn [spans exchanges samples nuuid].
    rewrite !app_nil_r. repeat split. constructor.
  - cbn [addItems]. unfold bind at 1.
    pose proof (GetProductID_in_catalog env w) as Hin.
    destruct (ProductCatalog.GetProductID env w) as [pid w1] eqn:Eg. cbn [fst] in Hin.
    assert (Ew : w1 = mkWorld (spans w) (exchanges w) (logs w) (samples w) (S (nrand w)) (nuuid w)).
    { unfold ProductCatalog.GetProductID, bind, Intn, ret in Eg. injection Eg as _ <-. reflexivity. }
    subst w1. unfold bind at 1.
    match goal with |- context [addToCart env ctx u pid ?w1] =>
      destruct (addToCart_sent ctx q u pid w1 Hq) as (res & c & x & lg & -> & Hx) end.
    cbn [spans exchanges logs samples nrand nuuid].
    unfold bind at 1.
    assert (Hlog : exists lg',
               (match res with
                | Some _ => log Warn "Failed to add item to cart"
                | None => ret ()
                end)
                 (mkWorld (spans w ++ [c]) (exchanges w ++ [x]) lg (samples w) (S (nrand w)) (nuuid w))
               = (tt, mkWorld (spans w ++ [c]) (exchanges w ++ [x]) lg' (samples w)
                              (S (nrand w)) (nuuid w))).
    { destruct res; eexists; reflexivity. }
    destruct Hlog as (lg' & ->).
    match goal with |- context [addItems env n ctx u ?acc1 ?w1] =>
      destruct (IH ctx q u acc1 w1 Hq) as (ids & news & xs & lg2 & nr & -> & Hlen & Hall & Hxs) end.
    cbn [spans exchanges logs samples nrand nuuid].
    exists (pid :: ids), (c :: news), (x :: xs), lg2, nr.
    rewrite <- !app_assoc. cbn [app].
    split; [reflexivity|]. split; [simpl; rewrite Hlen; reflexivity|].
    split; [constructor; assumption|].
    cbn [map]. rewrite Hx, Hxs. reflexivity.
Qed.

Lemma getCart_sent ctx q u w :
  ctx_span ctx = Some q ->
  exists res c x lg,
    getCart env ctx u w
    = (res, mkWorld (spans w ++ [c]) (exchanges w ++ [x]) lg (samples w) (nrand w) (nuuid w))
    /\ sent x = ("GET", CartURL, "/cart", [("user_id", u)]).
Proof.
  intros Hq. unfold getCart. prims.
  match goal with |- context [Do env ?c ?m ?s0 ?p0 ?q0 ?w1] =>
    destruct (Do_run env c q m s0 p0 q0 w1 Hq) as (c1 & o & -> & _) end.
  simpl. destruct o; prims; eexists _, c1, _, _; (split; reflexivity).
Qed.

Lemma emptyCart_sent ctx q u w :
  ctx_span ctx = Some q ->
  exists res c x lg,
    emptyCart env ctx u w
    = (res, mkWorld (spans w ++ [c]) (exchanges w ++ [x]) lg (samples w) (nrand w) (nuuid w))
    /\ sent x = ("POST", CartURL, "/cart/empty", [("user_id", u)]).
Proof.
  intros Hq. unfold emptyCart. prims.
  match goal with |- context [Do env ?c ?m ?s0 ?p0 ?q0 ?w1] =>
    destruct (Do_run env c q m s0 p0 q0 w1 Hq) as (c1 & o & -> & _) end.
  simpl. destruct o; prims; eexists _, c1, _, _; (split; reflexivity).
Qed.

Opaque addToCart getCart emptyCart addItems.

(** X10. prepareOrderItems follows the protocol of the cart: it adds three
    products of the catalog, reads the cart, then empties it, all for the
    same user; the products it returns are the ones it added, in that
    order; and it never returns an error, whatever the cart service
    answered. *)
Theorem prepare_follows_the_cart_protocol ctx u cur w :
  let out := prepareOrderItems env ctx u cur w in
  snd (fst out) = None
  /\ length (productIDs (fst (fst out))) = 3%nat
  /\ Forall (fun id => In id (map ProductCatalog.ID ProductCatalog.products))
            (productIDs (fst (fst out)))
  /\ map sent (new_exchanges w (snd out))
     = map (add_item u) (productIDs (fst (fst out)))
       ++ [("GET", CartURL, "/cart", [("user_id", u)]);
           ("POST", CartURL, "/cart/empty", [("user_id", u)])].
Proof.
  intros out. unfold out, prepareOrderItems. prims. norm_store.
  match goal with |- context [addItems env ?n ?c ?u0 ?acc ?w1] =>
    destruct (addItems_sent n c _ u0 acc w1 eq_refl)
      as (ids & n1 & x1 & lg1 & nr1 & -> & Hlen & Hall & Hx1) end.
  simpl. norm_store.
  match goal with |- context [getCart env ?c ?u0 ?w1] =>
    destruct (getCart_sent c _ u0 w1 eq_refl) as (res2 & c2 & x2 & lg2 & -> & Hx2) end.
  simpl. norm_store.
  destruct (snd res2); prims; norm_store.
  all: match goal with |- context [emptyCart env ?c ?u0 ?w1] =>
    destruct (emptyCart_sent c _ u0 w1 eq_refl) as (res3 & c3 & x3 & lg3 & -> & Hx3) end.
  all: simpl; norm_store.
  all: destruct res3; prims; norm_store.
  all: split; [reflexivity|]; split; [exact Hlen|]; split; [exact Hall|].
  all: rewrite new_exchanges_added, map_app, Hx1; cbn [map]; rewrite Hx2, Hx3; reflexivity.
Qed.

Lemma fetchProducts_sent ids : forall ctx q w,
  ctx_span ctx = Some q ->
  exists news xs lg,
    fetchProducts env ctx ids w
    = (tt, mkWorld (spans w ++ news) (exchanges w ++ xs) lg (samples w) (nrand w) (nuuid w))
    /\ map sent xs = map get_product ids.
Proof.
  induction ids as [|pid ids IH]; intros ctx q w Hq.
  - destruct w. simpl. prims. eexists [], [], _. rewrite !app_nil_r. split; reflexivity.
  - simpl. prims.
    match goal with |- context [Do env ?c ?m ?s0 ?p0 ?q0 ?w1] =>
      destruct (Do_run env c q m s0 p0 q0 w1 Hq) as (c1 & o & -> & _) end.
    simpl. destruct o; prims.
    all: match goal with |- context [fetchProducts env _ _ ?w1] =>
      destruct (IH ctx q w1 Hq) as (news & xs & lg & -> & Hxs) end.
    all: simpl; norm_store.
    all: eexists (c1 :: news), (_ :: xs), _; (split; [reflexivity|]).
    all: cbn [map]; rewrite Hxs; reflexivity.
Qed.

Opaque fetchProducts.

(** X11. getProductDetails asks the catalog for every product id it is given,
    once each and in the order given; a failed lookup does not stop the
    ones after it. *)
Theorem product_details_asks_for_every_id ctx ids w :
  map sent (new_exchanges w (snd (getProductDetails env ctx ids w))) = map get_product ids.
Proof.
  unfold getProductDetails. prims. norm_store.
  match goal with |- context [fetchProducts env ?c ?i ?w1] =>
    destruct (fetchProducts_sent i c _ w1 eq_refl) as (news & xs & lg & -> & Hxs) end.
  simpl. norm_store. rewrite new_exchanges_added. exact Hxs.
Qed.

(** X12. The calls of ChargeCard, ShipOrder and SendEmail carry nothing of
    the order: each is a POST without query (and without body), the same
    whatever the amount, the currency, the number of items, the order
    id and the user id are. *)
Theorem hard_steps_send_no_order_data ctx amount currency items orderID userID w :
  map sent (new_exchanges w (snd (chargeCard env ctx amount currency w)))
  = [("POST", PaymentURL, "/charge", [])]
  /\ map sent (new_exchanges w (snd (shipOrder env ctx items w)))
     = [("POST", ShippingURL, "/ship", [])]
  /\ map sent (new_exchanges w (snd (sendOrderConfirmation env ctx orderID userID w)))
     = [("POST", EmailURL, "/send", [])].
Proof.
  split; [|split].
  - unfold chargeCard. prims. norm_store.
    match goal with |- context [Do env ?c ?m ?s0 ?p0 ?q0 ?w1] =>
      destruct (Do_run env c _ m s0 p0 q0 w1 eq_refl) as (c1 & o & -> & _) end.
    simpl. norm_store.
    destruct o as [e|code payload]; [|destruct (code =? 200)]; prims; norm_store.
    all: rewrite new_exchanges_added; reflexivity.
  - unfold shipOrder. prims. norm_store.
    match goal with |- context [Do env ?c ?m ?s0 ?p0 ?q0 ?w1] =>
      destruct (Do_run env c _ m s0 p0 q0 w1 eq_refl) as (c1 & o & -> & _) end.
    simpl. norm_store.
    destruct o as [e|code payload]; [|destruct (code =? 200)]; prims; norm_store.
    all: rewrite new_exchanges_added; reflexivity.
  - unfold sendOrderConfirmation. prims. norm_store.
    match goal with |- context [Do env ?c ?m ?s0 ?p0 ?q0 ?w1] =>
      destruct (Do_run env c _ m s0 p0 q0 w1 eq_refl) as (c1 & o & -> & _) end.
    simpl. norm_store.
    destruct o as [e|code payload]; [|destruct (code =? 200)]; prims; norm_store.
    all: rewrite new_exchanges_added; reflexivity.
Qed.

Transparent Do addToCart getCart emptyCart addItems fetchProducts.

End Requests.

End RequestProofs.

(** ** The shipping quote *)

Module QuoteProofs.
Import Otel Http Runtime.
Import Shipping.

Ltac quote_prims :=
  unfold bind, ret, Start, RecordError, SetStatus, End, on_span, with_spans, log, record_sample,
    Intn, SetAttributes, AddEvent;
  cbn [spans exchanges logs samples nrand nuuid fst snd ctx_span ctx_remote ctx_baggage].

(** X13. The quote is the local formula on every path: base rate, rate per
    item, and a draw below 3.00. Neither the failure of NewRequest nor
    what the quote service answers (or whether it answers) changes it. *)
Theorem quote_ignores_the_quote_service env nre ctx count w :
  fst (fst (createQuoteFromCount env nre ctx count w))
  = 599 + count * 150 + rnd env (nrand w) mod 300
  /\ 599 + count * 150 <= fst (fst (createQuoteFromCount env nre ctx count w))
     <= 599 + count * 150 + 299.
Proof.
  assert (E : fst (fst (createQuoteFromCount env nre ctx count w))
              = 599 + count * 150 + rnd env (nrand w) mod 300).
  { unfold createQuoteFromCount, calculateQuoteLocally. quote_prims.
    destruct nre as [err|]; quote_prims; [reflexivity|].
    unfold Do. quote_prims.
    match goal with |- context [net env ?n ?req] => destruct (net env n req) as [e|code payload] end;
      quote_prims; reflexivity. }
  rewrite E. split; [reflexivity|].
  pose proof (Z.mod_pos_bound (rnd env (nrand w)) 300 ltac:(lia)). lia.
Qed.

(** X14. The span of createQuoteFromCount tells where the quote came from.
    When the call to the quote service fails with a transport error the
    span carries an exception event and [quote.external_service] false;
    any reply, whatever its status code, counts as a quote received from
    the service. Either way the span is ended with its status unset. *)
Theorem quote_span_tells_the_source env ctx count w o :
  (forall req, net env (length (exchanges w)) req = o) ->
  exists qspan,
    spans (snd (createQuoteFromCount env None ctx count w)) !! length (spans w) = Some qspan
    /\ name qspan = "createQuoteFromCount" /\ ended qspan = true /\ status qspan = Unset
    /\ match o with
       | TransportError _ =>
           In ("quote.external_service", VBool false) (attributes qspan)
           /\ In "exception" (map ev_name (events qspan))
       | Responded _ _ =>
           In ("quote.external_service", VBool true) (attributes qspan)
           /\ ~ In "exception" (map ev_name (events qspan))
       end.
Proof.
  intros Hnet.
  unfold createQuoteFromCount, calculateQuoteLocally. quote_prims.
  unfold Do. quote_prims. rewrite Hnet.
  destruct o as [e|code payload]; quote_prims.
  all: rewrite ?length_app, ?length_alter; cbn [length].
  all: repeat first [ rewrite list_lookup_alter_eq
                    | rewrite list_lookup_alter_ne by lia ].
  all: rewrite lookup_app_l by (rewrite length_app; cbn [length]; lia).
  all: rewrite lookup_app_r by (apply Nat.le_refl); rewrite Nat.sub_diag.
  all: cbn [lookup list_lookup fmap option_fmap option_map].
  all: eexists; split; [reflexivity|]; cbn.
  all: repeat split; try tauto.
  intros [H|[]]. discriminate.
Qed.

Lemma quote_span_witness :
  exists qspan,
    spans (snd (createQuoteFromCount Scenarios.all_up None Background 2 empty_world))
      !! length (spans empty_world) = Some qspan
    /\ name qspan = "createQuoteFromCount".
Proof.
  destruct (quote_span_tells_the_source Scenarios.all_up Background 2 empty_world
              Scenarios.reply_ok (fun _ => eq_refl)) as (qspan & H1 & H2 & _).
  exists qspan. split; assumption.
Defined.

End QuoteProofs.

(** ** The two consumers of the orders topic *)

Module ConsumerProofs.
Import Otel Http Runtime Saga.

Lemma get_in_string k : forall s c,
  String.get k s = Some c -> In c (list_ascii_of_string s).
Proof.
  induction k as [|k IH]; intros [|a s] c H; simpl in H; try discriminate.
  - injection H as <-. left. reflexivity.
  - right. apply IH, H.
Qed.

Lemma get_below_length k : forall s,
  (k < String.length s)%nat -> exists c, String.get k s = Some c.
Proof.
  induction k as [|k IH]; intros [|a s] H; simpl in H; try lia.
  - exists a. reflexivity.
  - apply IH. lia.
Qed.

(** A letter drawn by randomString is a letter of its alphabet. *)
Lemma drawn_letter (i : Z) :
  In (default "a"%char (String.get (Z.to_nat (i mod 36)) FraudDetection.letters))
     (list_ascii_of_string FraudDetection.letters).
Proof.
  pose proof (Z.mod_pos_bound i 36 ltac:(lia)) as Hi.
  destruct (get_below_length (Z.to_nat (i mod 36)) FraudDetection.letters) as [c Hc].
  { change (String.length FraudDetection.letters) with 36%nat. lia. }
  rewrite Hc. apply (get_in_string _ _ _ Hc).
Qed.

(** X15. randomString(n) returns [n] characters, each of them a lowercase
    letter or a digit of its alphabet, and makes exactly [n] draws;
    nothing else of the process changes. *)
Theorem randomString_draws_from_the_alphabet env n : forall w,
  exists s,
    FraudDetection.randomString env n w
    = (s, mkWorld (spans w) (exchanges w) (logs w) (samples w) (n + nrand w) (nuuid w))
    /\ String.length s = n
    /\ Forall (fun c => In c (list_ascii_of_string FraudDetection.letters))
              (list_ascii_of_string s).
Proof.
  induction n as [|n IH]; intros [sp ex lg sm nr nu].
  - exists EmptyString. repeat split. constructor.
  - cbn [FraudDetection.randomString]. unfold bind at 1. unfold Intn at 1.
    cbn [spans exchanges logs samples nrand nuuid]. unfold bind at 1.
    destruct (IH (mkWorld sp ex lg sm (S nr) nu)) as (s & -> & Hlen & Hall).
    cbn [spans exchanges logs samples nrand nuuid]. unfold ret.
    eexists. split; [rewrite Nat.add_succ_r; reflexivity|].
    cbn [String.length list_ascii_of_string].
    split; [rewrite Hlen; reflexivity|].
    constructor; [|exact Hall].
    change (Z.of_nat (String.length FraudDetection.letters)) with 36. apply drawn_letter.
Qed.

Lemma new_samples_added (w : World) l xs lg smp nr nu :
  new_samples w (mkWorld l xs lg (samples w ++ smp) nr nu) = smp.
Proof. unfold new_samples. cbn [samples]. apply drop_app_length. Qed.

Ltac run_randomString env :=
  match goal with |- context [FraudDetection.randomString env ?n ?w1] =>
    let s := fresh "s" in
    destruct (FailureProofs.randomString_run env n w1) as [s ->];
    cbn [spans exchanges logs samples nrand nuuid fst snd]
  end.

Ltac server_span_status :=
  unfold server_span; cbn [spans];
  rewrite ?length_alter, ?length_app; cbn [length];
  repeat first [ rewrite list_lookup_alter_eq
               | rewrite list_lookup_alter_ne by lia ];
  rewrite ?lookup_app_l by (rewrite ?length_alter, ?length_app; cbn [length]; lia);
  repeat first [ rewrite list_lookup_alter_eq
               | rewrite list_lookup_alter_ne by lia ];
  rewrite lookup_app_r by (apply Nat.le_refl); rewrite Nat.sub_diag;
  reflexivity.



(** X17. The accounting consumer answers every order 200 with
    [{"status":"processed"}]; it counts one processed order and its
    revenue under the same currency, one of USD, EUR, GBP and JPY; the
    server span ends with its status unset. *)
Theorem accounting_records_every_order env r w :
  q_path r = "/consume" ->
  let out := Accounting.InitAccountingService env r w in
  fst out = mkResponse 200 Accounting.processed_body
  /\ (exists currency,
        In currency ["USD"; "EUR"; "GBP"; "JPY"]
        /\ new_samples w (snd out)
           = [mkSample "app.accounting.orders_processed" [("currency", currency)];
              mkSample "app.accounting.revenue_total" [("currency", currency)]])
  /\ status <$> server_span w (snd out) = Some Unset.
Proof.
  intros Hp out. unfold out.
  destruct (Accounting.InitAccountingService env r w) as [resp w'] eqn:E.
  cbn [fst snd]. revert E.
  unfold Accounting.InitAccountingService. rewrite Hp.
  rewrite (ServeMux_canonical Accounting.mux (q_method r) "/consume"
             (Handle Accounting.orders_receive) eq_refl eq_refl).
  unfold otelhttp_NewHandler, Accounting.handleAccountingConsume, Accounting.processOrder.
  unfold bind.
  cbn [Start SetAttributes SpanFromContext on_span with_spans log ret
       spans exchanges logs samples nrand nuuid fst snd ctx_span ctx_remote ctx_baggage].
  run_randomString env.
  cbn [Intn record_sample AddEvent End on_span with_spans ret log spans exchanges logs samples
       nrand nuuid fst snd statusCode Z.leb Z.compare Pos.compare Pos.compare_cont].
  intros E; injection E as <- <-.
  split; [reflexivity|]. split.
  - eexists. split; [|rewrite <- ?app_assoc; rewrite new_samples_added; reflexivity].
    match goal with |- context [Z.to_nat (?x mod 4)] =>
      pose proof (Z.mod_pos_bound x 4 ltac:(lia)) as Hb;
      destruct (Z.to_nat (x mod 4)) as [|[|[|[|k]]]] eqn:Ek end.
    all: simpl; try tauto.
    lia.
  - server_span_status.
Qed.

Lemma accounting_witness :
  fst (Accounting.InitAccountingService Scenarios.all_up Scenarios.consume_request empty_world)
  = mkResponse 200 Accounting.processed_body.
Proof.
  exact (proj1 (accounting_records_every_order Scenarios.all_up Scenarios.consume_request
                  empty_world eq_refl)).
Defined.

End ConsumerProofs.

(** ** The payment and email services *)

Module PaymentEmailProofs.
Import Otel Http Runtime Saga.

Lemma card_is_visa x :
  default "unknown" (Payment.CARD_PREFIXES (String.get 0 ("4" +:+ x))) = "visa".
Proof. reflexivity. Qed.

Ltac unfold_routes Hp Hm :=
  rewrite Hp, Hm;
  cbn [String.eqb Ascii.eqb Bool.eqb andb];
  cbv iota.

Ltac span_status :=
  unfold server_span; cbn [spans];
  rewrite ?length_alter, ?length_app; cbn [length];
  repeat first [ rewrite list_lookup_alter_eq
               | rewrite list_lookup_alter_ne by lia ];
  rewrite lookup_app_r by (apply Nat.le_refl); rewrite Nat.sub_diag;
  reflexivity.

(** X18. A charge is declined exactly when its fifth draw falls below 5%: it
    is then answered 402 with the server span's status error, and
    otherwise 200 with the status unset; the service has no other
    answer to a charge. Either way it counts one transaction, with the
    outcome as its status, and every transaction is counted as a visa
    card: the card number always starts with 4. *)
Theorem charge_outcome env r w :
  q_path r = "/charge" -> q_method r = "POST" ->
  let declined := if Qlt_le_dec (frand env (4 + nrand w)) (5 # 100) then true else false in
  let out := Payment.server env r w in
  statusCode (fst out) = (if declined then 402 else 200)
  /\ status <$> server_span w (snd out) = Some (if declined then Error else Unset)
  /\ exists currency,
       new_samples w (snd out)
       = [mkSample "app.payment.transactions"
            [("currency", currency); ("status", if declined then "failed" else "success");
             ("card_type", "visa")];
          mkSample "app.payment.latency" [("card_type", "visa")]].
Proof.
  intros Hp Hm declined out. unfold out.
  destruct (Payment.server env r w) as [resp w'] eqn:E.
  cbn [fst snd]. revert E.
  unfold Payment.server, Payment.route. unfold_routes Hp Hm.
  unfold Payment.handleCharge. unfold bind.
  cbn [Start SetAttributes on_span with_spans ret
       spans exchanges logs samples nrand nuuid fst snd ctx_span ctx_remote ctx_baggage].
  destruct (q_baggage r) as [|b bag].
  all: cbn [SetAttributes on_span with_spans Float32 uuid_New
            spans exchanges logs samples nrand nuuid fst snd].
  all: change (4 + nrand w)%nat with (S (S (S (S (nrand w))))) in declined.
  all: unfold declined.
  all: destruct (Qlt_le_dec _ (5 # 100)) as [Hlt|Hge].
  all: cbn [RecordError SetStatus AddEvent End record_sample log on_span with_spans ret
            spans exchanges logs samples nrand nuuid fst snd].
  all: rewrite !card_is_visa.
  all: intros E; injection E as <- <-.
  all: split; [reflexivity|].
  all: split; [span_status|].
  all: eexists; rewrite <- ?app_assoc; rewrite ConsumerProofs.new_samples_added; reflexivity.
Qed.

Lemma charge_outcome_witness :
  statusCode (fst (Payment.server Scenarios.all_up Scenarios.charge_request empty_world))
  = (if (if Qlt_le_dec (frand Scenarios.all_up (4 + nrand empty_world)) (5 # 100)
         then true else false)
     then 402 else 200).
Proof.
  exact (proj1 (charge_outcome Scenarios.all_up Scenarios.charge_request empty_world
                  eq_refl eq_refl)).
Defined.

(** X19. A confirmation request without a query, which is what the
    orchestrator sends, is answered for an order and a user the email
    service makes up: the order id is a fresh UUID and the recipient is
    [user-N@example.com], N being the floor of the first draw times
    10000 as a product of doubles. The request fails exactly when
    its second draw falls below 2%: the answer is then 500 with the
    span's status error, and otherwise 200 with the status unset and a
    body that names the made-up recipient and order. *)
Theorem email_outcome env r w :
  q_path r = "/send" -> q_method r = "POST" -> q_query r = [] ->
  let failed := if Qlt_le_dec (frand env (1 + nrand w)) (2 # 100) then true else false in
  let orderId := uuids env (nuuid w) in
  let email := "user-" +:+ pretty (Double.floor (Double.mul (frand env (nrand w)) 10000))
               +:+ "@example.com" in
  let messageId := "msg-" +:+ EmailService.slice_first 8 (uuids env (S (nuuid w))) in
  let out := EmailService.server env r w in
  fst out = (if failed
             then mkResponse 500 (Frontend.error_body EmailService.smtp_failed)
             else mkResponse 200 (EmailService.sent_body messageId email orderId))
  /\ status <$> server_span w (snd out) = Some (if failed then Error else Unset)
  /\ new_samples w (snd out)
     = [mkSample "app.email.sent"
          [("type", "order_confirmation"); ("status", if failed then "failed" else "sent")];
        mkSample "app.email.latency" []].
Proof.
  intros Hp Hm Hq failed orderId email messageId out. unfold out.
  destruct (EmailService.server env r w) as [resp w'] eqn:E.
  cbn [fst snd]. revert E.
  unfold EmailService.server, Email.route. unfold_routes Hp Hm.
  unfold EmailService.handleSendEmail. rewrite Hq.
  change (query_Get "order_id" []) with EmptyString.
  change (query_Get "user_id" []) with EmptyString.
  change (query_Get "email" []) with EmptyString.
  cbn [String.eqb]. unfold bind.
  cbn [Start SetAttributes on_span with_spans ret Float32 uuid_New
       spans exchanges logs samples nrand nuuid fst snd ctx_span ctx_remote ctx_baggage].
  destruct (List.find _ (q_baggage r)) as [sessionId|].
  all: cbn [SetAttributes on_span with_spans ret Float32 uuid_New
            spans exchanges logs samples nrand nuuid fst snd].
  all: change (1 + nrand w)%nat with (S (nrand w)) in failed.
  all: unfold failed.
  all: destruct (Qlt_le_dec _ (2 # 100)) as [Hlt|Hge].
  all: cbn [RecordError SetStatus SetAttributes AddEvent End record_sample log on_span
            with_spans ret uuid_New spans exchanges logs samples nrand nuuid fst snd].
  all: intros E; injection E as <- <-.
  all: split; [reflexivity|].
  all: split; [span_status|].
  all: rewrite <- ?app_assoc; rewrite ConsumerProofs.new_samples_added; reflexivity.
Qed.

Lemma email_outcome_witness :
  status <$> server_span empty_world
               (snd (EmailService.server Scenarios.low_draws Scenarios.send_request empty_world))
  = Some (if (if Qlt_le_dec (frand Scenarios.low_draws (1 + nrand empty_world)) (2 # 100)
              then true else false)
          then Error else Unset).
Proof.
  exact (proj1 (proj2 (email_outcome Scenarios.low_draws Scenarios.send_request empty_world
                         eq_refl eq_refl eq_refl))).
Defined.

End PaymentEmailProofs.

(** ** The product catalog and the currency service *)

Module CatalogProofs.
Import Otel Http Runtime Saga.
Import ProductCatalog ProductCatalogServer.

Lemma substring_all s : String.substring 0 (String.length s) s = s.
Proof. induction s as [|a s IH]; simpl; [reflexivity|]. rewrite IH. reflexivity. Qed.

Lemma eqb_after_prefix p x y : String.eqb (p +:+ x) (p +:+ y) = String.eqb x y.
Proof.
  induction p as [|a p IH]; [reflexivity|].
  change (String.eqb (String a (p +:+ x)) (String a (p +:+ y)) = String.eqb x y).
  cbn [String.eqb]. rewrite Ascii.eqb_refl. exact IH.
Qed.

Lemma TrimPrefix_products id : TrimPrefix ("/products/" +:+ id) "/products/" = id.
Proof.
  unfold TrimPrefix. cbv [String.append]. simpl.
  replace (String.prefix "" id) with true by (destruct id; reflexivity).
  rewrite Nat.sub_0_r. apply substring_all.
Qed.

Lemma append_assoc (a b c : string) : (a +:+ b) +:+ c = a +:+ (b +:+ c).
Proof.
  induction a as [|x a IH]; [reflexivity|].
  change ((String x a +:+ b) +:+ c) with (String x ((a +:+ b) +:+ c)).
  change (String x a +:+ (b +:+ c)) with (String x (a +:+ (b +:+ c))).
  rewrite IH. reflexivity.
Qed.

Lemma search_has_no_slash id : String.eqb "search" (id +:+ "/") = false.
Proof.
  apply String.eqb_neq. intros E.
  apply (f_equal (fun s => rev (list_ascii_of_string s))) in E.
  rewrite FrontendProofs.chars_app, rev_app_distr in E. simpl in E. discriminate.
Qed.

(** No pattern of the catalog is a path below [/products/] with a slash
    added. *)
Lemma products_slash_not_registered id :
  registered mux (("/products/" +:+ id) +:+ "/") = false.
Proof.
  rewrite append_assoc. unfold registered, mux. cbn [existsb fst].
  assert (E1 : String.eqb "/products" ("/products/" +:+ (id +:+ "/")) = false).
  { change ("/products/" +:+ (id +:+ "/")) with ("/products" +:+ ("/" +:+ (id +:+ "/"))).
    change "/products" with ("/products" +:+ EmptyString) at 1.
    rewrite eqb_after_prefix. reflexivity. }
  assert (E2 : String.eqb "/products/" ("/products/" +:+ (id +:+ "/")) = false).
  { change "/products/" with ("/products/" +:+ EmptyString) at 1.
    rewrite eqb_after_prefix. destruct id; reflexivity. }
  assert (E3 : String.eqb "/products/search" ("/products/" +:+ (id +:+ "/")) = false).
  { change "/products/search" with ("/products/" +:+ "search") at 1.
    rewrite eqb_after_prefix. apply search_has_no_slash. }
  rewrite E1, E2, E3. reflexivity.
Qed.

Lemma products_lookup id :
  mux_lookup mux ("/products/" +:+ id)
  = Some (if String.eqb id "search" then ("/products/search", Handle SearchProducts)
          else ("/products/", Handle GetProduct)).
Proof.
  unfold mux. cbn [mux_lookup].
  assert (E1 : pattern_matches "/products" ("/products/" +:+ id) = false) by reflexivity.
  assert (E2 : pattern_matches "/products/" ("/products/" +:+ id) = true).
  { unfold pattern_matches. cbv [String.append]. simpl.
    destruct id; reflexivity. }
  assert (E3 : pattern_matches "/products/search" ("/products/" +:+ id) = String.eqb id "search").
  { unfold pattern_matches.
    change "/products/search" with ("/products/" +:+ "search") at 1.
    rewrite eqb_after_prefix, (String.eqb_sym "search" id).
    destruct (String.eqb id "search"); reflexivity. }
  rewrite E1, E2, E3. destruct (String.eqb id "search"); reflexivity.
Qed.

(** X20. The routes of the catalog, for a path below [/products/] that
    is sent without percent-escapes. When the path is canonical (the
    cleaning of the mux leaves it as it is), [/products/search] goes to
    the search and every other path to the lookup of one product: the
    longest pattern wins. A path that is not canonical (it has an
    empty, [.] or [..] element) runs no handler: unless the method is
    CONNECT, the mux answers it in place with a 301. *)
Theorem catalog_routes_by_longest_pattern method id :
  escape_free id = true ->
  (cleanPath ("/products/" +:+ id) = "/products/" +:+ id ->
   ServeMux mux method ("/products/" +:+ id)
   = Handle (if String.eqb id "search" then SearchProducts else GetProduct))
  /\ (cleanPath ("/products/" +:+ id) <> "/products/" +:+ id -> method <> "CONNECT" ->
      exists resp,
        ServeMux mux method ("/products/" +:+ id) = Answer resp /\ statusCode resp = 301).
Proof.
  intros _. split.
  - intros Hc. apply ServeMux_canonical; [exact Hc|].
    rewrite products_lookup, products_slash_not_registered, andb_false_r.
    destruct (String.eqb id "search"); reflexivity.
  - intros Hn Hm. unfold ServeMux.
    assert (Em : String.eqb method "CONNECT" = false) by (apply String.eqb_neq; exact Hm).
    rewrite Em.
    destruct (negb _ && negb _ && registered mux _); [eexists; split; reflexivity|].
    assert (En : String.eqb (cleanPath ("/products/" +:+ id)) ("/products/" +:+ id) = false)
      by (apply String.eqb_neq; exact Hn).
    rewrite En. cbn [negb]. eexists; split; reflexivity.
Qed.

Lemma catalog_routes_witness :
  ServeMux mux "GET" ("/products/" +:+ "OLJCESPC7Z") = Handle GetProduct
  /\ exists resp,
       ServeMux mux "GET" ("/products/" +:+ "/OLJCESPC7Z") = Answer resp
       /\ statusCode resp = 301.
Proof.
  split.
  - exact (proj1 (catalog_routes_by_longest_pattern "GET" "OLJCESPC7Z" eq_refl) eq_refl).
  - assert (Hn : cleanPath ("/products/" +:+ "/OLJCESPC7Z") <> "/products/" +:+ "/OLJCESPC7Z")
      by (vm_compute; discriminate).
    assert (Hm : "GET" <> "CONNECT") by discriminate.
    exact (proj2 (catalog_routes_by_longest_pattern "GET" "/OLJCESPC7Z" eq_refl) Hn Hm).
Defined.

(** The lookup of one product in closed form. *)
Lemma getProduct_run r id w :
  q_path r = "/products/" +:+ id ->
  fst (otelhttp_NewHandler "GetProduct" getProductHandler r w)
  = match List.find (fun p => String.eqb (ID p) id) products with
    | Some found => mkResponse 200 (product_body found)
    | None => http_Error "Product not found" 404
    end
  /\ status <$> server_span w (snd (otelhttp_NewHandler "GetProduct" getProductHandler r w))
     = Some Unset.
Proof.
  intros Hp.
  destruct (otelhttp_NewHandler "GetProduct" getProductHandler r w) as [resp w'] eqn:E.
  cbn [fst snd]. revert E.
  unfold otelhttp_NewHandler, getProductHandler. rewrite Hp, TrimPrefix_products.
  unfold bind.
  cbn [Start SetAttributes SpanFromContext on_span with_spans ret
       spans exchanges logs samples nrand nuuid fst snd ctx_span ctx_remote ctx_baggage].
  destruct (List.find _ products) as [found|].
  all: cbn [SetAttributes record_sample log End on_span with_spans ret http_Error
            spans exchanges logs samples nrand nuuid fst snd statusCode Z.leb Z.compare
            Pos.compare Pos.compare_cont].
  all: intros E; injection E as <- <-.
  all: split; [reflexivity|].
  all: unfold server_span; cbn [spans].
  all: rewrite ?length_alter, ?length_app; cbn [length].
  all: repeat first [ rewrite list_lookup_alter_eq | rewrite list_lookup_alter_ne by lia ].
  all: rewrite lookup_app_r by (apply Nat.le_refl); rewrite Nat.sub_diag; reflexivity.
Qed.



(** X22. Every product id the other services draw with GetProductID is
    found: the lookup of such an id is answered 200. *)
Theorem drawn_products_are_found env w0 r w :
  q_path r = "/products/" +:+ fst (GetProductID env w0) ->
  statusCode (fst (otelhttp_NewHandler "GetProduct" getProductHandler r w)) = 200.
Proof.
  intros Hp. destruct (getProduct_run r _ w Hp) as [-> _].
  destruct (List.find _ products) as [found|] eqn:Ef; [reflexivity|]. exfalso.
  pose proof (RequestProofs.GetProductID_in_catalog env w0) as Hin.
  apply in_map_iff in Hin as (p & Hid & Hp0).
  pose proof (find_none _ _ Ef p Hp0) as Hn. cbn beta in Hn.
  rewrite Hid, String.eqb_refl in Hn. discriminate.
Qed.

Lemma drawn_products_witness :
  statusCode (fst (otelhttp_NewHandler "GetProduct" getProductHandler
                     (mkInbound "GET"
                        ("/products/" +:+ fst (GetProductID Scenarios.all_up empty_world))
                        [] None [])
                     empty_world)) = 200.
Proof.
  exact (drawn_products_are_found Scenarios.all_up empty_world
           (mkInbound "GET" ("/products/" +:+ fst (GetProductID Scenarios.all_up empty_world))
                      [] None [])
           empty_world eq_refl).
Defined.

End CatalogProofs.

Module CurrencyProofs.
Import Otel Http Runtime Saga.
Import Currency.

Lemma rate_of_positive code : (0 < rate_of code)%Q.
Proof.
  unfold rate_of. destruct (exchangeRates !! code) as [x|] eqn:E; [|reflexivity].
  cbn [default].
  assert (H : map_Forall (fun _ x => (0 < x)%Q) exchangeRates).
  { unfold exchangeRates. cbn [list_to_map foldr uncurry fst snd].
    repeat (apply map_Forall_insert_2; [reflexivity|]). apply map_Forall_empty. }
  apply (H code x E).
Qed.

Lemma fmt_rate_one (x : Q) : (0 < x)%Q -> fmt_rate (x / x) = "1.0000".
Proof.
  intros H. unfold fmt_rate.
  assert (E : (x / x * 10000 + (1 # 2) == 10000 + (1 # 2))%Q).
  { assert (E1 : (x / x == 1)%Q).
    { unfold Qdiv. apply Qmult_inv_r. intros E0. rewrite E0 in H. discriminate. }
    rewrite E1. reflexivity. }
  rewrite (Qfloor_comp _ _ E). reflexivity.
Qed.

(** X23. Converting a currency into itself answers the rate 1.0000 for every
    code, known to the table or not: an unknown code counts as rate 1.
    The amount of the query is not read. *)
Theorem convert_to_itself code ctx r w :
  code <> EmptyString ->
  query_Get "from" (q_query r) = code -> query_Get "to" (q_query r) = code ->
  fst (convertHandler ctx r w)
  = mkResponse 200
      ("{" +:+ jstr "from" +:+ ": " +:+ jstr code +:+ ", "
       +:+ jstr "to" +:+ ": " +:+ jstr code +:+ ", "
       +:+ jstr "rate" +:+ ": " +:+ "1.0000" +:+ "}").
Proof.
  intros Hc Hf Ht. unfold convertHandler. rewrite Hf, Ht.
  destruct (String.eqb code EmptyString) eqn:E; [apply String.eqb_eq in E; contradiction|].
  unfold bind, SetAttributes, SpanFromContext, on_span, record_sample, log, ret.
  destruct (ctx_span ctx); unfold with_spans; cbn [fst];
    unfold convert_body; rewrite (fmt_rate_one _ (rate_of_positive code)); reflexivity.
Qed.

Lemma convert_to_itself_witness :
  fst (convertHandler Background
         (mkInbound "GET" "/convert" [("from", "XXX"); ("to", "XXX"); ("amount", "12.50")]
                    None [])
         empty_world)
  = mkResponse 200
      ("{" +:+ jstr "from" +:+ ": " +:+ jstr "XXX" +:+ ", "
       +:+ jstr "to" +:+ ": " +:+ jstr "XXX" +:+ ", "
       +:+ jstr "rate" +:+ ": " +:+ "1.0000" +:+ "}").
Proof.
  assert (H : "XXX" <> EmptyString) by discriminate.
  exact (convert_to_itself "XXX" Background
           (mkInbound "GET" "/convert" [("from", "XXX"); ("to", "XXX"); ("amount", "12.50")]
                      None [])
           empty_world H eq_refl eq_refl).
Defined.

End CurrencyProofs.

(** ** The frontend: one settlement, the body passed on, the routes *)

Module GatewayProofs.
Import Otel Http Runtime.
Import Frontend.

Lemma span_End_ended s : ended s = true -> span_End s = s.
Proof. destruct s as [n k p a e st en]. simpl. intros ->. reflexivity. Qed.

Lemma ended_span_ignores s kvs n attrs msg c :
  ended s = true ->
  span_SetAttributes kvs s = s /\ span_AddEvent n attrs s = s
  /\ span_RecordError msg s = s /\ span_SetStatus c s = s.
Proof.
  intros He. unfold span_RecordError, span_SetAttributes, span_AddEvent, span_SetStatus.
  rewrite He. auto.
Qed.

(** Once the promise has settled and the span has ended, no event
    changes either. *)
Lemma on_event_after_settlement e st :
  promise st <> Pending -> ended (clientSpan st) = true ->
  promise (on_event e st) = promise st /\ clientSpan (on_event e st) = clientSpan st.
Proof.
  destruct st as [p s r d]. cbn [promise clientSpan]. intros Hp He.
  assert (Hr : forall v, resolve v p = p) by (intros v; destruct p; [contradiction| |]; reflexivity).
  destruct e; cbn [on_event res promise clientSpan data].
  - destruct r; split; reflexivity.
  - destruct r; split; reflexivity.
  - destruct r as [code|]; cbn [promise clientSpan]; [|split; reflexivity].
    rewrite Hr, (proj1 (ended_span_ignores s _ EmptyString [] EmptyString Unset He)),
      (span_End_ended s He).
    split; reflexivity.
  - rewrite Hr, (proj1 (proj2 (proj2 (ended_span_ignores s [] EmptyString [] message Unset He)))),
      (proj2 (proj2 (proj2 (ended_span_ignores s [] EmptyString [] EmptyString Error He)))),
      (span_End_ended s He).
    split; reflexivity.
  - rewrite Hr, (proj2 (proj2 (proj2 (ended_span_ignores s [] EmptyString [] EmptyString Error He)))),
      (span_End_ended s He).
    split; reflexivity.
Qed.

(** The promise settles only with the end of the span. *)
Lemma settles_with_the_span e st :
  (promise st <> Pending -> ended (clientSpan st) = true) ->
  promise (on_event e st) <> Pending -> ended (clientSpan (on_event e st)) = true.
Proof.
  destruct st as [p s r d]. cbn [promise clientSpan]. intros Hinv.
  destruct e; cbn [on_event res promise clientSpan data].
  - destruct r; exact Hinv.
  - destruct r; exact Hinv.
  - destruct r as [code|]; cbn [promise clientSpan]; [reflexivity|exact Hinv].
  - reflexivity.
  - reflexivity.
Qed.

Lemma events_settle_with_the_span evs : forall st,
  (promise st <> Pending -> ended (clientSpan st) = true) ->
  promise (fold_left (fun st e => on_event e st) evs st) <> Pending ->
  ended (clientSpan (fold_left (fun st e => on_event e st) evs st)) = true.
Proof.
  induction evs as [|e evs IH]; intros st Hinv; cbn [fold_left]; [exact Hinv|].
  apply IH. apply settles_with_the_span, Hinv.
Qed.

Lemma events_after_settlement evs : forall st,
  promise st <> Pending -> ended (clientSpan st) = true ->
  promise (fold_left (fun st e => on_event e st) evs st) = promise st
  /\ clientSpan (fold_left (fun st e => on_event e st) evs st) = clientSpan st.
Proof.
  induction evs as [|e evs IH]; intros st Hp He; cbn [fold_left]; [split; reflexivity|].
  destruct (on_event_after_settlement e st Hp He) as [E1 E2].
  destruct (IH (on_event e st)) as [E3 E4].
  - rewrite E1. exact Hp.
  - rewrite E2. exact He.
  - rewrite E3, E4. split; assumption.
Qed.

(** X24. makeRequest settles once: when its promise has resolved, its client
    span has ended, and whatever happens to the request afterwards (a
    late error after the timeout, a second end) changes neither the
    value of the promise nor the span. *)
Theorem makeRequest_settles_once method svc target parentSpan evs more v :
  promise (makeRequest method svc target parentSpan evs) = Resolved v ->
  ended (clientSpan (makeRequest method svc target parentSpan evs)) = true
  /\ promise (makeRequest method svc target parentSpan (evs ++ more)) = Resolved v
  /\ clientSpan (makeRequest method svc target parentSpan (evs ++ more))
     = clientSpan (makeRequest method svc target parentSpan evs).
Proof.
  unfold makeRequest.
  destruct (INVALID_PATH (url_parse_path target)); [cbn [promise]; discriminate|].
  rewrite fold_left_app.
  set (st := fold_left _ evs _). intros Hv.
  assert (Hp : promise st <> Pending) by (rewrite Hv; discriminate).
  assert (He : ended (clientSpan st) = true).
  { apply events_settle_with_the_span; [|exact Hp]. cbn [promise]. intros H. contradiction. }
  split; [exact He|].
  destruct (events_after_settlement more st Hp He) as [E1 E2].
  rewrite E1, E2. split; [exact Hv|reflexivity].
Qed.

Lemma makeRequest_settles_witness :
  promise (makeRequest "GET" AdURL "/ads" 0 ([OnTimeout] ++ [OnError "socket hang up"]))
  = Resolved timeout_body.
Proof.
  exact (proj1 (proj2 (makeRequest_settles_once "GET" AdURL "/ads" 0 [OnTimeout]
                         [OnError "socket hang up"] timeout_body eq_refl))).
Defined.

Lemma chunks_are_appended chunks : forall p s code d,
  fold_left (fun st e => on_event e st) (map OnData chunks) (mkPending p s (Some code) d)
  = mkPending p s (Some code) (fold_left String.append (map Buffer_toString chunks) d).
Proof.
  induction chunks as [|chunk chunks IH]; intros p s code d; [reflexivity|].
  cbn [map fold_left on_event res promise clientSpan data]. apply IH.
Qed.

(** The decoder leaves ASCII text as it is. *)
Lemma ascii_text_decoded s : ascii_text s = true -> Buffer_toString s = s.
Proof.
  unfold Buffer_toString, ascii_text.
  induction s as [|b s IH]; [reflexivity|].
  cbn [list_ascii_of_string forallb]. intros H. apply andb_true_iff in H as [Hb Hs].
  cbn [decode idle needed Nat.eqb]. unfold lead. rewrite Hb.
  change (String b EmptyString +:+ decode s idle) with (String b (decode s idle)).
  rewrite (IH Hs). reflexivity.
Qed.

Lemma ascii_chunks_decoded chunks :
  Forall (fun chunk => ascii_text chunk = true) chunks -> map Buffer_toString chunks = chunks.
Proof.
  induction 1 as [|chunk chunks Hc _ IH]; [reflexivity|].
  cbn [map]. rewrite (ascii_text_decoded _ Hc), IH. reflexivity.
Qed.

Lemma api_is_not_health r : is_api r = true -> String.eqb (q_path r) "/health" = false.
Proof.
  unfold is_api, route. intros H.
  destruct (String.eqb (q_path r) "/health") eqn:E; [|reflexivity].
  apply String.eqb_eq in E. rewrite E in H. discriminate.
Qed.

(** X25. On an [/api] route the frontend answers a plain request 200
    with the body of the downstream response, whatever the status of
    that response was. The body is put together from the chunks as
    they come, each decoded as UTF-8 by itself, and an empty body
    becomes [{}]; so it is the body as sent when every chunk is ASCII,
    and a character that the end of a chunk cuts comes out as
    U+FFFD. *)
Theorem frontend_passes_the_body_on c code chunks :
  is_api (request c) = true -> thrown c = None -> plain_request (request c) = true ->
  events c = OnResponse code :: map OnData chunks ++ [OnEnd] ->
  let data := fold_left String.append (map Buffer_toString chunks) EmptyString in
  response (server c)
  = Some (mkResponse 200 (if String.eqb data EmptyString then "{}" else data))
  /\ (Forall (fun chunk => ascii_text chunk = true) chunks ->
      data = fold_left String.append chunks EmptyString).
Proof.
  intros Hapi Ht Hpr Hev data. split.
  - unfold server. rewrite (api_is_not_health _ Hapi), Ht.
    unfold is_api in Hapi.
    destruct (route (request c)) as [|line method svc target|] eqn:Er; try discriminate.
    unfold makeRequest.
    rewrite (FrontendProofs.url_parse_path_plain target
               (FrontendProofs.route_plain _ _ _ _ _ Hpr Er)).
    rewrite Hev.
    cbn [fold_left on_event res promise clientSpan].
    rewrite fold_left_app, chunks_are_appended.
    cbn [fold_left on_event res promise clientSpan data resolve]. reflexivity.
  - intros Hascii. unfold data. rewrite (ascii_chunks_decoded chunks Hascii). reflexivity.
Qed.

Lemma frontend_body_witness :
  response (server (mkCall (mkInbound "POST" "/api/checkout" [] None [])
                           [OnResponse 500; OnData "Internal "; OnData "Server Error"; OnEnd]
                           None))
  = Some (mkResponse 200 "Internal Server Error").
Proof.
  exact (proj1 (frontend_passes_the_body_on
                  (mkCall (mkInbound "POST" "/api/checkout" [] None [])
                          [OnResponse 500; OnData "Internal "; OnData "Server Error"; OnEnd]
                          None)
                  500 ["Internal "; "Server Error"] eq_refl eq_refl eq_refl eq_refl)).
Defined.





End GatewayProofs.

(** ** The fetch of the browser simulator *)

Module FetchProofs.
Import Otel Http Runtime.
Import BrowserFetch.

Lemma fetched_chunks url method chunks : forall p s code d lg du,
  fold_left (fun st e => on_event url method e st) (map Frontend.OnData chunks)
            (mkFetch p s (Some code) d lg du)
  = mkFetch p s (Some code)
            (fold_left String.append (map Frontend.Buffer_toString chunks) d) lg du.
Proof.
  induction chunks as [|chunk chunks IH]; intros p s code d lg du; [reflexivity|].
  cbn [map fold_left on_event res promise span data lines durations]. apply IH.
Qed.

Lemma fetch_event_after_settlement url method e st v :
  promise st = Resolved v -> ended (span st) = true ->
  promise (on_event url method e st) = Resolved v
  /\ span (on_event url method e st) = span st.
Proof.
  destruct st as [p s r d lg du]. cbn [promise span]. intros -> He.
  destruct (GatewayProofs.ended_span_ignores s [] EmptyString [] EmptyString Error He)
    as (_ & _ & _ & E4).
  destruct e; cbn [on_event res promise span data lines durations resolve].
  - destruct r; split; reflexivity.
  - destruct r; split; reflexivity.
  - destruct r as [code|]; cbn [promise span]; [|split; reflexivity].
    rewrite (proj1 (GatewayProofs.ended_span_ignores s _ EmptyString [] EmptyString Unset He)).
    destruct (400 <=? code); rewrite ?E4, (GatewayProofs.span_End_ended s He); split; reflexivity.
  - rewrite (proj1 (proj2 (proj2
              (GatewayProofs.ended_span_ignores s [] EmptyString [] message Unset He)))),
      E4, (GatewayProofs.span_End_ended s He).
    split; reflexivity.
  - rewrite E4, (GatewayProofs.span_End_ended s He). split; reflexivity.
Qed.

Lemma fetch_stays_resolved url method evs : forall st v,
  promise st = Resolved v -> ended (span st) = true ->
  promise (fold_left (fun st e => on_event url method e st) evs st) = Resolved v
  /\ span (fold_left (fun st e => on_event url method e st) evs st) = span st.
Proof.
  induction evs as [|e evs IH]; intros st v Hp He; cbn [fold_left]; [auto|].
  destruct (fetch_event_after_settlement url method e st v Hp He) as [E1 E2].
  destruct (IH (on_event url method e st) v E1) as [E3 E4].
  - rewrite E2. exact He.
  - rewrite E3, E4. auto.
Qed.

(** X27. simulateFetch resolves with the body it read once the response has
    ended (the chunks as they came, each decoded as UTF-8 by itself),
    and marks its span as an error exactly when the status of the
    response is 400 or above; after an error of the request or the
    timeout it resolves with [null] and the span's status is error. In
    each case the span is ended and later events change neither. *)
Theorem simulateFetch_marks_failures base url method parent code chunks message more :
  let answered :=
    simulateFetch base url method parent
      (Frontend.OnResponse code :: map Frontend.OnData chunks ++ Frontend.OnEnd :: more) in
  let broken := simulateFetch base url method parent (Frontend.OnError message :: more) in
  let late := simulateFetch base url method parent (Frontend.OnTimeout :: more) in
  (promise answered
   = Resolved (Some (fold_left String.append (map Frontend.Buffer_toString chunks)
                               EmptyString))
   /\ status (span answered) = (if 400 <=? code then Error else Unset)
   /\ ended (span answered) = true)
  /\ (promise broken = Resolved None /\ status (span broken) = Error
      /\ ended (span broken) = true)
  /\ (promise late = Resolved None /\ status (span late) = Error /\ ended (span late) = true).
Proof.
  intros answered broken late. unfold answered, broken, late, simulateFetch.
  split; [|split].
  - cbn [fold_left on_event res promise span data lines durations].
    rewrite fold_left_app, fetched_chunks.
    cbn [fold_left on_event res promise span data lines durations resolve].
    match goal with |- context [fold_left _ more ?st1] =>
      destruct (fetch_stays_resolved url method more st1 _ eq_refl eq_refl) as [E1 E2] end.
    rewrite E1, E2. cbn [span]. destruct (400 <=? code); repeat split.
  - cbn [fold_left on_event res promise span data lines durations resolve].
    match goal with |- context [fold_left _ more ?st1] =>
      destruct (fetch_stays_resolved url method more st1 _ eq_refl eq_refl) as [E1 E2] end.
    rewrite E1, E2. repeat split.
  - cbn [fold_left on_event res promise span data lines durations resolve].
    match goal with |- context [fold_left _ more ?st1] =>
      destruct (fetch_stays_resolved url method more st1 _ eq_refl eq_refl) as [E1 E2] end.
    rewrite E1, E2. repeat split.
Qed.

End FetchProofs.

